(** * eea-fleet: the configuration-resolution pipeline

    A shallow embedding of the parts of [src/utils/src/core.py],
    [src/utils/src/models.py] and [src/utils/src/screens.py] that decide the
    behaviour of the chart catalog cache, the release-metadata decoder, the
    configuration resolver and the artifact generator, with the settings
    store, the namespace listing and the deployment of the config object.

    Conventions.
    - Python values that come out of [json.loads] / [yaml.safe_load] are
      dynamically typed; they are modelled by [pyval] (floats are left out).
    - Python text is a Rocq [string]; characters beyond ASCII are carried as
      their bytes, so [str.strip] and [str.lower] act on the ASCII range.
    - An exception is a value of [exn]; code that may raise returns [res].
      Every class in [exn_class] is a subclass of Python's [Exception].
    - Library and process boundaries (subprocess, base64, gzip, json, yaml,
      datetime parsing) are the fields of the class [Externals]; the modules
      [Sample] and [Fixture] give two instances on which the model runs.
    - Module-level state of [core.py] is passed explicitly. *)

From Stdlib Require Import ZArith String Ascii List Bool Lia Sorted.
From Stdlib Require Import DecimalString.
From stdpp Require Import base option list strings gmap.

Set Warnings "-register-all".
Local Open Scope string_scope.
Local Open Scope list_scope.

(** ** Python values *)

Module Py.

Inductive pyval : Type :=
| PNone
| PBool (b : bool)
| PInt (z : Z)
| PStr (s : string)
| PList (l : list pyval)
| PDict (d : list (string * pyval)).

(** A [dict] with string keys; a key is bound at most once in a Python dict
    and [dict_lookup] reads the first binding. *)
Definition dict : Type := list (string * pyval).

Inductive exn_class : Type :=
| JSONDecodeError | BinasciiError | UnicodeDecodeError | ValueError
| BadGzipFile | EOFError | ZlibError | OSError
| AttributeError | TypeError | YAMLError.

Record exn : Type := mkExn { exn_kind : exn_class; exn_msg : string }.

Inductive res (A : Type) : Type :=
| Ok (a : A)
| Raise (e : exn).
Arguments Ok {A} a.
Arguments Raise {A} e.

Definition bind {A B : Type} (m : res A) (k : A -> res B) : res B :=
  match m with
  | Ok a => k a
  | Raise e => Raise e
  end.

Notation "'let*' x ':=' m 'in' k" := (bind m (fun x => k))
  (at level 10, x name, m at level 100, k at level 200).

Definition raise {A : Type} (c : exn_class) (msg : string) : res A :=
  Raise (mkExn c msg).

(** [try: body except cls1: h1 ... ] : the first clause whose classes match
    handles the exception; an exception no clause matches propagates. *)
Fixpoint try_except {A : Type} (body : res A)
    (clauses : list ((exn_class -> bool) * (exn -> res A))) : res A :=
  match body with
  | Ok a => Ok a
  | Raise e =>
      match clauses with
      | [] => Raise e
      | (matches, handler) :: rest =>
          if matches (exn_kind e) then handler e
          else try_except (Raise e) rest
      end
  end.

(** Python's class hierarchy, as far as the [except] clauses of the source
    need it. *)
Definition isinstance_JSONDecodeError (c : exn_class) : bool :=
  match c with JSONDecodeError => true | _ => false end.

Definition isinstance_binascii_or_ValueError (c : exn_class) : bool :=
  match c with
  | JSONDecodeError | BinasciiError | UnicodeDecodeError | ValueError => true
  | _ => false
  end.

Definition isinstance_BadGzipFile (c : exn_class) : bool :=
  match c with BadGzipFile => true | _ => false end.

Definition isinstance_Exception (c : exn_class) : bool :=
  match c with
  | JSONDecodeError | BinasciiError | UnicodeDecodeError | ValueError
  | BadGzipFile | EOFError | ZlibError | OSError
  | AttributeError | TypeError | YAMLError => true
  end.

(** Truth value of a Python object ([bool(v)]). *)
Definition truthy (v : pyval) : bool :=
  match v with
  | PNone => false
  | PBool b => b
  | PInt z => negb (z =? 0)%Z
  | PStr EmptyString => false
  | PStr _ => true
  | PList [] => false
  | PList _ => true
  | PDict [] => false
  | PDict _ => true
  end.

(** [bool(l)] for a list or dict *)
Definition list_nonempty {A : Type} (l : list A) : bool :=
  match l with [] => false | _ => true end.

(** [a or b] *)
Definition py_or (a b : pyval) : pyval := if truthy a then a else b.

(** [v == "literal"] *)
Definition py_eq_str (v : pyval) (s : string) : bool :=
  match v with
  | PStr t => String.eqb t s
  | _ => false
  end.

Definition isinstance_dict (v : pyval) : bool :=
  match v with PDict _ => true | _ => false end.

Fixpoint dict_lookup (d : dict) (k : string) : option pyval :=
  match d with
  | [] => None
  | (k', v) :: rest => if String.eqb k' k then Some v else dict_lookup rest k
  end.

(** [d.get(k, default)] on a dict *)
Definition dict_get (d : dict) (k : string) (default : pyval) : pyval :=
  match dict_lookup d k with
  | Some v => v
  | None => default
  end.

(** [type(v).__name__] *)
Definition type_name (v : pyval) : string :=
  match v with
  | PNone => "NoneType"
  | PBool _ => "bool"
  | PInt _ => "int"
  | PStr _ => "str"
  | PList _ => "list"
  | PDict _ => "dict"
  end.

(** The [AttributeError] of [v.attr] on an object without that attribute. *)
Definition no_attribute {A : Type} (v : pyval) (attr : string) : res A :=
  raise AttributeError
    ("'" +:+ type_name v +:+ "' object has no attribute '" +:+ attr +:+ "'").

(** [v.get(k, default)] on any object: only a dict has [get]. *)
Definition py_get (v : pyval) (k : string) (default : pyval) : res pyval :=
  match v with
  | PDict d => Ok (dict_get d k default)
  | _ => no_attribute v "get"
  end.

(** [list(v.keys())] *)
Definition py_keys (v : pyval) : res (list string) :=
  match v with
  | PDict d => Ok (map fst d)
  | _ => no_attribute v "keys"
  end.

(** [len(v)] *)
Definition py_len (v : pyval) : res nat :=
  match v with
  | PStr s => Ok (String.length s)
  | PList l => Ok (length l)
  | PDict d => Ok (length d)
  | _ => raise TypeError ("object of type '" +:+ type_name v +:+ "' has no len()")
  end.

(** [for x in v]: the items a loop over [v] visits. A [str] gives its
    characters, a dict its keys. *)
Definition py_iter (v : pyval) : res (list pyval) :=
  match v with
  | PList l => Ok l
  | PStr s =>
      Ok (map (fun c => PStr (String c EmptyString)) (list_ascii_of_string s))
  | PDict d => Ok (map (fun kv => PStr (fst kv)) d)
  | _ => raise TypeError ("'" +:+ type_name v +:+ "' object is not iterable")
  end.

(** [v[:n]]. A dict takes the slice for a key: Python up to 3.11 cannot
    hash it (from 3.12 on the lookup fails with a [KeyError] instead). *)
Definition py_take (n : nat) (v : pyval) : res pyval :=
  match v with
  | PList l => Ok (PList (firstn n l))
  | PStr s => Ok (PStr (String.substring 0 n s))
  | PDict _ => raise TypeError "unhashable type: 'slice'"
  | _ => raise TypeError ("'" +:+ type_name v +:+ "' object is not subscriptable")
  end.

(** ** Text *)

Definition dquote : ascii := ascii_of_nat 34.

(** Whitespace removed by [str.strip()], ASCII range. *)
Definition isspace (a : ascii) : bool :=
  let n := nat_of_ascii a in
  ((9 <=? n)%nat && (n <=? 13)%nat) || ((28 <=? n)%nat && (n <=? 32)%nat).

Fixpoint lstrip_chars (l : list ascii) : list ascii :=
  match l with
  | [] => []
  | a :: t => if isspace a then lstrip_chars t else l
  end.

Definition strip (s : string) : string :=
  string_of_list_ascii
    (rev (lstrip_chars (rev (lstrip_chars (list_ascii_of_string s))))).

Definition str_nonempty (s : string) : bool :=
  match s with EmptyString => false | _ => true end.

Definition startswith (s p : string) : bool := String.prefix p s.

Definition endswith (s p : string) : bool :=
  String.prefix (string_of_list_ascii (rev (list_ascii_of_string p)))
                (string_of_list_ascii (rev (list_ascii_of_string s))).

(** [s[1:-1]] *)
Definition slice_1_m1 (s : string) : string :=
  string_of_list_ascii (removelast (tl (list_ascii_of_string s))).

(** [needle in hay] *)
Fixpoint contains (hay needle : string) : bool :=
  String.prefix needle hay ||
  match hay with
  | EmptyString => false
  | String _ t => contains t needle
  end.

(** [s.replace(old, new)] for one-character [old] and [new]. *)
Fixpoint replace_char (old new : ascii) (s : string) : string :=
  match s with
  | EmptyString => EmptyString
  | String c t =>
      String (if Ascii.eqb c old then new else c) (replace_char old new t)
  end.

(** [s.lower()], ASCII range. *)
Definition lower_char (a : ascii) : ascii :=
  let n := nat_of_ascii a in
  if (65 <=? n)%nat && (n <=? 90)%nat then ascii_of_nat (n + 32) else a.

Fixpoint lower (s : string) : string :=
  match s with
  | EmptyString => EmptyString
  | String c t => String (lower_char c) (lower t)
  end.

(** [v.lower()]: only a [str] has [lower]. *)
Definition py_lower (v : pyval) : res string :=
  match v with
  | PStr s => Ok (lower s)
  | _ => no_attribute v "lower"
  end.

(** [" ".join(args)]: raises [TypeError] unless every item is a [str];
    [index] is the position of the first item of [args] in the sequence. *)
Fixpoint join_space_from (index : nat) (args : list pyval) : res string :=
  match args with
  | [] => Ok EmptyString
  | PStr s :: rest =>
      let* r := join_space_from (S index) rest in
      Ok (match rest with [] => s | _ => s +:+ " " +:+ r end)
  | v :: _ =>
      raise TypeError
        ("sequence item " +:+ NilZero.string_of_uint (Nat.to_uint index)
           +:+ ": expected str instance, " +:+ type_name v +:+ " found")
  end.

Definition join_space (args : list pyval) : res string :=
  join_space_from 0 args.

End Py.
Export Py.

(** ** The outside world *)

Module Env.

Definition bytes : Type := list Byte.byte.

(** [datetime]: microseconds on the local time line and, for an aware value,
    the UTC offset in microseconds. *)
Record datetime : Type := mkDatetime { micros : Z; utcoffset : option Z }.

Class Externals : Type := {
  (** [subprocess.run] behind [run_rancher_command], [run_helm_command] and
      [run_helm_with_kubeconfig]: (returncode == 0, captured text). The
      wrappers catch every exception of the call and report failure. *)
  run_rancher_command : list pyval -> bool * string;
  run_helm_command : list string -> bool * string;
  run_helm_with_kubeconfig : list pyval -> string -> bool * string;
  (** [tempfile.NamedTemporaryFile(...)] followed by [f.write(content)] *)
  write_temp_file : string -> res string;
  json_loads : string -> res pyval;
  json_dumps : pyval -> string;
  b64decode : string -> res bytes;
  utf8_decode : bytes -> res string;
  gzip_decompress : bytes -> res bytes;
  yaml_safe_load : string -> res pyval;
  yaml_dump : pyval -> res string;
  (** [str(v)] for a value that is not a [str] *)
  py_repr : pyval -> string;
  fromisoformat : string -> res datetime;
  isoformat : datetime -> string
}.

(** [str(v)], as an f-string applies it *)
Definition py_str {E : Externals} (v : pyval) : string :=
  match v with
  | PStr s => s
  | _ => py_repr v
  end.

End Env.
Export Env.

(** ** Release-metadata decoder ([core.get_helm_release_secret_metadata]) *)

Module Decoder.
Section WithExternals.
Context {E : Externals}.

(** [base64.b64decode(v)]: a [str] is decoded, any other value of [pyval]
    is not bytes-like. *)
Definition b64decode_val (v : pyval) : res bytes :=
  match v with
  | PStr s => b64decode s
  | _ =>
      raise TypeError
        ("argument should be a bytes-like object or ASCII string, not '"
           +:+ type_name v +:+ "'")
  end.

Definition secret_name_of (release_name : pyval) : string :=
  "sh.helm.release.v1." +:+ py_str release_name +:+ ".v1".

Definition kubectl_args (release_name namespace : pyval) : list pyval :=
  [PStr "kubectl"; PStr "get"; PStr "secret";
   PStr (secret_name_of release_name); PStr "-n"; namespace;
   PStr "-o"; PStr "json"].

(** [secret_data.get("data", {}).get("release", "")], with the two
    [list(....keys())] the debug lines evaluate on the way. *)
Definition stage_secret (output : string) : res pyval :=
  let* secret_data := json_loads output in
  let* _ := py_keys secret_data in
  let* data_section := py_get secret_data "data" (PDict []) in
  let* _ := py_keys data_section in
  py_get data_section "release" (PStr EmptyString).

(** First base64 decode, to text. *)
Definition stage_b64_first (release_data : pyval) : res string :=
  let* _ := py_len release_data in
  let* raw := b64decode_val release_data in
  utf8_decode raw.

(** Remove quotes if present. *)
Definition stage_unquote (decoded_once : string) : string :=
  if startswith decoded_once (String dquote EmptyString)
     && endswith decoded_once (String dquote EmptyString)
  then slice_1_m1 decoded_once
  else decoded_once.

(** Second base64 decode. *)
Definition stage_b64_second (decoded_once : string) : res bytes :=
  b64decode decoded_once.

(** Gzip decompress, to text. *)
Definition stage_gunzip (decoded_twice : bytes) : res string :=
  let* raw := gzip_decompress decoded_twice in
  utf8_decode raw.

(** Parse the JSON. *)
Definition stage_json (decompressed : string) : res pyval :=
  let* release_json := json_loads decompressed in
  let* _ := py_keys release_json in
  Ok release_json.

(** Extract chart metadata. *)
Definition stage_metadata (release_json : pyval) : res dict :=
  let* chart_section := py_get release_json "chart" (PDict []) in
  let* chart_metadata :=
    (if isinstance_dict chart_section
     then py_get chart_section "metadata" (PDict [])
     else Ok (PDict [])) in
  let* name := py_get chart_metadata "name" (PStr EmptyString) in
  let* version := py_get chart_metadata "version" (PStr EmptyString) in
  let* appVersion := py_get chart_metadata "appVersion" (PStr EmptyString) in
  let* description := py_get chart_metadata "description" (PStr EmptyString) in
  Ok [("name", name); ("version", version);
      ("appVersion", appVersion); ("description", description)].

(** The body of the inner [try]. *)
Definition decode_secret (output : string) : res dict :=
  let* release_data := stage_secret output in
  if negb (truthy release_data) then Ok []
  else
    let* decoded_once := stage_b64_first release_data in
    let* decoded_twice := stage_b64_second (stage_unquote decoded_once) in
    let* decompressed := stage_gunzip decoded_twice in
    let* release_json := stage_json decompressed in
    stage_metadata release_json.

Definition get_helm_release_secret_metadata
    (release_name namespace : pyval) (kubeconfig_path : string) : res dict :=
  try_except
    (let* _ := join_space (kubectl_args release_name namespace) in
     let '(success, output) :=
       run_rancher_command (kubectl_args release_name namespace) in
     if negb success || negb (str_nonempty (strip output)) then Ok []
     else
       try_except (decode_secret output)
         [(isinstance_JSONDecodeError, fun _ => Ok []);
          (isinstance_binascii_or_ValueError, fun _ => Ok []);
          (isinstance_BadGzipFile, fun _ => Ok []);
          (isinstance_Exception, fun _ => Ok [])])
    [(isinstance_Exception, fun _ => Ok [])].

(** What the two [try] blocks amount to once every handler returns the
    empty dict: the decoder as one expression without handlers
    ([decoder_unfold] proves the two equal). *)
Definition decoder_value (release_name namespace : pyval) : dict :=
  match join_space (kubectl_args release_name namespace) with
  | Raise _ => []
  | Ok _ =>
      let '(success, output) :=
        run_rancher_command (kubectl_args release_name namespace) in
      if negb success || negb (str_nonempty (strip output)) then []
      else match decode_secret output with Ok d => d | Raise _ => [] end
  end.

(** *** What "a failure at a stage" and "a successful decode" mean *)

Definition empty_str : pyval := PStr EmptyString.

(** Every field of the metadata record reads as the empty string. *)
Definition all_fields_empty (d : dict) : Prop :=
  dict_get d "name" empty_str = empty_str /\
  dict_get d "version" empty_str = empty_str /\
  dict_get d "appVersion" empty_str = empty_str /\
  dict_get d "description" empty_str = empty_str.

(** The secret was fetched: the command ran, succeeded and printed
    something. *)
Definition fetched (release_name namespace : pyval) (output : string) : Prop :=
  (exists line, join_space (kubectl_args release_name namespace) = Ok line) /\
  run_rancher_command (kubectl_args release_name namespace) = (true, output) /\
  str_nonempty (strip output) = true.

(** The release document carries no [chart.metadata]. *)
Definition metadata_absent (release_json : pyval) : Prop :=
  exists r, release_json = PDict r /\
    (dict_lookup r "chart" = None \/
     (exists v, dict_lookup r "chart" = Some v /\ isinstance_dict v = false) \/
     (exists c, dict_lookup r "chart" = Some (PDict c) /\
                dict_lookup c "metadata" = None)).

(** The pipeline up to the parsed release document. *)
Inductive reaches_json (release_name namespace : pyval) (release_json : pyval)
    : Prop :=
| reaches_json_intro (output : string) (release_data : pyval)
    (decoded_once : string) (decoded_twice : bytes) (decompressed : string) :
    fetched release_name namespace output ->
    stage_secret output = Ok release_data ->
    truthy release_data = true ->
    stage_b64_first release_data = Ok decoded_once ->
    stage_b64_second (stage_unquote decoded_once) = Ok decoded_twice ->
    stage_gunzip decoded_twice = Ok decompressed ->
    stage_json decompressed = Ok release_json ->
    reaches_json release_name namespace release_json.

(** A failure at some stage, one constructor per stage. *)
Inductive stage_failure (release_name namespace : pyval) : Prop :=
| command_line_failed (e : exn) :
    join_space (kubectl_args release_name namespace) = Raise e ->
    stage_failure release_name namespace
| fetch_failed (success : bool) (output : string) :
    run_rancher_command (kubectl_args release_name namespace)
      = (success, output) ->
    success = false \/ str_nonempty (strip output) = false ->
    stage_failure release_name namespace
| secret_malformed (output : string) (e : exn) :
    fetched release_name namespace output ->
    stage_secret output = Raise e ->
    stage_failure release_name namespace
| release_field_missing (output : string) (release_data : pyval) :
    fetched release_name namespace output ->
    stage_secret output = Ok release_data ->
    truthy release_data = false ->
    stage_failure release_name namespace
| first_base64_failed (output : string) (release_data : pyval) (e : exn) :
    fetched release_name namespace output ->
    stage_secret output = Ok release_data ->
    truthy release_data = true ->
    stage_b64_first release_data = Raise e ->
    stage_failure release_name namespace
| second_base64_failed (output : string) (release_data : pyval)
    (decoded_once : string) (e : exn) :
    fetched release_name namespace output ->
    stage_secret output = Ok release_data ->
    truthy release_data = true ->
    stage_b64_first release_data = Ok decoded_once ->
    stage_b64_second (stage_unquote decoded_once) = Raise e ->
    stage_failure release_name namespace
| gunzip_failed (output : string) (release_data : pyval)
    (decoded_once : string) (decoded_twice : bytes) (e : exn) :
    fetched release_name namespace output ->
    stage_secret output = Ok release_data ->
    truthy release_data = true ->
    stage_b64_first release_data = Ok decoded_once ->
    stage_b64_second (stage_unquote decoded_once) = Ok decoded_twice ->
    stage_gunzip decoded_twice = Raise e ->
    stage_failure release_name namespace
| json_failed (output : string) (release_data : pyval)
    (decoded_once : string) (decoded_twice : bytes) (decompressed : string)
    (e : exn) :
    fetched release_name namespace output ->
    stage_secret output = Ok release_data ->
    truthy release_data = true ->
    stage_b64_first release_data = Ok decoded_once ->
    stage_b64_second (stage_unquote decoded_once) = Ok decoded_twice ->
    stage_gunzip decoded_twice = Ok decompressed ->
    stage_json decompressed = Raise e ->
    stage_failure release_name namespace
| metadata_not_an_object (release_json : pyval) (e : exn) :
    reaches_json release_name namespace release_json ->
    stage_metadata release_json = Raise e ->
    stage_failure release_name namespace
| metadata_missing (release_json : pyval) :
    reaches_json release_name namespace release_json ->
    metadata_absent release_json ->
    stage_failure release_name namespace.

(** Every stage succeeded and [chart.metadata] is the object [m]. *)
Definition decoded_from (release_name namespace : pyval) (m : dict) : Prop :=
  exists release_json r c,
    reaches_json release_name namespace release_json /\
    release_json = PDict r /\
    dict_lookup r "chart" = Some (PDict c) /\
    dict_lookup c "metadata" = Some (PDict m).

(** The four fields of [m], absent ones reading as the empty string. *)
Definition four_fields (m : dict) : dict :=
  [("name", dict_get m "name" empty_str);
   ("version", dict_get m "version" empty_str);
   ("appVersion", dict_get m "appVersion" empty_str);
   ("description", dict_get m "description" empty_str)].

(** *** The encoding side

    Helm writes the payload; the repository only reads it. A well-formed
    payload is built here stage by stage, from encoders that are parameters,
    to state the round trip. *)

Definition is_base64_char (a : ascii) : bool :=
  let n := nat_of_ascii a in
  ((65 <=? n)%nat && (n <=? 90)%nat) || ((97 <=? n)%nat && (n <=? 122)%nat)
  || ((48 <=? n)%nat && (n <=? 57)%nat)
  || (n =? 43)%nat || (n =? 47)%nat || (n =? 61)%nat.

Definition is_base64_text (s : string) : bool :=
  forallb is_base64_char (list_ascii_of_string s).

Definition quote_wrap (s : string) : string :=
  String dquote (s +:+ String dquote EmptyString).

Section Encoding.
Variable json_encode : pyval -> string.
Variable utf8_encode : string -> bytes.
Variable gzip_compress : bytes -> bytes.
Variable b64encode : bytes -> string.

(** base64(gzip(json)) *)
Definition encode_inner (release_json : pyval) : string :=
  b64encode (gzip_compress (utf8_encode (json_encode release_json))).

Definition encode_text (quoted : bool) (release_json : pyval) : string :=
  if quoted then quote_wrap (encode_inner release_json)
  else encode_inner release_json.

(** The value of the secret's [data.release] field. *)
Definition encode_payload (quoted : bool) (release_json : pyval) : string :=
  b64encode (utf8_encode (encode_text quoted release_json)).

(** Each decoding stage undoes its encoding stage on this payload. *)
Definition well_formed_payload (quoted : bool) (release_json : pyval) : Prop :=
  let doc := json_encode release_json in
  let gz := gzip_compress (utf8_encode doc) in
  let text := encode_text quoted release_json in
  json_loads doc = Ok release_json /\
  utf8_decode (utf8_encode doc) = Ok doc /\
  gzip_decompress gz = Ok (utf8_encode doc) /\
  b64decode (b64encode gz) = Ok gz /\
  is_base64_text (b64encode gz) = true /\
  utf8_decode (utf8_encode text) = Ok text /\
  b64decode (b64encode (utf8_encode text)) = Ok (utf8_encode text) /\
  str_nonempty (b64encode (utf8_encode text)) = true.

End Encoding.

End WithExternals.
End Decoder.

(** ** Data model ([models.py]) *)

(** Fields that [list_helm_releases] fills from helm's JSON hold whatever
    value the document carried, hence [pyval]. *)
Module HelmRelease.
Record t : Type := mk {
  name : pyval;
  namespace : pyval;
  chart : pyval;
  version : string;          (* the release revision *)
  status : pyval;
  chart_version : pyval;     (* the actual chart version *)
  app_version : pyval
}.
End HelmRelease.

Definition EEA_HELM_REPO : string := "https://eea.github.io/helm-charts/".

Definition EEA_CHARTS : list string := [
  "advisory-board-backend"; "advisory-board-frontend"; "archiva"; "archives"; "bdr";
  "cachet"; "casservice"; "cdr"; "centos7dev"; "cluster-role-manager"; "cm-share";
  "contreg"; "converters"; "databridge"; "datadict"; "eea-website-backend";
  "eea-website-frontend"; "eggrepo"; "eionet-gemet"; "eionetldap"; "elastic6";
  "elastic7"; "emrt-esd"; "emrt-necd"; "eni-seis"; "eunis"; "fise-backend";
  "fise-frontend"; "freshwater"; "gitea"; "glosreg"; "haproxy"; "iwlearn";
  "jenkins-master"; "jenkins-slave"; "keycloak-eea"; "landscapeapi"; "lcp";
  "lcp-frontend"; "marine"; "mars-backend"; "mars-frontend"; "memcached";
  "msd"; "netcdf-utils"; "opensearch"; "opensearch-dashboards"; "postfix";
  "postgres"; "redis"; "reportnet"; "reportnet3"; "rn-auth"; "rn-ldap";
  "rn-postgresql"; "sugarcube"; "tika"; "tralert"; "varnish"; "veeam-agent";
  "volto"; "wise-backend"; "wise-frontend"
].

Module FleetYamlConfig.
Record t : Type := mk { rollout_strategy : dict }.
Definition default : t :=
  mk [("maxUnavailable", PStr "25%");
      ("maxUnavailablePartitions", PStr "0");
      ("autoPartitionSize", PStr "10%")].
End FleetYamlConfig.

Module FleetConfig.
Record t : Type := mk {
  app_name : string;
  namespace : string;
  chart_name : pyval;
  chart_version : pyval;
  helm_repo : string;
  values : pyval;
  target_cluster : string;
  is_existing_release : bool;
  release_name : pyval;
  chart_metadata : dict;
  fleet_yaml_config : FleetYamlConfig.t
}.
Definition default : t :=
  mk EmptyString EmptyString (PStr EmptyString) (PStr EmptyString)
     EEA_HELM_REPO (PDict []) EmptyString false (PStr EmptyString) []
     FleetYamlConfig.default.
End FleetConfig.

(** ** Kubeconfig handle ([core._current_kubeconfig_path]) *)

Module Kube.
Section WithExternals.
Context {E : Externals}.

(** [bool(path)] for an [Optional[str]] *)
Definition path_truthy (p : option string) : bool :=
  match p with
  | Some s => str_nonempty s
  | None => false
  end.

Definition generate_temp_kubeconfig : option string :=
  let '(success, output) :=
    run_rancher_command
      [PStr "kubectl"; PStr "config"; PStr "view"; PStr "--raw"] in
  if negb success || negb (str_nonempty (strip output)) then None
  else
    match write_temp_file output with
    | Ok temp_path => Some temp_path
    | Raise _ => None
    end.

(** The first lines of [list_helm_releases] and of the metadata lookup in
    [generate_fleet_yaml]: the kubeconfig in use, if any, the new value of
    [_current_kubeconfig_path], and the calls of [generate_temp_kubeconfig]
    made, each recorded by the [rancher] command it runs. *)
Definition ensure_kubeconfig_logged (current : option string)
    : option string * option string * list (list pyval) :=
  if path_truthy current then (current, current, [])
  else
    let generated := generate_temp_kubeconfig in
    let ran := [[PStr "kubectl"; PStr "config"; PStr "view"; PStr "--raw"]] in
    if path_truthy generated then (generated, generated, ran)
    else (None, current, ran).

(** The kubeconfig in use and the new [_current_kubeconfig_path]. *)
Definition ensure_kubeconfig (current : option string)
    : option string * option string :=
  (ensure_kubeconfig_logged current).1.

End WithExternals.
End Kube.

(** ** Live releases ([core.list_helm_releases]) *)

Module Releases.
Section WithExternals.
Context {E : Externals}.

(** Lines 721-738: chart coordinates from [helm get metadata], falling back
    to the [chart] field of the [helm list] item. *)
Definition release_coordinates (item : dict) (metadata_success : bool)
    (metadata_output : string) : res (pyval * pyval * pyval) :=
  if metadata_success && str_nonempty (strip metadata_output) then
    try_except
      (let* metadata := json_loads metadata_output in
       let* chart_name := py_get metadata "chart" (PStr EmptyString) in
       let* chart_version := py_get metadata "version" (PStr EmptyString) in
       let* app_version := py_get metadata "appVersion" (PStr EmptyString) in
       Ok (chart_name, chart_version, app_version))
      [(isinstance_JSONDecodeError,
        fun _ => Ok (dict_get item "chart" (PStr EmptyString),
                     PStr EmptyString, PStr EmptyString))]
  else
    Ok (dict_get item "chart" (PStr EmptyString),
        PStr EmptyString, PStr EmptyString).

(** Lines 743-746: what a non-empty decoder result does to the three
    coordinates. *)
Definition merge_secret_metadata (secret_metadata : dict)
    (coords : pyval * pyval * pyval) : pyval * pyval * pyval :=
  let '(chart_name, chart_version, app_version) := coords in
  match secret_metadata with
  | [] => coords
  | _ :: _ =>
      (py_or (dict_get secret_metadata "name" (PStr EmptyString)) chart_name,
       py_or (dict_get secret_metadata "version" (PStr EmptyString)) chart_version,
       py_or (dict_get secret_metadata "appVersion" (PStr EmptyString)) app_version)
  end.

(** Lines 740-746: the backfill from the release secret, with the calls
    of [get_helm_release_secret_metadata] it makes, each recorded by its
    three arguments. *)
Definition backfill_logged (release_name release_namespace : pyval)
    (kubeconfig_path : string) (coords : pyval * pyval * pyval)
    : res (pyval * pyval * pyval) * list (pyval * pyval * string) :=
  let '(chart_name, chart_version, app_version) := coords in
  if negb (truthy chart_version) || negb (truthy app_version) then
    (let* secret_metadata :=
       Decoder.get_helm_release_secret_metadata
         release_name release_namespace kubeconfig_path in
     Ok (merge_secret_metadata secret_metadata coords),
     [(release_name, release_namespace, kubeconfig_path)])
  else (Ok coords, []).

(** The coordinates the backfill leaves. *)
Definition backfill (release_name release_namespace : pyval)
    (kubeconfig_path : string) (coords : pyval * pyval * pyval)
    : res (pyval * pyval * pyval) :=
  (backfill_logged release_name release_namespace kubeconfig_path coords).1.

(** One round of the [for item in data] loop, for an item that is a dict. *)
Definition release_of_item (kubeconfig_path : string) (item : dict)
    : res HelmRelease.t :=
  let release_name := dict_get item "name" (PStr EmptyString) in
  let release_namespace := dict_get item "namespace" (PStr EmptyString) in
  let release_revision := py_str (dict_get item "revision" (PStr EmptyString)) in
  let release_status := dict_get item "status" (PStr EmptyString) in
  let metadata_args :=
    [PStr "get"; PStr "metadata"; release_name; PStr "-n"; release_namespace;
     PStr "--output"; PStr "json"] in
  let '(metadata_success, metadata_output) :=
    run_helm_with_kubeconfig metadata_args kubeconfig_path in
  let* coords := release_coordinates item metadata_success metadata_output in
  let* merged := backfill release_name release_namespace kubeconfig_path coords in
  let '(chart_name, chart_version, app_version) := merged in
  Ok (HelmRelease.mk release_name release_namespace chart_name
        release_revision release_status chart_version app_version).

Fixpoint releases_of_items (kubeconfig_path : string) (data : list pyval)
    : res (list HelmRelease.t) :=
  match data with
  | [] => Ok []
  | PDict item :: rest =>
      let* r := release_of_item kubeconfig_path item in
      let* rs := releases_of_items kubeconfig_path rest in
      Ok (r :: rs)
  | _ :: rest => releases_of_items kubeconfig_path rest
  end.

Definition helm_list_args (namespace : option string) : list pyval :=
  [PStr "list"; PStr "--output"; PStr "json"] ++
  match namespace with
  | Some (String c ns) => [PStr "-n"; PStr (String c ns)]
  | _ => [PStr "--all-namespaces"]
  end.

(** Returns the releases and the new [_current_kubeconfig_path]. *)
Definition list_helm_releases (namespace : option string)
    (current_kubeconfig : option string)
    : res (list HelmRelease.t) * option string :=
  match Kube.ensure_kubeconfig current_kubeconfig with
  | (Some kubeconfig_path, current') =>
      (try_except
         (let '(success, output) :=
            run_helm_with_kubeconfig (helm_list_args namespace) kubeconfig_path in
          if negb success || negb (str_nonempty (strip output)) then Ok []
          else
            let* data := json_loads output in
            match data with
            | PList items => releases_of_items kubeconfig_path items
            | _ => Ok []
            end)
         [(isinstance_Exception, fun _ => Ok [])],
       current')
  | (None, current') => (Ok [], current')
  end.

End WithExternals.
End Releases.

(** ** Chart catalog cache ([core.get_eea_charts] and its helpers) *)

Module Catalog.

(** Cache for 1 hour. [timedelta.total_seconds() < 3600] is decided on the
    microsecond count the timedelta holds. *)
Definition _charts_cache_duration : Z := 3600.

(** A list of chart names as a Python value. *)
Definition charts_val (charts : list string) : pyval := PList (map PStr charts).

(** Module-level state of [core.py] that the catalog uses, the content of
    the persistent cache file ([None]: no such file) and the log of the
    [helm] commands run so far (newest last). [_cached_charts] is annotated
    [List[str]] and starts as [[]]; it holds what the cache file gave or
    what the repository fetch returned. *)
Record state : Type := mkState {
  _cached_charts : pyval;
  _charts_cache_timestamp : option datetime;
  _charts_cache_file : option string;
  helm_commands : list (list string)
}.

(** [a - b] on datetimes, in microseconds: a naive and an aware value do not
    subtract. *)
Definition datetime_sub (a b : datetime) : res Z :=
  match utcoffset a, utcoffset b with
  | None, None => Ok (micros a - micros b)%Z
  | Some oa, Some ob => Ok ((micros a - oa) - (micros b - ob))%Z
  | _, _ => raise TypeError "can't subtract offset-naive and offset-aware datetimes"
  end.

(** [sorted(charts)] on strings *)
Fixpoint insert_sorted (x : string) (l : list string) : list string :=
  match l with
  | [] => [x]
  | y :: t => if String.leb x y then x :: l else y :: insert_sorted x t
  end.

Definition sorted (l : list string) : list string :=
  fold_right insert_sorted [] l.

(** [s[4:]] *)
Definition drop4 (s : string) : string :=
  String.substring 4 (String.length s - 4) s.

Section WithExternals.
Context {E : Externals}.

Definition fromisoformat_val (v : pyval) : res datetime :=
  match v with
  | PStr s => fromisoformat s
  | _ => raise TypeError "fromisoformat: argument must be str"
  end.

(** The "charts" entry of the cache file is returned as it was read; the
    [len(charts)] of the debug lines is the only thing asked of it. *)
Definition load_charts_cache_from_disk (file : option string)
    : pyval * option datetime :=
  match file with
  | None => (PList [], None)
  | Some text =>
      match
        (let* cache_data := json_loads text in
         let* charts := py_get cache_data "charts" (PList []) in
         let* timestamp_str := py_get cache_data "timestamp" PNone in
         if truthy timestamp_str then
           let* timestamp := fromisoformat_val timestamp_str in
           let* _ := py_len charts in
           Ok (charts, Some timestamp)
         else
           let* _ := py_len charts in
           Ok (charts, None))
      with
      | Ok loaded => loaded
      | Raise _ => (PList [], None)
      end
  end.

(** The write is taken to succeed; a failed write is swallowed by the
    source and leaves the file as it was. *)
Definition save_charts_cache_to_disk (charts : list string)
    (timestamp : datetime) : option string :=
  Some (json_dumps (PDict [("charts", PList (map PStr charts));
                           ("timestamp", PStr (isoformat timestamp));
                           ("version", PStr "1.0")])).

(** The [for chart_info in charts_data] loop. *)
Fixpoint collect_charts (charts_data : list pyval) : res (list string) :=
  match charts_data with
  | [] => Ok []
  | PDict chart_info :: rest =>
      match dict_lookup chart_info "name" with
      | Some (PStr full_name) =>
          let* charts := collect_charts rest in
          Ok (if startswith full_name "eea/"
              then drop4 full_name :: charts else charts)
      | Some full_name => no_attribute full_name "startswith"
      | None => collect_charts rest
      end
  | _ :: rest => collect_charts rest
  end.

Definition repo_add_args : list string :=
  ["repo"; "add"; "eea"; EEA_HELM_REPO; "--force-update"].
Definition repo_update_args : list string := ["repo"; "update"].
Definition search_args : list string :=
  ["search"; "repo"; "eea/"; "--output"; "json"].

(** Returns the charts and the [helm] commands it ran, in order. *)
Definition fetch_charts_from_helm_repo : list string * list (list string) :=
  let '(add_repo_success, _) := run_helm_command repo_add_args in
  if negb add_repo_success then ([], [repo_add_args])
  else
    let '(update_success, _) := run_helm_command repo_update_args in
    if negb update_success then ([], [repo_add_args; repo_update_args])
    else
      let '(search_success, search_output) := run_helm_command search_args in
      let ran := [repo_add_args; repo_update_args; search_args] in
      if negb search_success || negb (str_nonempty (strip search_output))
      then ([], ran)
      else
        match
          (let* charts_data := json_loads search_output in
           match charts_data with
           | PList l => let* charts := collect_charts l in Ok (sorted charts)
           | _ => Ok []
           end)
        with
        | Ok charts => (charts, ran)
        | Raise _ => ([], ran)
        end.

(** [_cached_charts if _cached_charts else EEA_CHARTS] *)
Definition cached_or_fallback (st : state) : pyval :=
  if truthy (_cached_charts st) then _cached_charts st
  else charts_val EEA_CHARTS.

(** Load from disk cache if memory cache is empty. The [len(disk_charts)]
    of the debug line is the one the loader has already taken. *)
Definition load_if_empty (st : state) : state :=
  if truthy (_cached_charts st) then st
  else
    let '(disk_charts, disk_timestamp) :=
      load_charts_cache_from_disk (_charts_cache_file st) in
    if truthy disk_charts
    then mkState disk_charts disk_timestamp
           (_charts_cache_file st) (helm_commands st)
    else st.

(** The cache-validity test of lines 999-1000, evaluated left to right. *)
Definition cache_is_valid (force_refresh : bool) (now : datetime)
    (st : state) : res bool :=
  if negb force_refresh && truthy (_cached_charts st) then
    match _charts_cache_timestamp st with
    | Some timestamp =>
        let* age := datetime_sub now timestamp in
        Ok (age <? _charts_cache_duration * 1000000)%Z
    | None => Ok false
    end
  else Ok false.

(** The body of the [try] of [get_eea_charts], after the disk load. On a
    cache hit the debug line takes [len(_cached_charts)] before the
    return. *)
Definition get_eea_charts_body (force_refresh allow_repo_fetch : bool)
    (now : datetime) (st : state) : res pyval * state :=
  match cache_is_valid force_refresh now st with
  | Raise e => (Raise e, st)
  | Ok true =>
      (let* _ := py_len (_cached_charts st) in Ok (_cached_charts st), st)
  | Ok false =>
      if negb allow_repo_fetch then (Ok (cached_or_fallback st), st)
      else
        let '(fresh_charts, ran) := fetch_charts_from_helm_repo in
        let log := helm_commands st ++ ran in
        if list_nonempty fresh_charts then
          (Ok (charts_val fresh_charts),
           mkState (charts_val fresh_charts) (Some now)
             (save_charts_cache_to_disk fresh_charts now) log)
        else
          let st' := mkState (_cached_charts st) (_charts_cache_timestamp st)
                       (_charts_cache_file st) log in
          (Ok (cached_or_fallback st'), st')
  end.

(** [now] is the value of [datetime.now()], a naive datetime. *)
Definition get_eea_charts (force_refresh allow_repo_fetch : bool)
    (now : Z) (st : state) : res pyval * state :=
  let '(r, st') :=
    get_eea_charts_body force_refresh allow_repo_fetch
      (mkDatetime now None) (load_if_empty st) in
  (try_except r
     [(isinstance_Exception, fun _ => Ok (cached_or_fallback st'))],
   st').

(** A snapshot with its capture timestamp is at hand: in memory, or in a
    readable disk cache while the memory cache is empty. *)
Inductive snapshot_available (st : state) (snapshot : pyval)
    (timestamp : datetime) : Prop :=
| snapshot_in_memory :
    _cached_charts st = snapshot ->
    truthy snapshot = true ->
    _charts_cache_timestamp st = Some timestamp ->
    snapshot_available st snapshot timestamp
| snapshot_on_disk :
    truthy (_cached_charts st) = false ->
    load_charts_cache_from_disk (_charts_cache_file st)
      = (snapshot, Some timestamp) ->
    truthy snapshot = true ->
    snapshot_available st snapshot timestamp.

(** *** Suggestions ([core.get_chart_suggestions]) *)

Definition mem_string (x : string) (l : list string) : bool :=
  existsb (String.eqb x) l.

(** Exact matches first. *)
Definition prefix_matches (eea_charts : list string) (partial_lower : string)
    : list string :=
  fold_left
    (fun suggestions chart =>
       if startswith (lower chart) partial_lower
       then suggestions ++ [chart] else suggestions)
    eea_charts [].

(** Partial matches. *)
Definition add_partial_matches (eea_charts : list string)
    (partial_lower : string) (suggestions : list string) : list string :=
  fold_left
    (fun suggestions chart =>
       if contains (lower chart) partial_lower
          && negb (mem_string chart suggestions)
       then suggestions ++ [chart] else suggestions)
    eea_charts suggestions.

(** Lines 1069-1086 on a catalog that is a list of [str]. *)
Definition suggestions_from (eea_charts : list string) (partial_name : string)
    : list string :=
  if negb (str_nonempty partial_name) then take 10 eea_charts
  else
    let partial_lower := lower partial_name in
    let suggestions := prefix_matches eea_charts partial_lower in
    let suggestions := add_partial_matches eea_charts partial_lower suggestions in
    take 10 suggestions.

(** The two loops on whatever the catalog holds: [chart.lower()] raises on
    an item that is not a [str]. *)
Fixpoint startswith_loop (eea_charts : list pyval) (partial_lower : string)
    (suggestions : list pyval) : res (list pyval) :=
  match eea_charts with
  | [] => Ok suggestions
  | chart :: rest =>
      let* lowered := py_lower chart in
      startswith_loop rest partial_lower
        (if startswith lowered partial_lower
         then suggestions ++ [chart] else suggestions)
  end.

(** [chart not in suggestions] compares a [str] with the items. *)
Fixpoint contains_loop (eea_charts : list pyval) (partial_lower : string)
    (suggestions : list pyval) : res (list pyval) :=
  match eea_charts with
  | [] => Ok suggestions
  | PStr chart :: rest =>
      contains_loop rest partial_lower
        (if contains (lower chart) partial_lower
            && negb (existsb (fun listed => py_eq_str listed chart) suggestions)
         then suggestions ++ [PStr chart] else suggestions)
  | chart :: _ => no_attribute chart "lower"
  end.

(** Lines 1069-1086 on the value [get_eea_charts] returned. *)
Definition suggestions_of (eea_charts : pyval) (partial_name : string)
    : res pyval :=
  if negb (str_nonempty partial_name) then py_take 10 eea_charts
  else
    let partial_lower := lower partial_name in
    let* items := py_iter eea_charts in
    let* suggestions := startswith_loop items partial_lower [] in
    let* suggestions := contains_loop items partial_lower suggestions in
    py_take 10 (PList suggestions).

Definition get_chart_suggestions (partial_name : string) (now : Z)
    (st : state) : res pyval * state :=
  let '(r, st') := get_eea_charts false false now st in
  (let* eea_charts := r in suggestions_of eea_charts partial_name, st').

End WithExternals.
End Catalog.

(** ** Artifact generator ([core.generate_values_yaml],
       [core.generate_configmap_yaml], [core.generate_fleet_yaml]) *)

Module Generator.

Definition nl : string := String (ascii_of_nat 10) EmptyString.

(** ["\n".join(lines)] *)
Fixpoint join_lines (lines : list string) : string :=
  match lines with
  | [] => EmptyString
  | [l] => l
  | l :: rest => l +:+ nl +:+ join_lines rest
  end.

(** [models.DEFAULT_VALUES_TEMPLATE.format(chart_name=...)]: the template has
    the one replacement field [{chart_name}]. *)
Definition DEFAULT_VALUES_TEMPLATE (chart_name : string) : string :=
  join_lines [
    EmptyString;
    "# Helm Values for " +:+ chart_name;
    "replicaCount: 1";
    EmptyString;
    "image:";
    "  repository: nginx";
    "  pullPolicy: IfNotPresent";
    "  tag: " +:+ String dquote "stable" +:+ String dquote EmptyString;
    EmptyString;
    "service:";
    "  type: ClusterIP";
    "  port: 80";
    EmptyString;
    "ingress:";
    "  enabled: false";
    EmptyString;
    "resources:";
    "  limits:";
    "    cpu: 500m";
    "    memory: 512Mi";
    "  requests:";
    "    cpu: 250m";
    "    memory: 128Mi";
    EmptyString
  ].

Section WithExternals.
Context {E : Externals}.

(** [try: return body except Exception: return ""] *)
Definition or_empty (body : res string) : string :=
  match try_except body [(isinstance_Exception, fun _ => Ok EmptyString)] with
  | Ok s => s
  | Raise _ => EmptyString
  end.

Definition generate_values_yaml (fleet_config : FleetConfig.t) : string :=
  or_empty
    (if truthy (FleetConfig.values fleet_config)
     then yaml_dump (FleetConfig.values fleet_config)
     else Ok (DEFAULT_VALUES_TEMPLATE
                (py_str (FleetConfig.chart_name fleet_config)))).

(** The [configmap] dict of [generate_configmap_yaml]. *)
Definition configmap (fleet_config : FleetConfig.t) : pyval :=
  let values_yaml := generate_values_yaml fleet_config in
  PDict [
    ("apiVersion", PStr "v1");
    ("kind", PStr "ConfigMap");
    ("metadata", PDict [
       ("name", PStr (FleetConfig.app_name fleet_config +:+ "-config"));
       ("namespace", PStr (FleetConfig.namespace fleet_config))]);
    ("data", PDict [
       ("values.yaml", py_or (PStr values_yaml) (PStr EmptyString))])
  ].

Definition generate_configmap_yaml (fleet_config : FleetConfig.t) : string :=
  or_empty (yaml_dump (configmap fleet_config)).

(** Lines 1148-1170: the metadata that feeds the comment block, and the new
    [_current_kubeconfig_path]. *)
Definition lookup_chart_metadata (fleet_config : FleetConfig.t)
    (current_kubeconfig : option string) : dict * option string :=
  match FleetConfig.chart_metadata fleet_config with
  | _ :: _ => (FleetConfig.chart_metadata fleet_config, current_kubeconfig)
  | [] =>
      if FleetConfig.is_existing_release fleet_config
         && truthy (FleetConfig.release_name fleet_config)
      then
        match Kube.ensure_kubeconfig current_kubeconfig with
        | (Some kubeconfig_path, current') =>
            match Decoder.get_helm_release_secret_metadata
                    (FleetConfig.release_name fleet_config)
                    (PStr (FleetConfig.namespace fleet_config))
                    kubeconfig_path with
            | Ok secret_metadata => (secret_metadata, current')
            | Raise _ => ([], current')
            end
        | (None, current') => ([], current')
        end
      else ([], current_kubeconfig)
  end.

(** [helm_config["version"]] once lines 1135 and 1177-1181 have run. *)
Definition helm_version (fleet_config : FleetConfig.t) (chart_metadata : dict)
    : pyval :=
  let chart_version := FleetConfig.chart_version fleet_config in
  if list_nonempty chart_metadata
     && truthy (dict_get chart_metadata "version" PNone)
     && (negb (truthy chart_version) || py_eq_str chart_version "latest")
  then dict_get chart_metadata "version" PNone
  else py_or chart_version (PStr "latest").

Definition helm_config (fleet_config : FleetConfig.t) (chart_metadata : dict)
    : pyval :=
  PDict [
    ("chart", FleetConfig.chart_name fleet_config);
    ("repo", PStr (FleetConfig.helm_repo fleet_config));
    ("version", helm_version fleet_config chart_metadata);
    ("valuesFrom", PList [
       PDict [("configMapKeyRef", PDict [
         ("name", PStr (FleetConfig.app_name fleet_config +:+ "-config"));
         ("key", PStr "values.yaml")])]])
  ].

Definition comment_if (chart_metadata : dict) (key label : string)
    : list string :=
  if truthy (dict_get chart_metadata key PNone)
  then [label +:+ py_str (dict_get chart_metadata key PNone)]
  else [].

Definition metadata_comments (chart_metadata : dict) : list string :=
  match chart_metadata with
  | [] => []
  | _ :: _ =>
      comment_if chart_metadata "name" "# Chart Name: " ++
      comment_if chart_metadata "version" "# Chart Version: " ++
      comment_if chart_metadata "appVersion" "# App Version: " ++
      comment_if chart_metadata "description" "# Description: "
  end.

Definition fleet_content (fleet_config : FleetConfig.t) (chart_metadata : dict)
    : pyval :=
  let target_cluster := FleetConfig.target_cluster fleet_config in
  PDict (
    [("defaultNamespace", PStr (FleetConfig.namespace fleet_config));
     ("helm", helm_config fleet_config chart_metadata)] ++
    (if str_nonempty target_cluster then
       [("targets", PList [PDict [
          ("name", PStr target_cluster);
          ("clusterSelector", PDict [("matchLabels", PDict [
             ("management.cattle.io/cluster-name", PStr target_cluster)])])]])]
     else []) ++
    [("rolloutStrategy",
      PDict (FleetYamlConfig.rollout_strategy
               (FleetConfig.fleet_yaml_config fleet_config)))]).

(** [content["helm"]["version"]] of a manifest object. *)
Definition helm_section_version (content : pyval) : option pyval :=
  match content with
  | PDict d =>
      match dict_lookup d "helm" with
      | Some (PDict helm) => dict_lookup helm "version"
      | _ => None
      end
  | _ => None
  end.

(** Returns the manifest text and the new [_current_kubeconfig_path]. *)
Definition generate_fleet_yaml (fleet_config : FleetConfig.t)
    (current_kubeconfig : option string) : string * option string :=
  let '(chart_metadata, current') :=
    lookup_chart_metadata fleet_config current_kubeconfig in
  (or_empty
     (let* fleet_yaml := yaml_dump (fleet_content fleet_config chart_metadata) in
      match metadata_comments chart_metadata with
      | [] => Ok fleet_yaml
      | comments =>
          Ok (join_lines comments +:+ nl +:+ "---" +:+ nl +:+ fleet_yaml)
      end),
   current').

End WithExternals.
End Generator.

(** ** Configuration resolver ([screens.py], [generate_configuration]) *)

Module Screen.

(** [chart_source_mode] is only ever set to "repository" or "cluster". *)
Inductive mode : Type := repository | cluster.

(** The fields of the screen object that [generate_configuration] reads or
    writes; the four [_input] fields are the widgets [#app_name],
    [#target_cluster], [#default_namespace] and [#chart_values]. *)
Record t : Type := mk {
  chart_source_mode : mode;
  selected_chart : option string;
  selected_namespace : option string;
  selected_release : option HelmRelease.t;
  app_name_input : string;
  target_cluster_input : string;
  default_namespace_input : string;
  chart_values_input : string;
  current_config : FleetConfig.t;
  preview_content : string;
  notifications : list (string * string)   (* message, severity; newest last *)
}.

(** What the core module holds besides the screen: the directory store, the
    two storage roots, the current cluster identity as
    [get_current_rancher_context] reports it, and the kubeconfig handle. *)
Record world : Type := mkWorld {
  files : gmap string string;
  apps_dir : string;
  int_dir : string;
  cluster_id : option string;
  cluster_name : option string;
  current_kubeconfig : option string
}.

Definition notify (s : t) (message severity : string) : t :=
  mk (chart_source_mode s) (selected_chart s) (selected_namespace s)
     (selected_release s) (app_name_input s) (target_cluster_input s)
     (default_namespace_input s) (chart_values_input s) (current_config s)
     (preview_content s) (notifications s ++ [(message, severity)]).

Definition with_config (s : t) (c : FleetConfig.t) : t :=
  mk (chart_source_mode s) (selected_chart s) (selected_namespace s)
     (selected_release s) (app_name_input s) (target_cluster_input s)
     (default_namespace_input s) (chart_values_input s) c
     (preview_content s) (notifications s).

Definition with_preview (s : t) (p : string) : t :=
  mk (chart_source_mode s) (selected_chart s) (selected_namespace s)
     (selected_release s) (app_name_input s) (target_cluster_input s)
     (default_namespace_input s) (chart_values_input s) (current_config s)
     p (notifications s).

Definition with_values (c : FleetConfig.t) (v : pyval) : FleetConfig.t :=
  FleetConfig.mk (FleetConfig.app_name c) (FleetConfig.namespace c)
    (FleetConfig.chart_name c) (FleetConfig.chart_version c)
    (FleetConfig.helm_repo c) v (FleetConfig.target_cluster c)
    (FleetConfig.is_existing_release c) (FleetConfig.release_name c)
    (FleetConfig.chart_metadata c) (FleetConfig.fleet_yaml_config c).

Definition with_app_name (c : FleetConfig.t) (n : string) : FleetConfig.t :=
  FleetConfig.mk n (FleetConfig.namespace c)
    (FleetConfig.chart_name c) (FleetConfig.chart_version c)
    (FleetConfig.helm_repo c) (FleetConfig.values c)
    (FleetConfig.target_cluster c)
    (FleetConfig.is_existing_release c) (FleetConfig.release_name c)
    (FleetConfig.chart_metadata c) (FleetConfig.fleet_yaml_config c).

(** [a or b or "default"] on two [Optional[str]] *)
Definition first_truthy (a b : option string) (default : string) : string :=
  match a with
  | Some (String c s) => String c s
  | _ => match b with
         | Some (String c s) => String c s
         | _ => default
         end
  end.

(** [.replace("/", "-").replace("_", "-")] *)
Definition sanitize (s : string) : string :=
  replace_char "_" "-" (replace_char "/" "-" s).

(** The canonical name in the spec's words: every '/' and every '_' is
    replaced by '-', every other character is kept. *)
Fixpoint dashed (s : string) : string :=
  match s with
  | EmptyString => EmptyString
  | String c t =>
      String (if Ascii.eqb c "/" || Ascii.eqb c "_" then "-"%char else c)
             (dashed t)
  end.

(** [Path / part] *)
Definition path_join (dir part : string) : string := dir +:+ "/" +:+ part.

Section WithExternals.
Context {E : Externals}.

(** Lines 1634-1710: the mode-specific part; an error message when a
    validation rejects the request. *)
Definition build_config (s : t) (app_name : string)
    : string + FleetConfig.t :=
  let c := current_config s in
  match chart_source_mode s with
  | repository =>
      match selected_chart s with
      | Some (String a r) =>
          let default_namespace := default_namespace_input s in
          inr (FleetConfig.mk app_name
                 (if str_nonempty default_namespace
                  then default_namespace else app_name)
                 (PStr (String a r)) (PStr "latest") EEA_HELM_REPO
                 (FleetConfig.values c) (target_cluster_input s)
                 (FleetConfig.is_existing_release c)
                 (FleetConfig.release_name c)
                 (FleetConfig.chart_metadata c)
                 (FleetConfig.fleet_yaml_config c))
      | _ => inl "Please select a chart from the repository first"
      end
  | cluster =>
      match selected_namespace s with
      | Some (String a r) =>
          match selected_release s with
          | Some release =>
              inr (FleetConfig.mk app_name (String a r)
                     (HelmRelease.chart release)
                     (py_or (HelmRelease.chart_version release) (PStr "latest"))
                     (FleetConfig.helm_repo c)
                     (FleetConfig.values c) (target_cluster_input s)
                     true (HelmRelease.name release)
                     [("name", HelmRelease.chart release);
                      ("version", HelmRelease.chart_version release);
                      ("appVersion", HelmRelease.app_version release)]
                     (FleetConfig.fleet_yaml_config c))
          | None => inl "Please select a Helm release first"
          end
      | _ => inl "Please select a namespace first"
      end
  end.

(** Lines 1712-1723: parse values from the text area. The assignment to
    [current_config.values] precedes the [len] of the debug line. *)
Definition parse_values (values_text : string) (c : FleetConfig.t)
    : FleetConfig.t * option exn :=
  match yaml_safe_load values_text with
  | Raise e => (c, Some e)
  | Ok v =>
      let c' := with_values c (py_or v (PDict [])) in
      match py_len (FleetConfig.values c') with
      | Raise e => (c', Some e)
      | Ok _ => (c', None)
      end
  end.

Inductive resolution : Type :=
| Rejected (s' : t)
| Resolved (c : FleetConfig.t).

(** Lines 1627-1723. *)
Definition resolve (s : t) : resolution :=
  let app_name := app_name_input s in
  if negb (str_nonempty app_name)
  then Rejected (notify s "Please enter an application name" "error")
  else
    match build_config s app_name with
    | inl message => Rejected (notify s message "error")
    | inr c =>
        match parse_values (chart_values_input s) c with
        | (c', Some e) =>
            Rejected (notify (with_config s c')
                        ("Error parsing values: " +:+ exn_msg e) "error")
        | (c', None) => Resolved c'
        end
    end.

(** Lines 1732-1738. *)
Definition app_dir_name_of (c : FleetConfig.t) : string :=
  sanitize (FleetConfig.namespace c +:+ "-" +:+ py_str (FleetConfig.chart_name c)).

Definition finalize (c : FleetConfig.t) : FleetConfig.t :=
  with_app_name c (app_dir_name_of c).

Definition success_message (s : t) : string :=
  match chart_source_mode s, selected_chart s, selected_release s with
  | repository, Some chart, _ =>
      "Configuration generated for chart '" +:+ chart +:+ "' from repository"
  | repository, None, _ =>
      "Configuration generated for chart 'None' from repository"
  | cluster, _, Some release =>
      "Configuration generated for release '"
        +:+ py_str (HelmRelease.name release) +:+ "' ("
        +:+ py_str (HelmRelease.chart release) +:+ ")"
  | cluster, _, None => EmptyString
  end.

Definition generate_configuration (s : t) (w : world) : t * world :=
  match resolve s with
  | Rejected s' => (s', w)
  | Resolved c =>
      let cluster_folder :=
        sanitize (first_truthy (cluster_name w) (cluster_id w) "default") in
      let app_dir_name := app_dir_name_of c in
      let c := finalize c in
      let '(fleet_yaml, kubeconfig') :=
        Generator.generate_fleet_yaml c (current_kubeconfig w) in
      let values_yaml := Generator.generate_values_yaml c in
      let configmap_yaml := Generator.generate_configmap_yaml c in
      let app_dir := path_join (path_join (apps_dir w) cluster_folder) app_dir_name in
      let int_dir' := path_join (path_join (int_dir w) cluster_folder) app_dir_name in
      let files' :=
        <[path_join int_dir' (app_dir_name +:+ "-configmap.yaml") := configmap_yaml]>
          (<[path_join app_dir "fleet.yaml" := fleet_yaml]> (files w)) in
      let preview :=
        "# fleet.yaml" +:+ Generator.nl +:+ fleet_yaml +:+ Generator.nl
          +:+ Generator.nl +:+ "# values.yaml" +:+ Generator.nl +:+ values_yaml in
      (notify (with_preview (with_config s c) preview)
              (success_message s) "success",
       mkWorld files' (apps_dir w) (int_dir w) (cluster_id w) (cluster_name w)
               kubeconfig')
  end.

End WithExternals.
End Screen.

(** ** Catalog views ([core.filter_charts]) *)

Module Browse.
Section WithExternals.
Context {E : Externals}.

(** Lines 1060-1064: the list comprehension over a given list. *)
Definition filter_matches (search_term : string) (charts : list string)
    : list string :=
  if negb (str_nonempty search_term) then charts
  else
    let search_lower := lower search_term in
    List.filter (fun chart => contains (lower chart) search_lower) charts.

(** The comprehension on whatever the catalog holds: [chart.lower()]
    raises on an item that is not a [str]. *)
Fixpoint filter_loop (charts : list pyval) (search_lower : string)
    : res (list pyval) :=
  match charts with
  | [] => Ok []
  | chart :: rest =>
      let* lowered := py_lower chart in
      let* kept := filter_loop rest search_lower in
      Ok (if contains lowered search_lower then chart :: kept else kept)
  end.

(** Lines 1060-1064 on the value [get_eea_charts] returned. *)
Definition filter_value (search_term : string) (charts : pyval) : res pyval :=
  if negb (str_nonempty search_term) then Ok charts
  else
    let* items := py_iter charts in
    let* kept := filter_loop items (lower search_term) in
    Ok (PList kept).

(** [charts=None] reads the catalog in fast mode (cache only). *)
Definition filter_charts (search_term : string)
    (charts : option (list string)) (now : Z) (st : Catalog.state)
    : res pyval * Catalog.state :=
  match charts with
  | Some given =>
      (Ok (Catalog.charts_val (filter_matches search_term given)), st)
  | None =>
      let '(r, st') := Catalog.get_eea_charts false false now st in
      (let* eea_charts := r in filter_value search_term eea_charts, st')
  end.

End WithExternals.
End Browse.

(** ** Settings and the Rancher context ([core.load_settings],
       [core.save_settings], [core.get_setting], [core.set_setting],
       [core.get_current_rancher_context], [core.set_rancher_context]) *)

Module Settings.

(** [d[k] = v]: an existing key keeps its place, a new key goes last. *)
Fixpoint dict_set (d : dict) (k : string) (v : pyval) : dict :=
  match d with
  | [] => [(k, v)]
  | (k', v') :: rest =>
      if String.eqb k' k then (k', v) :: rest
      else (k', v') :: dict_set rest k v
  end.

(** [d.update(other)] *)
Definition dict_update (d other : dict) : dict :=
  fold_left (fun acc kv => dict_set acc kv.1 kv.2) other d.

(** Module-level state: [_settings] holds whatever [json.loads] gave
    [load_settings], the three context variables are [Optional[str]], and
    [settings_file] is the content of .eea-fleet-config.json ([None]: no
    such file). *)
Record state : Type := mkState {
  _settings : pyval;
  settings_file : option string;
  _current_cluster_context : pyval;
  _current_cluster_id : pyval;
  _current_cluster_name : pyval
}.

(** The three assignments of [set_rancher_context] applied to a dict. *)
Definition context_settings (d : dict) (context cluster_id cluster_name : pyval)
    : dict :=
  dict_set (dict_set (dict_set d "current_cluster_context" context)
              "current_cluster_id" cluster_id)
    "current_cluster_name" cluster_name.

Definition with_settings (st : state) (v : pyval) : state :=
  mkState v (settings_file st) (_current_cluster_context st)
    (_current_cluster_id st) (_current_cluster_name st).

Section WithExternals.
Context {E : Externals}.

(** Returns the loaded settings ([{}] when there is no file or it cannot be
    read) and the new state. *)
Definition load_settings (st : state) : pyval * state :=
  match settings_file st with
  | Some text =>
      match json_loads text with
      | Ok loaded => (loaded, with_settings st loaded)
      | Raise _ => (PDict [], st)
      end
  | None => (PDict [], st)
  end.

(** [_settings.update(settings)] on whatever [_settings] holds. *)
Definition settings_update (current : pyval) (settings : dict) : res dict :=
  match current with
  | PDict d => Ok (dict_update d settings)
  | _ => no_attribute current "update"
  end.

(** The write is taken to succeed, as for the chart cache. *)
Definition save_settings (settings : dict) (st : state) : bool * state :=
  match settings_update (_settings st) settings with
  | Ok merged =>
      (true,
       mkState (PDict merged) (Some (json_dumps (PDict merged)))
         (_current_cluster_context st) (_current_cluster_id st)
         (_current_cluster_name st))
  | Raise _ => (false, st)
  end.

Definition get_setting (key : string) (default : pyval) (st : state)
    : res pyval :=
  py_get (_settings st) key default.

(** [_settings[key] = value] *)
Definition set_setting (key : string) (value : pyval) (st : state)
    : res state :=
  match _settings st with
  | PDict d => Ok (with_settings st (PDict (dict_set d key value)))
  | v => raise TypeError ("'" +:+ type_name v
                           +:+ "' object does not support item assignment")
  end.

(** The result, or the exception, and the state the call leaves. *)
Definition get_current_rancher_context (st : state)
    : res (pyval * pyval * pyval) * state :=
  if truthy (_current_cluster_context st)
  then (Ok (_current_cluster_context st, _current_cluster_id st,
            _current_cluster_name st), st)
  else
    match get_setting "current_cluster_context" PNone st with
    | Raise e => (Raise e, st)
    | Ok context =>
        let st1 := mkState (_settings st) (settings_file st) context
                     (_current_cluster_id st) (_current_cluster_name st) in
        match get_setting "current_cluster_id" PNone st1 with
        | Raise e => (Raise e, st1)
        | Ok id =>
            let st2 := mkState (_settings st) (settings_file st) context id
                         (_current_cluster_name st) in
            match get_setting "current_cluster_name" PNone st2 with
            | Raise e => (Raise e, st2)
            | Ok name =>
                (Ok (context, id, name),
                 mkState (_settings st) (settings_file st) context id name)
            end
        end
    end.

Definition set_rancher_context (context cluster_id cluster_name : pyval)
    (st : state) : res unit * state :=
  let st0 := mkState (_settings st) (settings_file st)
               context cluster_id cluster_name in
  match set_setting "current_cluster_context" context st0 with
  | Raise e => (Raise e, st0)
  | Ok st1 =>
      match set_setting "current_cluster_id" cluster_id st1 with
      | Raise e => (Raise e, st1)
      | Ok st2 =>
          match set_setting "current_cluster_name" cluster_name st2 with
          | Raise e => (Raise e, st2)
          | Ok st3 => (Ok tt, (save_settings [] st3).2)
          end
      end
  end.

(** A process that has just started on the settings file of [st]. *)
Definition restarted (st : state) : state :=
  mkState (PDict []) (settings_file st) PNone PNone PNone.

End WithExternals.
End Settings.

(** ** Namespaces and deployment ([core.list_namespaces],
       [core.namespace_exists], [core.validate_namespace_access],
       [core.deploy_configmap]) *)

Module Cluster.

(** [s.split(sep)] for a one-character separator *)
Fixpoint split_on (sep : ascii) (s : string) : list string :=
  match s with
  | EmptyString => [EmptyString]
  | String c t =>
      if Ascii.eqb c sep then EmptyString :: split_on sep t
      else
        match split_on sep t with
        | h :: r => String c h :: r
        | [] => [String c EmptyString]
        end
  end.

Definition split_lines (s : string) : list string :=
  split_on (ascii_of_nat 10) s.

(** Lines 501-510: what one parsed line appends to [namespaces]. *)
Definition namespace_of (data : pyval) : list pyval :=
  match data with
  | PDict d =>
      match dict_lookup d "name" with
      | Some name => [name]
      | None =>
          match dict_lookup d "ID" with
          | Some id => [id]
          | None =>
              match dict_lookup d "Namespace" with
              | Some (PDict inner) =>
                  match dict_lookup inner "id" with
                  | Some id => [id]
                  | None => []
                  end
              | _ => []
              end
          end
      end
  | _ => []
  end.

Definition namespaces_args : list pyval :=
  [PStr "namespaces"; PStr "ls"; PStr "--format"; PStr "json"].

Definition apply_args (temp_file : string) : list pyval :=
  [PStr "kubectl"; PStr "apply"; PStr "-f"; PStr temp_file].

Section WithExternals.
Context {E : Externals}.

(** The loop of lines 496-513, with the list built so far. *)
Fixpoint collect_namespaces (lines : list string) (namespaces : list pyval)
    : res (list pyval) :=
  match lines with
  | [] => Ok namespaces
  | line :: rest =>
      if str_nonempty (strip line) then
        let* namespaces' :=
          try_except
            (let* data := json_loads (strip line) in
             Ok (namespaces ++ namespace_of data))
            [(isinstance_JSONDecodeError, fun _ => Ok namespaces)] in
        collect_namespaces rest namespaces'
      else collect_namespaces rest namespaces
  end.

(** The names one line of the listing stands for: none for a blank line and
    for a line that is not a JSON document. *)
Definition line_namespaces (line : string) : list pyval :=
  if str_nonempty (strip line) then
    match json_loads (strip line) with
    | Ok data => namespace_of data
    | Raise _ => []
    end
  else [].

Definition list_namespaces : list pyval :=
  let '(success, output) := run_rancher_command namespaces_args in
  if success && str_nonempty (strip output) then
    match try_except (collect_namespaces (split_lines (strip output)) [])
            [(isinstance_Exception, fun _ => Ok [])] with
    | Ok namespaces => namespaces
    | Raise _ => []
    end
  else [].

(** [namespace in namespaces] *)
Definition namespace_exists (namespace : string) : bool :=
  existsb (fun listed => py_eq_str listed namespace) list_namespaces.

Definition validate_namespace_access (namespace : string) : bool * string :=
  if negb (namespace_exists namespace)
  then (false, "Namespace '" +:+ namespace
                 +:+ "' does not exist in current Rancher context")
  else (true, "Namespace '" +:+ namespace +:+ "' is accessible").


End WithExternals.
End Cluster.

(** The items of a [helm list] document that are objects, in order: the
    ones the loop of [list_helm_releases] turns into releases. *)
Fixpoint dict_items (data : list pyval) : list dict :=
  match data with
  | [] => []
  | PDict item :: rest => item :: dict_items rest
  | _ :: rest => dict_items rest
  end.

(** [v[k1][k2]...] on nested dicts, [None] where a key is missing. *)
Fixpoint py_path (v : pyval) (path : list string) : option pyval :=
  match path with
  | [] => Some v
  | k :: rest =>
      match v with
      | PDict d =>
          match dict_lookup d k with
          | Some v' => py_path v' rest
          | None => None
          end
      | _ => None
      end
  end.

(** The last [n] characters of a text, last one first. *)
Definition last_chars (n : nat) (s : string) : list ascii :=
  firstn n (rev (list_ascii_of_string s)).

(** ** A sample world

    One concrete instance of [Externals], used to run the model: RFC 4648
    base64, a stand-in for gzip that keeps the magic number and stores the
    data as it is, JSON documents rendered by [render_json] and recognised
    from a table, and command runners that answer from recorded outputs. *)

Module Sample.

Definition byte_of_N (n : N) : Byte.byte :=
  match Byte.of_N n with
  | Some b => b
  | None => Byte.x00
  end.

Definition sextet_char (n : N) : ascii :=
  if (n <? 26)%N then ascii_of_N (n + 65)
  else if (n <? 52)%N then ascii_of_N (n + 71)
  else if (n <? 62)%N then ascii_of_N (n - 4)
  else if (n =? 62)%N then "+"%char else "/"%char.

Definition char_sextet (a : ascii) : option N :=
  let n := N_of_ascii a in
  if (65 <=? n)%N && (n <=? 90)%N then Some (n - 65)%N
  else if (97 <=? n)%N && (n <=? 122)%N then Some (n - 71)%N
  else if (48 <=? n)%N && (n <=? 57)%N then Some (n + 4)%N
  else if (n =? 43)%N then Some 62%N
  else if (n =? 47)%N then Some 63%N
  else None.

Fixpoint b64encode (l : bytes) : string :=
  match l with
  | [] => EmptyString
  | [b1] =>
      let n1 := Byte.to_N b1 in
      String (sextet_char (n1 / 4))
        (String (sextet_char ((n1 mod 4) * 16)) "==")
  | [b1; b2] =>
      let n1 := Byte.to_N b1 in
      let n2 := Byte.to_N b2 in
      String (sextet_char (n1 / 4))
        (String (sextet_char ((n1 mod 4) * 16 + n2 / 16))
           (String (sextet_char ((n2 mod 16) * 4)) "="))
  | b1 :: b2 :: b3 :: rest =>
      let n1 := Byte.to_N b1 in
      let n2 := Byte.to_N b2 in
      let n3 := Byte.to_N b3 in
      String (sextet_char (n1 / 4))
        (String (sextet_char ((n1 mod 4) * 16 + n2 / 16))
           (String (sextet_char ((n2 mod 16) * 4 + n3 / 64))
              (String (sextet_char (n3 mod 64)) (b64encode rest))))
  end.

Definition incorrect_padding {A : Type} : res A :=
  raise BinasciiError "Incorrect padding".

Definition pad : ascii := "="%char.

Fixpoint b64decode (s : string) : res bytes :=
  match s with
  | EmptyString => Ok []
  | String c1 (String c2 (String c3 (String c4 rest))) =>
      match char_sextet c1, char_sextet c2 with
      | Some s1, Some s2 =>
          let b1 := byte_of_N (s1 * 4 + s2 / 16) in
          match char_sextet c3, char_sextet c4 with
          | Some s3, Some s4 =>
              let* tail := b64decode rest in
              Ok (b1 :: byte_of_N ((s2 mod 16) * 16 + s3 / 4)
                     :: byte_of_N ((s3 mod 4) * 64 + s4) :: tail)
          | Some s3, None =>
              if Ascii.eqb c4 pad && negb (str_nonempty rest)
              then Ok [b1; byte_of_N ((s2 mod 16) * 16 + s3 / 4)]
              else incorrect_padding
          | None, _ =>
              if Ascii.eqb c3 pad && Ascii.eqb c4 pad
                 && negb (str_nonempty rest)
              then Ok [b1]
              else incorrect_padding
          end
      | _, _ => incorrect_padding
      end
  | _ => incorrect_padding
  end.

Definition utf8_encode (s : string) : bytes :=
  map byte_of_ascii (list_ascii_of_string s).

Definition utf8_decode (b : bytes) : res string :=
  Ok (string_of_list_ascii (map ascii_of_byte b)).

Definition gzip_magic : bytes := [Byte.x1f; Byte.x8b].

Definition gzip_compress (data : bytes) : bytes := gzip_magic ++ data.

Definition gzip_decompress (data : bytes) : res bytes :=
  match data with
  | Byte.x1f :: Byte.x8b :: stored => Ok stored
  | _ => raise BadGzipFile "Not a gzipped file"
  end.

Definition quoted (s : string) : string :=
  String dquote (s +:+ String dquote EmptyString).

(** JSON text of a value; strings in the sample need no escapes and the
    sample has no integers. *)
Fixpoint render_json (v : pyval) : string :=
  match v with
  | PNone => "null"
  | PBool true => "true"
  | PBool false => "false"
  | PInt _ => "0"
  | PStr s => quoted s
  | PList l =>
      "[" +:+
      (fix items (l : list pyval) : string :=
         match l with
         | [] => EmptyString
         | [x] => render_json x
         | x :: t => render_json x +:+ ", " +:+ items t
         end) l +:+ "]"
  | PDict d =>
      "{" +:+
      (fix members (d : list (string * pyval)) : string :=
         match d with
         | [] => EmptyString
         | [(k, x)] => quoted k +:+ ": " +:+ render_json x
         | (k, x) :: t => quoted k +:+ ": " +:+ render_json x +:+ ", " +:+ members t
         end) d +:+ "}"
  end.

Fixpoint lookup_text {A : Type} (table : list (string * A)) (text : string)
    : option A :=
  match table with
  | [] => None
  | (t, a) :: rest => if String.eqb t text then Some a else lookup_text rest text
  end.

(** *** Recorded documents *)

Definition chart_metadata : dict :=
  [("name", PStr "nginx"); ("version", PStr "9.9.9");
   ("appVersion", PStr "1.25.3"); ("description", PStr "A web server");
   ("apiVersion", PStr "v2")].

Definition release_document : pyval :=
  PDict [("name", PStr "web");
         ("chart", PDict [("metadata", PDict chart_metadata);
                          ("values", PDict [])]);
         ("namespace", PStr "prod")].

Definition release_payload : string :=
  Decoder.encode_payload render_json utf8_encode gzip_compress b64encode
    true release_document.

Definition secret_document (payload : string) : pyval :=
  PDict [("apiVersion", PStr "v1");
         ("data", PDict [("release", PStr payload)]);
         ("kind", PStr "Secret")].

(** A secret for release [broken] whose payload lost its last character. *)
Definition truncated_payload : string := "QUJ".

Definition helm_list_document : pyval :=
  PList [PDict [("name", PStr "web"); ("namespace", PStr "prod");
                ("revision", PStr "3"); ("status", PStr "deployed");
                ("chart", PStr "nginx-1.2.0")]].

(** [helm get metadata web]: the chart version is known, the application
    version is not. *)
Definition helm_metadata_document : pyval :=
  PDict [("chart", PStr "nginx"); ("version", PStr "1.2.0");
         ("namespace", PStr "prod")].

Definition cache_document : pyval :=
  PDict [("charts", PList [PStr "postgres"; PStr "redis"; PStr "volto"]);
         ("timestamp", PStr "2024-05-01T12:00:00");
         ("version", PStr "1.0")].

(** A cache file that lists one chart twice. *)
Definition edited_cache_document : pyval :=
  PDict [("charts", PList [PStr "redis"; PStr "volto"; PStr "volto"]);
         ("timestamp", PStr "2024-05-01T12:00:00");
         ("version", PStr "1.0")].

Definition documents : list pyval :=
  [release_document; secret_document release_payload;
   secret_document truncated_payload; helm_list_document;
   helm_metadata_document; cache_document; edited_cache_document].

Definition json_loads (text : string) : res pyval :=
  match lookup_text (map (fun v => (render_json v, v)) documents) text with
  | Some v => Ok v
  | None => raise JSONDecodeError "Expecting value: line 1 column 1 (char 0)"
  end.

Definition same_args (args expected : list pyval) : bool :=
  String.eqb (render_json (PList args)) (render_json (PList expected)).

Definition secret_args (release_name : string) : list pyval :=
  [PStr "kubectl"; PStr "get"; PStr "secret";
   PStr ("sh.helm.release.v1." +:+ release_name +:+ ".v1");
   PStr "-n"; PStr "prod"; PStr "-o"; PStr "json"].

Definition run_rancher_command (args : list pyval) : bool * string :=
  if same_args args (secret_args "web")
  then (true, render_json (secret_document release_payload))
  else if same_args args (secret_args "broken")
  then (true, render_json (secret_document truncated_payload))
  else if same_args args
            [PStr "kubectl"; PStr "config"; PStr "view"; PStr "--raw"]
  then (true, "apiVersion: v1")
  else (false, "Error from server (NotFound)").

Definition run_helm_with_kubeconfig (args : list pyval) (kubeconfig : string)
    : bool * string :=
  if same_args args
       [PStr "list"; PStr "--output"; PStr "json"; PStr "-n"; PStr "prod"]
  then (true, render_json helm_list_document)
  else if same_args args
            [PStr "get"; PStr "metadata"; PStr "web"; PStr "-n"; PStr "prod";
             PStr "--output"; PStr "json"]
  then (true, render_json helm_metadata_document)
  else (false, "Error: release: not found").

(** The chart repository cannot be reached. *)
Definition run_helm_command (args : list string) : bool * string :=
  (false, "Error: looks like the repository is not reachable").

Definition yaml_safe_load (text : string) : res pyval :=
  match lookup_text
          [(EmptyString, PNone);
           ("replicaCount: 3", PDict [("replicaCount", PInt 3)])] text with
  | Some v => Ok v
  | None => raise YAMLError "while parsing a flow sequence: expected ',' or ']'"
  end.

(** 2024-05-01T12:00:00 and 2024-05-01T12:30:00, in microseconds since the
    epoch of the local time line. *)
Definition noon : Z := 1714564800000000.
Definition half_past_noon : Z := 1714566600000000.

Definition fromisoformat (text : string) : res datetime :=
  if String.eqb text "2024-05-01T12:00:00" then Ok (mkDatetime noon None)
  else raise ValueError "Invalid isoformat string".

#[local] Instance world : Externals := {|
  Env.run_rancher_command := run_rancher_command;
  Env.run_helm_command := run_helm_command;
  Env.run_helm_with_kubeconfig := run_helm_with_kubeconfig;
  Env.write_temp_file := fun _ => Ok "/tmp/tmpk3s.yaml";
  Env.json_loads := json_loads;
  Env.json_dumps := render_json;
  Env.b64decode := b64decode;
  Env.utf8_decode := utf8_decode;
  Env.gzip_decompress := gzip_decompress;
  Env.yaml_safe_load := yaml_safe_load;
  Env.yaml_dump := fun v => Ok (render_json v);
  Env.py_repr := render_json;
  Env.fromisoformat := fromisoformat;
  Env.isoformat := fun _ => "2024-05-01T12:30:00"
|}.

(** *** A generation request in repository mode *)

Definition screen (values_text : string) : Screen.t :=
  Screen.mk Screen.repository (Some "my_chart/x") None None
    "demo" EmptyString "prod" values_text FleetConfig.default
    EmptyString [].

Definition store : Screen.world :=
  Screen.mkWorld ∅ "apps" "int" None (Some "rancher_dev") None.

(** A release configuration whose version is still the placeholder, with
    the metadata the listing carried. *)
Definition live_config : FleetConfig.t :=
  FleetConfig.mk "prod-nginx" "prod" (PStr "nginx") (PStr "latest")
    EEA_HELM_REPO (PDict []) EmptyString true (PStr "web")
    [("name", PStr "nginx"); ("version", PStr "1.2.0");
     ("appVersion", PStr EmptyString)]
    FleetYamlConfig.default.

(** A configuration with caller-supplied values. *)
Definition tuned_config : FleetConfig.t :=
  FleetConfig.mk "data-postgres" "data" (PStr "postgres") (PStr "latest")
    EEA_HELM_REPO (PDict [("replicaCount", PInt 3)]) EmptyString false
    (PStr EmptyString) [] FleetYamlConfig.default.

(** *** Catalog cache states *)

(** A fresh process with only a disk cache, written at noon. *)
Definition fresh_process : Catalog.state :=
  Catalog.mkState (PList []) None (Some (render_json cache_document)) [].

(** A fresh process whose disk cache lists one chart twice. *)
Definition edited_cache : Catalog.state :=
  Catalog.mkState (PList []) None (Some (render_json edited_cache_document))
    [].

(** A fresh process with no disk cache. *)
Definition no_cache : Catalog.state :=
  Catalog.mkState (PList []) None None [].

End Sample.

(** ** A second sample world

    [Sample.world] with a chart repository that answers, a clock that prints
    what it parses (so that a cache file written by the model can be read
    back) and a YAML loader that knows one more text. *)

Module Fixture.

Definition search_document : pyval :=
  PList [PDict [("name", PStr "eea/volto"); ("version", PStr "1.0.0")];
         PDict [("name", PStr "stable/nginx")];
         PDict [("name", PStr "eea/redis")];
         PStr "note"].

(** Settings as a first run stores them, and the settings file after the
    context 02pre has been selected. *)
Definition stored_settings : dict := [("apps_dir", PStr "apps")].

Definition settings_document : pyval :=
  PDict (Settings.context_settings stored_settings
           (PStr "c-abc12:p-xyz34") (PStr "c-abc12") (PStr "02pre")).

Definition first_run : Settings.state :=
  Settings.mkState (PDict stored_settings) None PNone PNone PNone.

(** What [rancher namespaces ls --format json] prints: one document per
    line, here with a warning between them. *)
Definition namespace_documents : list pyval :=
  [PDict [("name", PStr "prod")]; PDict [("ID", PStr "data")]].

Definition namespaces_output : string :=
  Sample.render_json (PDict [("name", PStr "prod")]) +:+ Generator.nl
    +:+ "WARN deprecated flag" +:+ Generator.nl
    +:+ "  " +:+ Sample.render_json (PDict [("ID", PStr "data")])
    +:+ Generator.nl.

(** A cache file edited by hand: its second entry is a number. *)
Definition mixed_cache_document : pyval :=
  PDict [("charts", PList [PStr "redis"; PInt 5]);
         ("timestamp", PStr "2024-05-01T12:00:00");
         ("version", PStr "1.0")].

Definition mixed_cache : Catalog.state :=
  Catalog.mkState (PList []) None
    (Some (Sample.render_json mixed_cache_document)) [].

Definition documents : list pyval :=
  Sample.documents ++ [search_document; settings_document]
    ++ namespace_documents ++ [mixed_cache_document].

Definition json_loads (text : string) : res pyval :=
  match Sample.lookup_text
          (map (fun v => (Sample.render_json v, v)) documents) text with
  | Some v => Ok v
  | None => raise JSONDecodeError "Expecting value: line 1 column 1 (char 0)"
  end.

Definition run_helm_command (args : list string) : bool * string :=
  if Sample.same_args (map PStr args) (map PStr Catalog.search_args)
  then (true, Sample.render_json search_document)
  else (true, "Update Complete.").

Definition run_rancher_command (args : list pyval) : bool * string :=
  if Sample.same_args args Cluster.namespaces_args
  then (true, namespaces_output)
  else if Sample.same_args args (Cluster.apply_args "/tmp/tmpk3s.yaml")
  then (true, "configmap/prod-nginx-config created")
  else Sample.run_rancher_command args.

Definition yaml_safe_load (text : string) : res pyval :=
  if String.eqb text "42" then Ok (PInt 42) else Sample.yaml_safe_load text.

Definition isoformat (d : datetime) : string :=
  if (micros d =? Sample.noon)%Z then "2024-05-01T12:00:00"
  else "2024-05-01T12:30:00".

(** A generation request in cluster mode, for the release web of the
    namespace prod, and the request in repository mode that follows it on
    the same screen. *)
Definition release : HelmRelease.t :=
  HelmRelease.mk (PStr "web") (PStr "prod") (PStr "nginx") "3"
    (PStr "deployed") (PStr "1.2.0") (PStr "1.25").

Definition cluster_screen : Screen.t :=
  Screen.mk Screen.cluster None (Some "prod") (Some release)
    "demo" EmptyString EmptyString EmptyString FleetConfig.default
    EmptyString [].

Definition repository_screen (held : FleetConfig.t) : Screen.t :=
  Screen.mk Screen.repository (Some "postgres") None None
    "demo" EmptyString "data" EmptyString held EmptyString [].

#[local] Instance world : Externals := {|
  Env.run_rancher_command := run_rancher_command;
  Env.run_helm_command := run_helm_command;
  Env.run_helm_with_kubeconfig := Sample.run_helm_with_kubeconfig;
  Env.write_temp_file := fun _ => Ok "/tmp/tmpk3s.yaml";
  Env.json_loads := json_loads;
  Env.json_dumps := Sample.render_json;
  Env.b64decode := Sample.b64decode;
  Env.utf8_decode := Sample.utf8_decode;
  Env.gzip_decompress := Sample.gzip_decompress;
  Env.yaml_safe_load := yaml_safe_load;
  Env.yaml_dump := fun v => Ok (Sample.render_json v);
  Env.py_repr := Sample.render_json;
  Env.fromisoformat := Sample.fromisoformat;
  Env.isoformat := isoformat
|}.

End Fixture.

(** * Properties *)

(** ** The decoder *)

Section DecoderFacts.
Context {E : Externals}.
Import Decoder.

Lemma isinstance_Exception_any (c : exn_class) : isinstance_Exception c = true.
Proof. destruct c; reflexivity. Qed.

(** A final [except Exception] clause that returns [d] makes the block
    total. *)
Lemma try_except_Exception {A : Type} (body : res A) (d : A) :
  try_except body [(isinstance_Exception, fun _ => Ok d)]
  = Ok (match body with Ok a => a | Raise _ => d end).
Proof.
  destruct body as [a|e]; simpl; [reflexivity|].
  now rewrite isinstance_Exception_any.
Qed.

Lemma inner_try_total (body : res dict) :
  try_except body
    [(isinstance_JSONDecodeError, fun _ => Ok []);
     (isinstance_binascii_or_ValueError, fun _ => Ok []);
     (isinstance_BadGzipFile, fun _ => Ok []);
     (isinstance_Exception, fun _ => Ok [])]
  = Ok (match body with Ok d => d | Raise _ => [] end).
Proof.
  destruct body as [d|[k msg]]; simpl; [reflexivity|].
  destruct k; reflexivity.
Qed.

Lemma decoder_unfold release_name namespace kubeconfig_path :
  get_helm_release_secret_metadata release_name namespace kubeconfig_path
  = Ok (decoder_value release_name namespace).
Proof.
  unfold get_helm_release_secret_metadata, decoder_value.
  rewrite try_except_Exception.
  destruct (join_space _) as [line|e]; cbv [bind]; [|reflexivity].
  destruct (run_rancher_command _) as [success output].
  destruct (negb success || negb (str_nonempty (strip output))); [reflexivity|].
  now rewrite inner_try_total.
Qed.

Lemma decoder_value_fetched release_name namespace output :
  fetched release_name namespace output ->
  decoder_value release_name namespace
  = match decode_secret output with Ok d => d | Raise _ => [] end.
Proof.
  intros [[line Hline] [Hrun Hout]]. unfold decoder_value.
  now rewrite Hline, Hrun, Hout.
Qed.

Lemma all_fields_empty_nil : all_fields_empty [].
Proof. repeat split. Qed.

Lemma decode_secret_reaches release_name namespace release_json :
  reaches_json release_name namespace release_json ->
  decoder_value release_name namespace
  = match stage_metadata release_json with Ok d => d | Raise _ => [] end.
Proof.
  intros [output rd once twice text Hf Hs Ht H1 H2 H3 H4].
  rewrite (decoder_value_fetched _ _ _ Hf). unfold decode_secret.
  rewrite Hs; simpl. rewrite Ht; simpl.
  rewrite H1; simpl. rewrite H2; simpl. rewrite H3; simpl. now rewrite H4.
Qed.

Lemma stage_metadata_absent release_json :
  metadata_absent release_json ->
  stage_metadata release_json = Ok (four_fields []).
Proof.
  intros [r [-> Habs]].
  unfold stage_metadata, four_fields, bind, py_get, dict_get.
  destruct Habs as [Hn | [[v [Hv Hnd]] | [c [Hc Hm]]]].
  - rewrite Hn. reflexivity.
  - rewrite Hv, Hnd. reflexivity.
  - rewrite Hc. cbn [isinstance_dict]. rewrite Hm. reflexivity.
Qed.

Lemma stage_metadata_present r c m :
  dict_lookup r "chart" = Some (PDict c) ->
  dict_lookup c "metadata" = Some (PDict m) ->
  stage_metadata (PDict r) = Ok (four_fields m).
Proof.
  intros Hc Hm.
  unfold stage_metadata, four_fields, bind, py_get, dict_get.
  rewrite Hc. cbn [isinstance_dict]. rewrite Hm. reflexivity.
Qed.

Lemma stage_failure_empty release_name namespace :
  stage_failure release_name namespace ->
  all_fields_empty (decoder_value release_name namespace).
Proof.
  intros Hfail.
  destruct Hfail as
    [e He | success output Hrun Hbad | output e Hf Hs | output rd Hf Hs Ht
    | output rd e Hf Hs Ht H1 | output rd once e Hf Hs Ht H1 H2
    | output rd once twice e Hf Hs Ht H1 H2 H3
    | output rd once twice text e Hf Hs Ht H1 H2 H3 H4
    | rj e Hr Hm | rj Hr Hm].
  - unfold decoder_value. rewrite He. apply all_fields_empty_nil.
  - unfold decoder_value. destruct (join_space _); [|apply all_fields_empty_nil].
    rewrite Hrun.
    destruct Hbad as [-> | ->]; simpl; rewrite ?orb_true_r;
      apply all_fields_empty_nil.
  - rewrite (decoder_value_fetched _ _ _ Hf). unfold decode_secret.
    rewrite Hs. apply all_fields_empty_nil.
  - rewrite (decoder_value_fetched _ _ _ Hf). unfold decode_secret.
    rewrite Hs; simpl. rewrite Ht. apply all_fields_empty_nil.
  - rewrite (decoder_value_fetched _ _ _ Hf). unfold decode_secret.
    rewrite Hs; simpl. rewrite Ht; simpl. rewrite H1.
    apply all_fields_empty_nil.
  - rewrite (decoder_value_fetched _ _ _ Hf). unfold decode_secret.
    rewrite Hs; simpl. rewrite Ht; simpl. rewrite H1; simpl. rewrite H2.
    apply all_fields_empty_nil.
  - rewrite (decoder_value_fetched _ _ _ Hf). unfold decode_secret.
    rewrite Hs; simpl. rewrite Ht; simpl. rewrite H1; simpl. rewrite H2; simpl.
    rewrite H3. apply all_fields_empty_nil.
  - rewrite (decoder_value_fetched _ _ _ Hf). unfold decode_secret.
    rewrite Hs; simpl. rewrite Ht; simpl. rewrite H1; simpl. rewrite H2; simpl.
    rewrite H3; simpl. rewrite H4. apply all_fields_empty_nil.
  - rewrite (decode_secret_reaches _ _ _ Hr), Hm. apply all_fields_empty_nil.
  - rewrite (decode_secret_reaches _ _ _ Hr), (stage_metadata_absent _ Hm).
    repeat split.
Qed.

Lemma decoder_value_cases release_name namespace :
  decoder_value release_name namespace = [] \/
  exists release_json,
    reaches_json release_name namespace release_json /\
    stage_metadata release_json = Ok (decoder_value release_name namespace).
Proof.
  unfold decoder_value.
  destruct (join_space _) as [line|e] eqn:Hline; [|now left].
  destruct (run_rancher_command _) as [success output] eqn:Hrun.
  destruct success; cbn [negb orb]; [|now left].
  destruct (str_nonempty (strip output)) eqn:Hout; cbn [negb]; [|now left].
  assert (Hf : fetched release_name namespace output)
    by (repeat split; eauto).
  unfold decode_secret.
  destruct (stage_secret output) as [rd|e] eqn:Hs; cbn [bind]; [|now left].
  destruct (truthy rd) eqn:Ht; cbn [negb]; [|now left].
  destruct (stage_b64_first rd) as [once|e] eqn:H1; cbn [bind]; [|now left].
  destruct (stage_b64_second (stage_unquote once)) as [twice|e] eqn:H2;
    cbn [bind]; [|now left].
  destruct (stage_gunzip twice) as [text|e] eqn:H3; cbn [bind]; [|now left].
  destruct (stage_json text) as [rj|e] eqn:H4; cbn [bind]; [|now left].
  destruct (stage_metadata rj) as [d|e] eqn:H5; [|now left].
  right. exists rj. split; [|exact H5].
  econstructor; eauto.
Qed.

Lemma stage_metadata_cases release_json d :
  stage_metadata release_json = Ok d ->
  d = four_fields [] \/
  exists r c m, release_json = PDict r /\
    dict_lookup r "chart" = Some (PDict c) /\
    dict_lookup c "metadata" = Some (PDict m) /\ d = four_fields m.
Proof.
  destruct release_json as [| | | |l|r]; try discriminate.
  unfold stage_metadata, four_fields, bind, py_get, dict_get.
  destruct (dict_lookup r "chart") as [v|] eqn:Hc.
  - destruct v as [| | | |l|c]; cbn [isinstance_dict];
      try (intros [= <-]; now left).
    destruct (dict_lookup c "metadata") as [mv|] eqn:Hm.
    + destruct mv as [| | | |l|m]; try discriminate.
      intros [= <-]. right. exists r, c, m. repeat split; assumption.
    + intros [= <-]. now left.
  - cbn [isinstance_dict dict_lookup]. intros [= <-]. now left.
Qed.

Lemma list_ascii_of_string_app (a b : string) :
  list_ascii_of_string (a +:+ b)
  = list_ascii_of_string a ++ list_ascii_of_string b.
Proof. induction a as [|c a IH]; simpl; [reflexivity | now rewrite IH]. Qed.

Lemma truthy_PStr (s : string) : truthy (PStr s) = str_nonempty s.
Proof. destruct s; reflexivity. Qed.

Lemma prefix_empty (s : string) : String.prefix EmptyString s = true.
Proof. destruct s; reflexivity. Qed.

Lemma stage_unquote_wrapped (inner : string) :
  stage_unquote (quote_wrap inner) = inner.
Proof.
  unfold stage_unquote, quote_wrap, startswith, endswith, slice_1_m1.
  cbn [list_ascii_of_string rev String.prefix app string_of_list_ascii].
  rewrite list_ascii_of_string_app. cbn [list_ascii_of_string tl].
  rewrite rev_app_distr. cbn [rev app string_of_list_ascii String.prefix].
  rewrite removelast_last.
  destruct (ascii_dec dquote dquote) as [_|Hne]; [|now destruct Hne].
  rewrite !prefix_empty. cbn [andb].
  apply string_of_list_ascii_of_string.
Qed.

Lemma stage_unquote_base64 (inner : string) :
  is_base64_text inner = true -> stage_unquote inner = inner.
Proof.
  intros Hb. unfold stage_unquote, startswith.
  destruct inner as [|c t]; [reflexivity|].
  cbn [String.prefix].
  destruct (ascii_dec dquote c) as [<-|Hne]; [|reflexivity].
  unfold is_base64_text in Hb. cbn [list_ascii_of_string forallb] in Hb.
  apply andb_true_iff in Hb. destruct Hb as [Hq _]. discriminate Hq.
Qed.

End DecoderFacts.

Section DecoderClaims.
Context {E : Externals}.
Import Decoder.

(** C2. The decoder is total and all-or-nothing: whatever the command
    runner and the codecs do, it returns a record and never raises; a
    failure at any stage (command, secret JSON, missing release field,
    first or second base64 decode, gzip, release JSON, missing or
    non-object chart.metadata) gives a record whose four fields are all
    empty; and a record that is not all-empty is the complete extraction
    [four_fields m] of a run in which every stage succeeded. *)
Theorem C2_decoder_failure_yields_empty_metadata
    (release_name namespace : pyval) (kubeconfig_path : string) :
  exists d : dict,
    get_helm_release_secret_metadata release_name namespace kubeconfig_path
      = Ok d /\
    (stage_failure release_name namespace -> all_fields_empty d) /\
    (all_fields_empty d \/
     exists m, decoded_from release_name namespace m /\ d = four_fields m).
Proof.
  exists (decoder_value release_name namespace).
  split; [apply decoder_unfold|]. split; [apply stage_failure_empty|].
  destruct (decoder_value_cases release_name namespace) as [-> | [rj [Hr Hm]]].
  - left. apply all_fields_empty_nil.
  - destruct (stage_metadata_cases _ _ Hm) as [-> | [r [c [m [-> [Hc [Hmd ->]]]]]]].
    + left. repeat split.
    + right. exists m. split; [|reflexivity].
      exists (PDict r), r, c. repeat split; assumption.
Qed.

(** C3. Round trip: a metadata object [m] with fields name, version,
    appVersion and description, placed at chart.metadata of a release
    document that is JSON-encoded, gzip-compressed, base64-encoded,
    optionally wrapped in quotes, base64-encoded again and stored in the
    secret's data.release field, is decoded to exactly those four values. *)
Theorem C3_decoder_round_trip
    (json_encode : pyval -> string) (utf8_encode : string -> bytes)
    (gzip_compress : bytes -> bytes) (b64encode : bytes -> string)
    (quoted : bool) (name version appVersion description : pyval)
    (m c r data secret : dict) (output release_name namespace : string)
    (kubeconfig_path : string) :
  dict_lookup m "name" = Some name ->
  dict_lookup m "version" = Some version ->
  dict_lookup m "appVersion" = Some appVersion ->
  dict_lookup m "description" = Some description ->
  dict_lookup c "metadata" = Some (PDict m) ->
  dict_lookup r "chart" = Some (PDict c) ->
  well_formed_payload json_encode utf8_encode gzip_compress b64encode
    quoted (PDict r) ->
  dict_lookup data "release"
    = Some (PStr (encode_payload json_encode utf8_encode gzip_compress
                    b64encode quoted (PDict r))) ->
  dict_lookup secret "data" = Some (PDict data) ->
  json_loads output = Ok (PDict secret) ->
  str_nonempty (strip output) = true ->
  run_rancher_command (kubectl_args (PStr release_name) (PStr namespace))
    = (true, output) ->
  get_helm_release_secret_metadata (PStr release_name) (PStr namespace)
    kubeconfig_path
  = Ok [("name", name); ("version", version);
        ("appVersion", appVersion); ("description", description)].
Proof.
  intros Hn Hv Ha Hd Hm Hc Hwf Hrel Hdata Hsecret Hout Hrun.
  unfold well_formed_payload in Hwf. cbv zeta in Hwf.
  destruct Hwf as (Hjson & Hutf & Hgz & Hb64 & Htext & Hutf' & Hb64' & Hne).
  rewrite decoder_unfold. f_equal.
  assert (Hreach : reaches_json (PStr release_name) (PStr namespace) (PDict r)).
  { eapply reaches_json_intro with
      (output := output)
      (release_data := PStr (encode_payload json_encode utf8_encode
                               gzip_compress b64encode quoted (PDict r)))
      (decoded_once := encode_text json_encode utf8_encode gzip_compress
                         b64encode quoted (PDict r))
      (decoded_twice := gzip_compress (utf8_encode (json_encode (PDict r))))
      (decompressed := json_encode (PDict r)).
    - repeat split; [eexists; reflexivity | assumption | assumption].
    - unfold stage_secret. rewrite Hsecret. cbn [bind py_keys py_get].
      unfold dict_get. rewrite Hdata. cbn [bind py_keys py_get].
      unfold dict_get. now rewrite Hrel.
    - rewrite truthy_PStr. exact Hne.
    - unfold stage_b64_first, encode_payload.
      cbn [py_len bind b64decode_val]. rewrite Hb64'. cbn [bind]. exact Hutf'.
    - unfold stage_b64_second, encode_text, encode_inner.
      destruct quoted.
      + rewrite stage_unquote_wrapped. exact Hb64.
      + rewrite (stage_unquote_base64 _ Htext). exact Hb64.
    - unfold stage_gunzip. rewrite Hgz. cbn [bind]. exact Hutf.
    - unfold stage_json. rewrite Hjson. reflexivity. }
  rewrite (decode_secret_reaches _ _ _ Hreach).
  rewrite (stage_metadata_present _ _ _ Hc Hm).
  unfold four_fields, dict_get. now rewrite Hn, Hv, Ha, Hd.
Qed.

End DecoderClaims.

Lemma C2_decoder_failure_yields_empty_metadata_witness :
  Decoder.stage_failure (E := Sample.world) (PStr "broken") (PStr "prod") /\
  exists d,
    Decoder.get_helm_release_secret_metadata (E := Sample.world)
      (PStr "broken") (PStr "prod") "/tmp/tmpk3s.yaml" = Ok d /\
    Decoder.all_fields_empty d.
Proof.
  assert (Hfail : Decoder.stage_failure (E := Sample.world)
                    (PStr "broken") (PStr "prod")).
  { eapply Decoder.first_base64_failed with
      (output := Sample.render_json
                   (Sample.secret_document Sample.truncated_payload))
      (release_data := PStr Sample.truncated_payload).
    - split; [eexists; reflexivity | split; vm_compute; reflexivity].
    - vm_compute; reflexivity.
    - reflexivity.
    - vm_compute; reflexivity. }
  split; [exact Hfail|].
  destruct (C2_decoder_failure_yields_empty_metadata (E := Sample.world)
              (PStr "broken") (PStr "prod") "/tmp/tmpk3s.yaml")
    as (d & Hd & Hempty & _).
  exists d. split; [exact Hd | exact (Hempty Hfail)].
Defined.

Lemma C3_decoder_round_trip_witness :
  Decoder.get_helm_release_secret_metadata (E := Sample.world)
    (PStr "web") (PStr "prod") "/tmp/tmpk3s.yaml"
  = Ok [("name", PStr "nginx"); ("version", PStr "9.9.9");
        ("appVersion", PStr "1.25.3"); ("description", PStr "A web server")].
Proof.
  eapply (C3_decoder_round_trip (E := Sample.world)
            Sample.render_json Sample.utf8_encode Sample.gzip_compress
            Sample.b64encode true _ _ _ _ Sample.chart_metadata
            [("metadata", PDict Sample.chart_metadata); ("values", PDict [])]
            [("name", PStr "web");
             ("chart", PDict [("metadata", PDict Sample.chart_metadata);
                              ("values", PDict [])]);
             ("namespace", PStr "prod")]
            [("release", PStr Sample.release_payload)]
            [("apiVersion", PStr "v1");
             ("data", PDict [("release", PStr Sample.release_payload)]);
             ("kind", PStr "Secret")]
            (Sample.render_json (Sample.secret_document Sample.release_payload))).
  all: try reflexivity.
  repeat split; vm_compute; reflexivity.
Defined.

(** ** The backfill of live releases *)

Section ReleaseClaims.
Context {E : Externals}.
Import Decoder Releases.

(** C1, as the code has it. The backfill is gated on the listing's
    chart_version and app_version: when both are non-empty the decoder is
    not called and the listing's three coordinates are kept. When one of
    them is empty the decoder is called once, for this release, and each of
    name, version and appVersion it reports non-empty replaces the
    listing's value, known or not; the listing's value survives only where
    the decoded field is empty. *)
Theorem C1_backfill_prefers_decoded_fields
    (release_name release_namespace : pyval) (kubeconfig_path : string)
    (chart_name chart_version app_version : pyval) :
  exists (d : dict) (chart_name' chart_version' app_version' : pyval)
         (calls : list (pyval * pyval * string)),
    get_helm_release_secret_metadata release_name release_namespace
      kubeconfig_path = Ok d /\
    backfill_logged release_name release_namespace kubeconfig_path
      (chart_name, chart_version, app_version)
      = (Ok (chart_name', chart_version', app_version'), calls) /\
    backfill release_name release_namespace kubeconfig_path
      (chart_name, chart_version, app_version)
      = Ok (chart_name', chart_version', app_version') /\
    (truthy chart_version = true -> truthy app_version = true ->
     calls = [] /\
     chart_name' = chart_name /\ chart_version' = chart_version /\
     app_version' = app_version) /\
    (truthy chart_version = false \/ truthy app_version = false ->
     calls = [(release_name, release_namespace, kubeconfig_path)] /\
     chart_name' = (if truthy (dict_get d "name" empty_str)
                    then dict_get d "name" empty_str else chart_name) /\
     chart_version' = (if truthy (dict_get d "version" empty_str)
                       then dict_get d "version" empty_str else chart_version) /\
     app_version' = (if truthy (dict_get d "appVersion" empty_str)
                     then dict_get d "appVersion" empty_str else app_version)).
Proof.
  exists (decoder_value release_name release_namespace).
  unfold backfill, backfill_logged. rewrite decoder_unfold. cbn [bind].
  destruct (truthy chart_version) eqn:Hcv, (truthy app_version) eqn:Hav;
    cbn [negb orb].
  1: { exists chart_name, chart_version, app_version, [].
       split; [reflexivity|]. split; [reflexivity|]. split; [reflexivity|].
       split; [intros _ _; auto | intros [?|?]; discriminate]. }
  all: unfold merge_secret_metadata;
    destruct (decoder_value release_name release_namespace) as [|kv d'] eqn:Hd;
    [ exists chart_name, chart_version, app_version
    | eexists _, _, _ ];
    eexists;
    (split; [reflexivity|]); (split; [reflexivity|]); (split; [reflexivity|]);
    (split; [intros; discriminate | intros _; auto]).
Qed.

End ReleaseClaims.

(** C1, as the spec states it, fails on the sample world: [helm get
    metadata] reports chart version 1.2.0 (and no application version), the
    decoder reports 9.9.9, and the listed release carries 9.9.9. *)
Lemma C1_first_known_wins_counterexample :
  Releases.release_coordinates (E := Sample.world)
    [("name", PStr "web"); ("namespace", PStr "prod")] true
    (Sample.render_json Sample.helm_metadata_document)
    = Ok (PStr "nginx", PStr "1.2.0", PStr EmptyString) /\
  (exists d, Decoder.get_helm_release_secret_metadata (E := Sample.world)
       (PStr "web") (PStr "prod") "/tmp/tmpk3s.yaml" = Ok d /\
     dict_lookup d "version" = Some (PStr "9.9.9")) /\
  exists r kubeconfig,
    Releases.list_helm_releases (E := Sample.world) (Some "prod") None
      = (Ok [r], kubeconfig) /\
    HelmRelease.chart_version r = PStr "9.9.9" /\
    HelmRelease.chart_version r <> PStr "1.2.0".
Proof.
  split; [vm_compute; reflexivity|]. split.
  - eexists. split; vm_compute; reflexivity.
  - eexists _, _. split; [vm_compute; reflexivity|].
    split; [reflexivity | discriminate].
Qed.

Lemma C1_backfill_prefers_decoded_fields_witness :
  (truthy (PStr "1.2.0") = false \/ truthy (PStr EmptyString) = false) /\
  Releases.backfill_logged (E := Sample.world) (PStr "web") (PStr "prod")
    "/tmp/tmpk3s.yaml" (PStr "nginx", PStr "1.2.0", PStr EmptyString)
  = (Ok (PStr "nginx", PStr "9.9.9", PStr "1.25.3"),
     [(PStr "web", PStr "prod", "/tmp/tmpk3s.yaml")]) /\
  truthy (PStr "1.2.0") = true /\ truthy (PStr "1.25") = true /\
  Releases.backfill_logged (E := Sample.world) (PStr "web") (PStr "prod")
    "/tmp/tmpk3s.yaml" (PStr "nginx", PStr "1.2.0", PStr "1.25")
  = (Ok (PStr "nginx", PStr "1.2.0", PStr "1.25"), []).
Proof.
  split; [right; reflexivity|]. split.
  - destruct (C1_backfill_prefers_decoded_fields (E := Sample.world)
                (PStr "web") (PStr "prod") "/tmp/tmpk3s.yaml"
                (PStr "nginx") (PStr "1.2.0") (PStr EmptyString))
      as (d & cn & cv & av & calls & Hd & Hb & _ & _ & Hmerge).
    rewrite Hb.
    destruct Hmerge as (-> & -> & -> & ->); [right; reflexivity|].
    vm_compute in Hd. injection Hd as <-. reflexivity.
  - split; [reflexivity|]. split; [reflexivity|].
    destruct (C1_backfill_prefers_decoded_fields (E := Sample.world)
                (PStr "web") (PStr "prod") "/tmp/tmpk3s.yaml"
                (PStr "nginx") (PStr "1.2.0") (PStr "1.25"))
      as (d & cn & cv & av & calls & _ & Hb & _ & Hkept & _).
    rewrite Hb.
    now destruct (Hkept eq_refl eq_refl) as (-> & -> & -> & ->).
Defined.

(** ** The resolver *)

Section ScreenFacts.
Context {E : Externals}.
Import Screen.

Lemma sanitize_dashed (s : string) : sanitize s = dashed s.
Proof.
  unfold sanitize. induction s as [|c t IH]; [reflexivity|].
  cbn [replace_char dashed]. rewrite IH. f_equal.
  destruct (Ascii.eqb c "/") eqn:Hs; cbn [orb]; [reflexivity|].
  destruct (Ascii.eqb c "_"); reflexivity.
Qed.

Lemma resolve_rejected_parse (s : t) (e : exn) :
  yaml_safe_load (chart_values_input s) = Raise e ->
  exists s', resolve s = Rejected s' /\
    FleetConfig.values (current_config s')
      = FleetConfig.values (current_config s) /\
    preview_content s' = preview_content s /\
    (exists message,
       notifications s' = notifications s ++ [(message, "error")]) /\
    (forall c, str_nonempty (app_name_input s) = true ->
       build_config s (app_name_input s) = inr c ->
       notifications s'
         = notifications s ++ [("Error parsing values: " +:+ exn_msg e, "error")]).
Proof.
  intros Hparse. unfold resolve.
  destruct (str_nonempty (app_name_input s)) eqn:Hname; cbn [negb].
  2: { eexists. split; [reflexivity|]. cbn.
       repeat split; eauto. intros; discriminate. }
  destruct (build_config s (app_name_input s)) as [message|c] eqn:Hbuild.
  { eexists. split; [reflexivity|]. cbn.
    repeat split; eauto. intros; discriminate. }
  unfold parse_values. rewrite Hparse.
  eexists. split; [reflexivity|]. cbn.
  split.
  { unfold build_config in Hbuild.
    destruct (chart_source_mode s).
    - destruct (selected_chart s) as [[|a r]|]; try discriminate.
      now injection Hbuild as <-.
    - destruct (selected_namespace s) as [[|a r]|]; try discriminate.
      destruct (selected_release s); try discriminate.
      now injection Hbuild as <-. }
  repeat split; eauto.
Qed.

End ScreenFacts.

Section ScreenClaims.
Context {E : Externals}.
Import Screen.

(** C4. Finalization: when a request resolves to a configuration with
    namespace [namespace] and chart name [chart_name], the configuration the
    screen holds after generation has app_name "<namespace>-<chart_name>"
    with every '/' and every '_' replaced by '-', and namespace and chart
    name are the resolved ones. *)
Theorem C4_finalized_app_name (s : t) (w : world) (c : FleetConfig.t)
    (namespace chart_name : string) :
  resolve s = Resolved c ->
  FleetConfig.namespace c = namespace ->
  FleetConfig.chart_name c = PStr chart_name ->
  let c' := current_config (generate_configuration s w).1 in
  FleetConfig.app_name c' = dashed (namespace +:+ "-" +:+ chart_name) /\
  FleetConfig.namespace c' = namespace /\
  FleetConfig.chart_name c' = PStr chart_name.
Proof.
  intros Hres Hns Hchart. unfold generate_configuration. rewrite Hres.
  destruct (Generator.generate_fleet_yaml _ _) as [fleet_yaml kubeconfig'].
  cbn. unfold app_dir_name_of. rewrite Hns, Hchart. cbn [py_str].
  rewrite sanitize_dashed. auto.
Qed.

(** C8. A values text that fails YAML parsing aborts the request: the world
    (directory store included) is left as it was, so neither the bundle
    manifest nor the config object is written; the configuration keeps the
    values it had, nothing is put in the preview, one error notification is
    added, and for a request that passed the validations it carries the
    parser's message. *)
Theorem C8_yaml_parse_failure_aborts (s : t) (w : world) (e : exn) :
  yaml_safe_load (chart_values_input s) = Raise e ->
  let s' := (generate_configuration s w).1 in
  (generate_configuration s w).2 = w /\
  FleetConfig.values (current_config s')
    = FleetConfig.values (current_config s) /\
  preview_content s' = preview_content s /\
  (exists message, notifications s' = notifications s ++ [(message, "error")]) /\
  (forall c, str_nonempty (app_name_input s) = true ->
     build_config s (app_name_input s) = inr c ->
     notifications s'
       = notifications s ++ [("Error parsing values: " +:+ exn_msg e, "error")]).
Proof.
  intros Hparse.
  destruct (resolve_rejected_parse s e Hparse) as (s1 & Hres & Hrest).
  unfold generate_configuration. rewrite Hres. cbn [fst snd].
  split; [reflexivity | exact Hrest].
Qed.

End ScreenClaims.

Lemma C4_finalized_app_name_witness :
  FleetConfig.app_name
    (Screen.current_config
       (Screen.generate_configuration (E := Sample.world)
          (Sample.screen "replicaCount: 3") Sample.store).1)
  = "prod-my-chart-x".
Proof.
  refine (proj1 (C4_finalized_app_name (E := Sample.world)
                   (Sample.screen "replicaCount: 3") Sample.store
                   _ "prod" "my_chart/x" _ _ _)).
  - vm_compute; reflexivity.
  - reflexivity.
  - reflexivity.
Defined.

Lemma C8_yaml_parse_failure_aborts_witness :
  yaml_safe_load (Externals := Sample.world) "replicas: ["
    = Raise (mkExn YAMLError
               "while parsing a flow sequence: expected ',' or ']'") /\
  (Screen.generate_configuration (E := Sample.world)
     (Sample.screen "replicas: [") Sample.store).2 = Sample.store /\
  Screen.notifications
    (Screen.generate_configuration (E := Sample.world)
       (Sample.screen "replicas: [") Sample.store).1
  = [("Error parsing values: while parsing a flow sequence: expected ',' or ']'",
      "error")].
Proof.
  split; [reflexivity|].
  destruct (C8_yaml_parse_failure_aborts (E := Sample.world)
              (Sample.screen "replicas: [") Sample.store
              (mkExn YAMLError
                 "while parsing a flow sequence: expected ',' or ']'")
              eq_refl)
    as (Hworld & _ & _ & _ & Hmsg).
  split; [exact Hworld|].
  refine (Hmsg _ eq_refl _). vm_compute; reflexivity.
Defined.

(** ** The generator *)

Section GeneratorClaims.
Context {E : Externals}.
Import Generator.

Lemma or_empty_Ok (text : string) : or_empty (Ok text) = text.
Proof. reflexivity. Qed.

Lemma append_assoc (a b c : string) : (a +:+ b) +:+ c = a +:+ (b +:+ c).
Proof.
  induction a as [|x a IH]; [reflexivity|].
  change (String x ((a +:+ b) +:+ c) = String x (a +:+ (b +:+ c))).
  now rewrite IH.
Qed.

Lemma py_eq_str_true (v : pyval) (s : string) :
  py_eq_str v s = true <-> v = PStr s.
Proof.
  destruct v; cbn; try (split; [discriminate | intros [=]]).
  rewrite String.eqb_eq. split; [now intros -> | now intros [= ->]].
Qed.

Lemma truthy_lookup_nonempty (d : dict) (k : string) (v : pyval) :
  dict_lookup d k = Some v -> list_nonempty d = true.
Proof. destruct d; [discriminate | reflexivity]. Qed.

(** C5. While the bundle manifest is rendered: when the chart metadata in
    effect carries a non-empty version and the configuration's chart_version
    is empty or "latest", the helm section of the manifest takes the
    metadata's version; when chart_version is any other non-empty value, the
    helm section keeps it. The manifest text is the serialization of that
    object, after the comment header if there is one. *)
Theorem C5_metadata_version_replaces_latest (fleet_config : FleetConfig.t)
    (current_kubeconfig : option string) (version : pyval) :
  let chart_metadata :=
    (lookup_chart_metadata fleet_config current_kubeconfig).1 in
  let content := fleet_content fleet_config chart_metadata in
  let chart_version := FleetConfig.chart_version fleet_config in
  (forall body, yaml_dump content = Ok body ->
     exists header,
       (generate_fleet_yaml fleet_config current_kubeconfig).1
         = header +:+ body) /\
  (dict_lookup chart_metadata "version" = Some version ->
   truthy version = true ->
   truthy chart_version = false \/ chart_version = PStr "latest" ->
   helm_section_version content = Some version) /\
  (truthy chart_version = true -> chart_version <> PStr "latest" ->
   helm_section_version content = Some chart_version).
Proof.
  cbv zeta. split; [|split].
  - intros body Hbody. unfold generate_fleet_yaml.
    destruct (lookup_chart_metadata _ _) as [md kube']. cbn [fst] in *.
    rewrite Hbody. cbn [bind].
    destruct (metadata_comments md) as [|l rest].
    + exists EmptyString. reflexivity.
    + exists (join_lines (l :: rest) +:+ nl +:+ "---" +:+ nl).
      rewrite or_empty_Ok.
      now rewrite !append_assoc.
  - intros Hv Ht Hcv. cbn. unfold helm_version, dict_get.
    rewrite Hv, Ht, (truthy_lookup_nonempty _ _ _ Hv). cbn [andb].
    destruct Hcv as [-> | ->]; reflexivity.
  - intros Ht Hne. cbn. unfold helm_version.
    rewrite Ht. cbn [negb orb].
    destruct (py_eq_str _ "latest") eqn:Heq.
    + apply py_eq_str_true in Heq. contradiction.
    + rewrite !andb_false_r. unfold py_or. now rewrite Ht.
Qed.

(** C9. The config object has exactly one data key, "values.yaml", and its
    value is the values document; the rendered config object is the
    serialization of that object. The values document is the YAML
    serialization of config.values when config.values is non-empty,
    otherwise the default template for the chart name. *)
Theorem C9_config_object_and_values_document (fleet_config : FleetConfig.t) :
  let document := generate_values_yaml fleet_config in
  (exists api kind metadata,
     configmap fleet_config
       = PDict [("apiVersion", api); ("kind", kind); ("metadata", metadata);
                ("data", PDict [("values.yaml", PStr document)])]) /\
  (forall text, yaml_dump (configmap fleet_config) = Ok text ->
     generate_configmap_yaml fleet_config = text) /\
  (truthy (FleetConfig.values fleet_config) = true ->
   forall text, yaml_dump (FleetConfig.values fleet_config) = Ok text ->
     document = text) /\
  (truthy (FleetConfig.values fleet_config) = false ->
   document
     = DEFAULT_VALUES_TEMPLATE (py_str (FleetConfig.chart_name fleet_config))).
Proof.
  cbv zeta. split; [|split; [|split]].
  - eexists _, _, _. unfold configmap. do 5 f_equal.
    unfold py_or. rewrite truthy_PStr.
    destruct (generate_values_yaml fleet_config); reflexivity.
  - intros text Htext. unfold generate_configmap_yaml. now rewrite Htext.
  - intros Ht text Htext. unfold generate_values_yaml. now rewrite Ht, Htext.
  - intros Ht. unfold generate_values_yaml. now rewrite Ht.
Qed.

End GeneratorClaims.

Lemma C5_metadata_version_replaces_latest_witness :
  dict_lookup
    (Generator.lookup_chart_metadata (E := Sample.world)
       Sample.live_config None).1 "version" = Some (PStr "1.2.0") /\
  FleetConfig.chart_version Sample.live_config = PStr "latest" /\
  Generator.helm_section_version
    (Generator.fleet_content Sample.live_config
       (Generator.lookup_chart_metadata (E := Sample.world)
          Sample.live_config None).1)
  = Some (PStr "1.2.0").
Proof.
  split; [reflexivity|]. split; [reflexivity|].
  destruct (C5_metadata_version_replaces_latest (E := Sample.world)
              Sample.live_config None (PStr "1.2.0")) as (_ & Hfill & _).
  apply Hfill; [reflexivity | reflexivity | right; reflexivity].
Defined.

Lemma C9_config_object_and_values_document_witness :
  truthy (FleetConfig.values Sample.tuned_config) = true /\
  truthy (FleetConfig.values Sample.live_config) = false /\
  Generator.generate_values_yaml (E := Sample.world) Sample.tuned_config
    = Sample.render_json (PDict [("replicaCount", PInt 3)]) /\
  Generator.generate_values_yaml (E := Sample.world) Sample.live_config
    = Generator.DEFAULT_VALUES_TEMPLATE "nginx".
Proof.
  split; [reflexivity|]. split; [reflexivity|]. split.
  - destruct (C9_config_object_and_values_document (E := Sample.world)
                Sample.tuned_config) as (_ & _ & Hdump & _).
    apply Hdump; reflexivity.
  - destruct (C9_config_object_and_values_document (E := Sample.world)
                Sample.live_config) as (_ & _ & _ & Htemplate).
    apply Htemplate; reflexivity.
Defined.

(** ** The catalog cache *)

Section CatalogFacts.
Context {E : Externals}.
Import Catalog.

Lemma get_eea_charts_unfold force_refresh allow_repo_fetch now st :
  get_eea_charts force_refresh allow_repo_fetch now st
  = (Ok (match (get_eea_charts_body force_refresh allow_repo_fetch
                  (mkDatetime now None) (load_if_empty st)).1 with
         | Ok charts => charts
         | Raise _ =>
             cached_or_fallback
               (get_eea_charts_body force_refresh allow_repo_fetch
                  (mkDatetime now None) (load_if_empty st)).2
         end),
     (get_eea_charts_body force_refresh allow_repo_fetch
        (mkDatetime now None) (load_if_empty st)).2).
Proof.
  unfold get_eea_charts.
  destruct (get_eea_charts_body _ _ _ _) as [r st'].
  now rewrite try_except_Exception.
Qed.

Lemma load_if_empty_available st snapshot timestamp :
  snapshot_available st snapshot timestamp ->
  load_if_empty st
  = mkState snapshot (Some timestamp) (_charts_cache_file st) (helm_commands st).
Proof.
  intros [Hmem Hne Hts | Hmem Hdisk Hne]; unfold load_if_empty.
  - rewrite Hmem, Hne. destruct st as [c t f h]. cbn in *. now subst.
  - rewrite Hmem, Hdisk. now rewrite Hne.
Qed.

(** What the loader returns has a length: the [len(disk_charts)] of the
    debug line in [get_eea_charts] does not raise. *)
Lemma loaded_charts_sized (file : option string) :
  exists n, py_len (load_charts_cache_from_disk file).1 = Ok n.
Proof.
  unfold load_charts_cache_from_disk.
  destruct file as [text|]; [|now exists 0].
  destruct (json_loads text) as [cache_data|e]; cbn [bind]; [|now exists 0].
  destruct (py_get cache_data "charts" (PList [])) as [charts|e];
    cbn [bind]; [|now exists 0].
  destruct (py_get cache_data "timestamp" PNone) as [timestamp_str|e];
    cbn [bind]; [|now exists 0].
  destruct (truthy timestamp_str).
  - destruct (fromisoformat_val timestamp_str) as [timestamp|e];
      cbn [bind]; [|now exists 0].
    destruct (py_len charts) as [n|e] eqn:Hlen; cbn [bind fst];
      [now exists n | now exists 0].
  - destruct (py_len charts) as [n|e] eqn:Hlen; cbn [bind fst];
      [now exists n | now exists 0].
Qed.

Lemma load_if_empty_log (st : state) :
  helm_commands (load_if_empty st) = helm_commands st.
Proof.
  unfold load_if_empty.
  destruct (truthy (_cached_charts st)); [reflexivity|].
  destruct (load_charts_cache_from_disk _) as [dc dt].
  destruct (truthy dc); reflexivity.
Qed.

Lemma snapshot_available_truthy st snapshot timestamp :
  snapshot_available st snapshot timestamp -> truthy snapshot = true.
Proof. now intros [? ? ?|? ? ?]. Qed.

Lemma fetch_runs_a_command : fetch_charts_from_helm_repo.2 <> [].
Proof.
  unfold fetch_charts_from_helm_repo.
  destruct (run_helm_command repo_add_args) as [[] ?]; cbn [negb]; [|easy].
  destruct (run_helm_command repo_update_args) as [[] ?]; cbn [negb]; [|easy].
  destruct (run_helm_command search_args) as [ok out].
  destruct (negb ok || negb (str_nonempty (strip out))); [easy|].
  destruct (bind _ _) as [?|?]; easy.
Qed.

Lemma cache_is_valid_true force_refresh now st :
  cache_is_valid force_refresh now st = Ok true ->
  truthy (_cached_charts st) = true.
Proof.
  unfold cache_is_valid.
  destruct (negb force_refresh); cbn [andb]; [|discriminate].
  destruct (truthy (_cached_charts st)); [reflexivity | discriminate].
Qed.

(** What the getter returns on a cache hit, through the [len] of the debug
    line or through the [except] clause. *)
Lemma cache_hit_result (st : state) :
  truthy (_cached_charts st) = true ->
  match (let* _ := py_len (_cached_charts st) in Ok (_cached_charts st)) with
  | Ok charts => charts
  | Raise _ => cached_or_fallback st
  end = _cached_charts st.
Proof.
  intros Ht. unfold cached_or_fallback. rewrite Ht.
  now destruct (_cached_charts st) as [|b|z|s|l|d].
Qed.

Lemma fetch_failed_result force_refresh now st :
  fetch_charts_from_helm_repo.1 = [] ->
  (get_eea_charts force_refresh true now st).1
  = Ok (cached_or_fallback (load_if_empty st)).
Proof.
  intros Hfetch. rewrite get_eea_charts_unfold. cbn [fst]. f_equal.
  unfold get_eea_charts_body.
  destruct (cache_is_valid _ _ _) as [[|]|e] eqn:Hvalid; cbn [fst snd].
  - rewrite (cache_hit_result _ (cache_is_valid_true _ _ _ Hvalid)).
    unfold cached_or_fallback.
    now rewrite (cache_is_valid_true _ _ _ Hvalid).
  - cbn [negb]. destruct fetch_charts_from_helm_repo as [fresh ran].
    cbn [fst] in Hfetch. subst fresh. reflexivity.
  - reflexivity.
Qed.

End CatalogFacts.

Section CatalogClaims.
Context {E : Externals}.
Import Catalog.

(** C6. Cache hit: with force_refresh false and remote fetch allowed, when
    a snapshot is in memory, or is loaded from a readable disk cache into an
    empty memory cache, and its capture timestamp is less than 3600 seconds
    old, the getter returns that snapshot unchanged and runs no helm
    command, although a fetch would run at least one. *)
Theorem C6_cache_hit_skips_remote_fetch (now : Z) (st : state)
    (snapshot : pyval) (timestamp : datetime) (age : Z) :
  snapshot_available st snapshot timestamp ->
  datetime_sub (mkDatetime now None) timestamp = Ok age ->
  (age < 3600 * 1000000)%Z ->
  exists st',
    get_eea_charts false true now st = (Ok snapshot, st') /\
    helm_commands st' = helm_commands st /\
    _cached_charts st' = snapshot /\
    _charts_cache_timestamp st' = Some timestamp /\
    _charts_cache_file st' = _charts_cache_file st /\
    fetch_charts_from_helm_repo.2 <> [].
Proof.
  intros Havail Hage Hyoung.
  pose proof (snapshot_available_truthy _ _ _ Havail) as Hne.
  rewrite get_eea_charts_unfold, (load_if_empty_available _ _ _ Havail).
  unfold get_eea_charts_body, cache_is_valid. cbn [negb andb _cached_charts
    _charts_cache_timestamp]. rewrite Hne, Hage. cbn [bind].
  apply Z.ltb_lt in Hyoung. unfold _charts_cache_duration. rewrite Hyoung.
  cbn [fst snd]. eexists. split.
  - f_equal. f_equal. now apply (cache_hit_result (mkState snapshot _ _ _)).
  - cbn. repeat split. apply fetch_runs_a_command.
Qed.

(** C7. The getter never raises; when the remote fetch fails it returns the
    in-memory snapshot (the disk cache counts once loaded) if there is one
    and the static fallback list otherwise; the static fallback list is
    non-empty and sorted lexicographically ([sorted] leaves it as it is). *)
Theorem C7_catalog_degrades_to_cache_then_fallback
    (force_refresh allow_repo_fetch : bool) (now : Z) (st : state) :
  (exists charts st',
     get_eea_charts force_refresh allow_repo_fetch now st = (Ok charts, st')) /\
  (fetch_charts_from_helm_repo.1 = [] ->
   let memory := _cached_charts (load_if_empty st) in
   (truthy memory = true ->
    (get_eea_charts force_refresh true now st).1 = Ok memory) /\
   (truthy memory = false ->
    (get_eea_charts force_refresh true now st).1
    = Ok (charts_val EEA_CHARTS))) /\
  EEA_CHARTS <> [] /\
  Sorted (fun a b => String.leb a b = true) EEA_CHARTS /\
  sorted EEA_CHARTS = EEA_CHARTS.
Proof.
  split; [|split; [|split; [|split]]].
  - rewrite get_eea_charts_unfold. eauto.
  - intros Hfetch memory. rewrite (fetch_failed_result _ _ _ Hfetch).
    unfold cached_or_fallback. fold memory.
    split; intros Hm; now rewrite Hm.
  - discriminate.
  - unfold EEA_CHARTS. repeat (constructor; try reflexivity).
  - vm_compute. reflexivity.
Qed.

End CatalogClaims.

Lemma C6_cache_hit_skips_remote_fetch_witness :
  Catalog.snapshot_available (E := Sample.world) Sample.fresh_process
    (Catalog.charts_val ["postgres"; "redis"; "volto"])
    (mkDatetime Sample.noon None) /\
  exists st',
    Catalog.get_eea_charts (E := Sample.world) false true
      Sample.half_past_noon Sample.fresh_process
      = (Ok (Catalog.charts_val ["postgres"; "redis"; "volto"]), st') /\
    Catalog.helm_commands st' = [].
Proof.
  assert (Havail : Catalog.snapshot_available (E := Sample.world)
                     Sample.fresh_process
                     (Catalog.charts_val ["postgres"; "redis"; "volto"])
                     (mkDatetime Sample.noon None)).
  { apply Catalog.snapshot_on_disk; [reflexivity | vm_compute; reflexivity
                                    | reflexivity]. }
  split; [exact Havail|].
  destruct (C6_cache_hit_skips_remote_fetch (E := Sample.world)
              Sample.half_past_noon Sample.fresh_process
              (Catalog.charts_val ["postgres"; "redis"; "volto"])
              (mkDatetime Sample.noon None)
              1800000000%Z Havail eq_refl eq_refl)
    as (st' & Hget & Hlog & _).
  exists st'. split; [exact Hget | exact Hlog].
Defined.

Lemma C7_catalog_degrades_to_cache_then_fallback_witness :
  (Catalog.fetch_charts_from_helm_repo (E := Sample.world)).1 = [] /\
  (Catalog.get_eea_charts (E := Sample.world) false true
     Sample.half_past_noon Sample.no_cache).1
  = Ok (Catalog.charts_val EEA_CHARTS).
Proof.
  split; [reflexivity|].
  destruct (C7_catalog_degrades_to_cache_then_fallback (E := Sample.world)
              false true Sample.half_past_noon Sample.no_cache)
    as (_ & Hfail & _).
  destruct (Hfail eq_refl) as (_ & Hfallback).
  apply Hfallback. reflexivity.
Defined.

(** ** Suggestions *)

Section SuggestionFacts.
Import Catalog.

Lemma mem_string_true (x : string) (l : list string) :
  mem_string x l = true <-> x ∈ l.
Proof.
  unfold mem_string. rewrite existsb_exists, list_elem_of_In. split.
  - intros [y [Hin Heq]]. apply String.eqb_eq in Heq. now subst.
  - intros Hin. exists x. split; [assumption | apply String.eqb_refl].
Qed.

(** The first loop appends, in catalog order, the charts that start with the
    query. *)
Lemma prefix_loop (partial_lower : string) (eea_charts acc : list string) :
  exists extra,
    fold_left
      (fun suggestions chart =>
         if startswith (lower chart) partial_lower
         then suggestions ++ [chart] else suggestions)
      eea_charts acc = acc ++ extra /\
    Forall (fun c => startswith (lower c) partial_lower = true) extra /\
    extra `sublist_of` eea_charts /\
    (forall c, c ∈ eea_charts ->
       startswith (lower c) partial_lower = true -> c ∈ extra).
Proof.
  revert acc. induction eea_charts as [|x l IH]; intros acc; cbn [fold_left].
  - exists []. rewrite app_nil_r. repeat split; [constructor | constructor |].
    intros c Hc. inversion Hc.
  - destruct (startswith (lower x) partial_lower) eqn:Hx.
    + destruct (IH (acc ++ [x])) as (extra & Heq & Hall & Hsub & Hin).
      exists (x :: extra). rewrite Heq, <- app_assoc. split; [reflexivity|].
      split; [constructor; assumption|].
      split; [now constructor|].
      intros c Hc Hp. apply elem_of_cons in Hc. destruct Hc as [->|Hc].
      * left.
      * right. now apply Hin.
    + destruct (IH acc) as (extra & Heq & Hall & Hsub & Hin).
      exists extra. split; [assumption|]. split; [assumption|].
      split; [now constructor|].
      intros c Hc Hp. apply elem_of_cons in Hc. destruct Hc as [->|Hc].
      * congruence.
      * now apply Hin.
Qed.

(** The second loop appends charts that contain the query and are not yet
    suggested. *)
Lemma partial_loop (partial_lower : string) (eea_charts acc : list string) :
  exists extra,
    add_partial_matches eea_charts partial_lower acc = acc ++ extra /\
    Forall (fun c => contains (lower c) partial_lower = true /\
                     c ∈ eea_charts /\ c ∉ acc) extra /\
    (NoDup acc -> NoDup (acc ++ extra)).
Proof.
  unfold add_partial_matches.
  revert acc. induction eea_charts as [|x l IH]; intros acc; cbn [fold_left].
  - exists []. rewrite app_nil_r. repeat split; [constructor | trivial].
  - destruct (contains (lower x) partial_lower
              && negb (mem_string x acc)) eqn:Hx.
    + apply andb_true_iff in Hx. destruct Hx as [Hc Hm].
      apply negb_true_iff in Hm.
      assert (Hnotin : x ∉ acc).
      { intros Hin. apply mem_string_true in Hin. congruence. }
      destruct (IH (acc ++ [x])) as (extra & Heq & Hall & Hnd).
      exists (x :: extra). rewrite Heq, <- app_assoc. split; [reflexivity|].
      split.
      * constructor; [repeat split; [assumption | left | assumption]|].
        eapply Forall_impl; [exact Hall|].
        intros c (Hcc & Hcl & Hca). repeat split; [assumption | now right |].
        intros Hin. apply Hca. apply elem_of_app. now left.
      * intros Hacc. change (x :: extra) with ([x] ++ extra).
        rewrite app_assoc. apply Hnd.
        apply NoDup_app. split; [assumption|]. split.
        -- intros y Hy Hy'. apply list_elem_of_singleton in Hy'. now subst.
        -- apply NoDup_singleton.
    + destruct (IH acc) as (extra & Heq & Hall & Hnd).
      exists extra. split; [assumption|]. split; [|assumption].
      eapply Forall_impl; [exact Hall|].
      intros c (Hcc & Hcl & Hca). repeat split; [assumption | now right | assumption].
Qed.

Lemma suggestions_from_spec (eea_charts : list string) (partial_name : string) :
  let l := suggestions_from eea_charts partial_name in
  length l <= 10 /\
  (NoDup eea_charts -> NoDup l) /\
  (exists starting containing,
     l = starting ++ containing /\
     Forall (fun c => startswith (lower c) (lower partial_name) = true)
       starting /\
     Forall (fun c => startswith (lower c) (lower partial_name) = false /\
                      contains (lower c) (lower partial_name) = true)
       containing) /\
  (partial_name = EmptyString -> l = take 10 eea_charts) /\
  Forall (fun c => c ∈ eea_charts) l.
Proof.
  unfold suggestions_from.
  destruct partial_name as [|a p]; cbn [str_nonempty negb].
  - cbv zeta. split; [rewrite length_take; lia|].
    split; [intros Hnd; eapply sublist_NoDup; [exact Hnd | apply sublist_take]|].
    split.
    { exists (take 10 eea_charts), []. rewrite app_nil_r.
      split; [reflexivity|]. split; [|constructor].
      apply Forall_forall. intros c _. unfold startswith. cbn [lower].
      apply prefix_empty. }
    split; [reflexivity|].
    apply Forall_take, Forall_forall. auto.
  - set (q := lower (String a p)). cbv zeta.
    unfold prefix_matches.
    destruct (prefix_loop q eea_charts []) as (e1 & Heq1 & Hall1 & Hsub1 & Hin1).
    rewrite Heq1. cbn [app].
    destruct (partial_loop q eea_charts e1) as (e2 & Heq2 & Hall2 & Hnd2).
    rewrite Heq2.
    split; [rewrite length_take; lia|].
    split.
    { intros Hnd. eapply sublist_NoDup; [|apply sublist_take].
      apply Hnd2. eapply sublist_NoDup; [exact Hnd | exact Hsub1]. }
    split.
    { exists (take 10 e1), (take (10 - length e1) e2).
      split; [apply take_app|]. split; [now apply Forall_take|].
      apply Forall_take. eapply Forall_impl; [exact Hall2|].
      intros c (Hc & Hcl & Hce). split; [|assumption].
      destruct (startswith (lower c) q) eqn:Hp; [|reflexivity].
      exfalso. apply Hce. now apply Hin1. }
    split; [discriminate|].
    apply Forall_take, Forall_app. split.
    + apply Forall_forall. intros c Hc.
      eapply elem_of_sublist; [exact Hc | exact Hsub1].
    + eapply Forall_impl; [exact Hall2|]. now intros c (_ & Hcl & _).
Qed.

Lemma charts_val_inj (a b : list string) :
  charts_val a = charts_val b -> a = b.
Proof.
  unfold charts_val. intros [= Hmap]. revert b Hmap.
  induction a as [|x a IH]; intros [|y b] Hmap; try discriminate;
    [reflexivity|].
  injection Hmap as -> Hmap. f_equal. now apply IH.
Qed.

Lemma listed_names (chart : string) (suggestions : list string) :
  existsb (fun listed => py_eq_str listed chart) (map PStr suggestions)
  = mem_string chart suggestions.
Proof.
  unfold mem_string. induction suggestions as [|x l IH]; [reflexivity|].
  cbn [map existsb py_eq_str]. now rewrite IH, String.eqb_sym.
Qed.

(** On a list of [str] the two loops are those of [suggestions_from]. *)
Lemma startswith_loop_names (names : list string) (partial_lower : string)
    (suggestions : list string) :
  startswith_loop (map PStr names) partial_lower (map PStr suggestions)
  = Ok (map PStr
          (fold_left
             (fun suggestions chart =>
                if startswith (lower chart) partial_lower
                then suggestions ++ [chart] else suggestions)
             names suggestions)).
Proof.
  revert suggestions.
  induction names as [|x l IH]; intros suggestions; [reflexivity|].
  cbn [map startswith_loop py_lower bind fold_left].
  destruct (startswith (lower x) partial_lower); [|apply IH].
  change (map PStr suggestions ++ [PStr x])
    with (map PStr suggestions ++ map PStr [x]).
  rewrite <- map_app. apply IH.
Qed.

Lemma contains_loop_names (names : list string) (partial_lower : string)
    (suggestions : list string) :
  contains_loop (map PStr names) partial_lower (map PStr suggestions)
  = Ok (map PStr (add_partial_matches names partial_lower suggestions)).
Proof.
  unfold add_partial_matches. revert suggestions.
  induction names as [|x l IH]; intros suggestions; [reflexivity|].
  cbn [map contains_loop fold_left]. rewrite listed_names.
  destruct (contains (lower x) partial_lower && negb (mem_string x suggestions));
    [|apply IH].
  change (map PStr suggestions ++ [PStr x])
    with (map PStr suggestions ++ map PStr [x]).
  rewrite <- map_app. apply IH.
Qed.

Lemma suggestions_of_names (names : list string) (partial_name : string) :
  suggestions_of (charts_val names) partial_name
  = Ok (charts_val (suggestions_from names partial_name)).
Proof.
  unfold suggestions_of, suggestions_from, charts_val.
  destruct (str_nonempty partial_name); cbn [negb py_take py_iter bind].
  - rewrite (startswith_loop_names names _ []). cbn [bind].
    rewrite contains_loop_names. cbn [bind py_take].
    now rewrite firstn_map.
  - now rewrite firstn_map.
Qed.

(** The first loop stops at the first item that is not a [str]. *)
Lemma startswith_loop_raises (items : list pyval) (partial_lower : string)
    (suggestions : list pyval) (v : pyval) :
  In v items -> (forall s, v <> PStr s) ->
  exists e, startswith_loop items partial_lower suggestions = Raise e /\
            exn_kind e = AttributeError.
Proof.
  revert suggestions.
  induction items as [|x l IH]; intros suggestions Hin Hv; [contradiction|].
  cbn [startswith_loop].
  destruct x as [|b|z|s|xs|d]; cbn [py_lower bind];
    try (eexists; split; reflexivity).
  destruct Hin as [<-|Hin]; [now contradiction (Hv s)|].
  now apply IH.
Qed.

End SuggestionFacts.

Section SuggestionClaims.
Context {E : Externals}.
Import Catalog.

(** C10, as the code has it. [get_chart_suggestions] reads the catalog in
    fast mode (no helm command) and works on the value the getter hands it.
    When that value is a list of strings, it returns at most 10 of them;
    the names that start with the query, case-insensitively, come before
    the names that only contain it; for the empty query the result is the
    first 10 catalog entries; and the result has no duplicates provided the
    catalog has none: only the second loop skips a name that is already
    suggested. When the catalog is a list with an item that is not a
    string, as an edited cache file can give, a non-empty query raises
    AttributeError. *)
Theorem C10_suggestions_bounded_ordered (partial_name : string) (now : Z)
    (st : state) :
  exists (catalog : pyval) (st' : state),
    get_eea_charts false false now st = (Ok catalog, st') /\
    helm_commands st' = helm_commands st /\
    (get_chart_suggestions partial_name now st).2 = st' /\
    (forall names, catalog = charts_val names ->
       exists l,
         (get_chart_suggestions partial_name now st).1 = Ok (charts_val l) /\
         length l <= 10 /\
         (NoDup names -> NoDup l) /\
         (exists starting containing,
            l = starting ++ containing /\
            Forall (fun c => startswith (lower c) (lower partial_name) = true)
              starting /\
            Forall (fun c =>
                      startswith (lower c) (lower partial_name) = false /\
                      contains (lower c) (lower partial_name) = true)
              containing) /\
         (partial_name = EmptyString -> l = take 10 names) /\
         Forall (fun c => c ∈ names) l) /\
    (forall items v,
       catalog = PList items -> In v items -> (forall s, v <> PStr s) ->
       partial_name <> EmptyString ->
       exists e,
         (get_chart_suggestions partial_name now st).1 = Raise e /\
         exn_kind e = AttributeError).
Proof.
  unfold get_chart_suggestions.
  rewrite (get_eea_charts_unfold false false now st).
  eexists _, _. split; [reflexivity|]. cbn [bind fst snd].
  split; [|split; [reflexivity|split]].
  - unfold get_eea_charts_body.
    destruct (cache_is_valid _ _ _) as [[|]|e]; cbn [negb snd];
      apply load_if_empty_log.
  - intros names ->. rewrite suggestions_of_names.
    eexists. split; [reflexivity|]. apply suggestions_from_spec.
  - intros items v -> Hin Hv Hquery. unfold suggestions_of.
    destruct partial_name as [|a q]; [contradiction|].
    cbn [str_nonempty negb py_iter bind].
    destruct (startswith_loop_raises items (lower (String a q)) [] v Hin Hv)
      as (e & -> & Hkind).
    now exists e.
Qed.

End SuggestionClaims.

(** C10, as stated, fails when the catalog lists a name twice: both copies
    start with the query and the first loop appends both. *)
Lemma C10_duplicate_suggestions_counterexample :
  exists l st',
    Catalog.get_chart_suggestions (E := Sample.world) "vol"
      Sample.half_past_noon Sample.edited_cache
    = (Ok (Catalog.charts_val l), st') /\
    l = ["volto"; "volto"] /\ ~ NoDup l.
Proof.
  exists ["volto"; "volto"]. eexists. split; [vm_compute; reflexivity|].
  split; [reflexivity|].
  intros Hnd. apply NoDup_cons in Hnd. destruct Hnd as [Hnotin _].
  apply Hnotin. left.
Qed.

Lemma C10_suggestions_bounded_ordered_witness :
  NoDup ["postgres"; "redis"; "volto"] /\
  (Catalog.get_chart_suggestions (E := Sample.world) "RE"
     Sample.half_past_noon Sample.fresh_process).1
  = Ok (Catalog.charts_val ["redis"; "postgres"]) /\
  NoDup ["redis"; "postgres"] /\
  In (PInt 5) [PStr "redis"; PInt 5] /\
  exists e,
    (Catalog.get_chart_suggestions (E := Fixture.world) "re"
       Sample.half_past_noon Fixture.mixed_cache).1 = Raise e /\
    exn_kind e = AttributeError.
Proof.
  assert (Hcat : NoDup ["postgres"; "redis"; "volto"]).
  { apply (bool_decide_unpack _). vm_compute. exact I. }
  split; [exact Hcat|].
  destruct (C10_suggestions_bounded_ordered (E := Sample.world) "RE"
              Sample.half_past_noon Sample.fresh_process)
    as (catalog & st' & Hget & _ & _ & Hnames & _).
  assert (Hc : catalog = Catalog.charts_val ["postgres"; "redis"; "volto"]).
  { vm_compute in Hget. injection Hget as <- _. reflexivity. }
  destruct (Hnames _ Hc) as (l & Hsug & _ & Hnd & _).
  assert (Hl : l = ["redis"; "postgres"]).
  { assert (Hrun : (Catalog.get_chart_suggestions (E := Sample.world) "RE"
                      Sample.half_past_noon Sample.fresh_process).1
                   = Ok (Catalog.charts_val ["redis"; "postgres"]))
      by (vm_compute; reflexivity).
    rewrite Hrun in Hsug.
    assert (Hsame : Catalog.charts_val ["redis"; "postgres"]
                    = Catalog.charts_val l) by congruence.
    symmetry. exact (charts_val_inj _ _ Hsame). }
  subst l. split; [exact Hsug|]. split; [exact (Hnd Hcat)|].
  split; [right; left; reflexivity|].
  destruct (C10_suggestions_bounded_ordered (E := Fixture.world) "re"
              Sample.half_past_noon Fixture.mixed_cache)
    as (mixed & st2 & Hget2 & _ & _ & _ & Hraise).
  assert (Hm : mixed = PList [PStr "redis"; PInt 5]).
  { vm_compute in Hget2. injection Hget2 as <- _. reflexivity. }
  apply (Hraise [PStr "redis"; PInt 5] (PInt 5) Hm).
  - right; left; reflexivity.
  - discriminate.
  - discriminate.
Defined.

(** * More properties of the code *)

(** ** The catalog cache: fetch, refresh and staleness *)

Section CatalogMore.
Context {E : Externals}.
Import Catalog.

Local Abbreviation leb_sorted := (Sorted (fun a b => String.leb a b = true)).

Lemma insert_sorted_hd (x a : string) (l : list string) :
  String.leb a x = true ->
  HdRel (fun a b => String.leb a b = true) a l ->
  HdRel (fun a b => String.leb a b = true) a (insert_sorted x l).
Proof.
  intros Hax Hl. destruct l as [|y t]; cbn [insert_sorted].
  - now constructor.
  - destruct (String.leb x y); constructor; [assumption|].
    now inversion Hl.
Qed.

Lemma insert_sorted_Sorted (x : string) (l : list string) :
  leb_sorted l -> leb_sorted (insert_sorted x l).
Proof.
  induction l as [|y t IH]; intros Hs; cbn [insert_sorted].
  - repeat constructor.
  - destruct (String.leb x y) eqn:Hxy.
    + constructor; [assumption | now constructor].
    + inversion Hs as [|? ? Ht Hhd]; subst.
      constructor; [now apply IH|].
      apply insert_sorted_hd; [|assumption].
      destruct (String.leb_total x y) as [H1|H1]; congruence.
Qed.

Lemma sorted_Sorted (l : list string) : leb_sorted (sorted l).
Proof.
  induction l as [|x t IH]; cbn; [constructor|].
  now apply insert_sorted_Sorted.
Qed.

(** X1. Whatever helm prints, the list the fetch returns is sorted
    lexicographically. *)
Theorem X1_fetch_returns_sorted_list :
  Sorted (fun a b => String.leb a b = true) fetch_charts_from_helm_repo.1.
Proof.
  unfold fetch_charts_from_helm_repo.
  destruct (run_helm_command repo_add_args) as [[] ?]; cbn [negb fst];
    [|constructor].
  destruct (run_helm_command repo_update_args) as [[] ?]; cbn [negb fst];
    [|constructor].
  destruct (run_helm_command search_args) as [ok out].
  destruct (negb ok || negb (str_nonempty (strip out))); [constructor|].
  destruct (json_loads out) as [[| | | |l|d]|e]; cbn [bind fst];
    try constructor.
  destruct (collect_charts l) as [charts|e]; cbn [bind fst];
    [apply sorted_Sorted | constructor].
Qed.

(** X2. The fetch runs repo add, repo update and search in that order and
    stops at the first failure: a failed repo add runs nothing else, a
    failed repo update leaves the search out, and a non-empty result means
    that all three commands ran and succeeded. *)
Theorem X2_fetch_stops_at_first_failed_command :
  let charts := fetch_charts_from_helm_repo.1 in
  let ran := fetch_charts_from_helm_repo.2 in
  ((run_helm_command repo_add_args).1 = false ->
   charts = [] /\ ran = [repo_add_args]) /\
  ((run_helm_command repo_add_args).1 = true ->
   (run_helm_command repo_update_args).1 = false ->
   charts = [] /\ ran = [repo_add_args; repo_update_args]) /\
  (charts <> [] ->
   ran = [repo_add_args; repo_update_args; search_args] /\
   (run_helm_command repo_add_args).1 = true /\
   (run_helm_command repo_update_args).1 = true /\
   (run_helm_command search_args).1 = true /\
   str_nonempty (strip (run_helm_command search_args).2) = true).
Proof.
  cbv zeta. unfold fetch_charts_from_helm_repo.
  destruct (run_helm_command repo_add_args) as [[] o1]; cbn [negb fst snd].
  2: { repeat split; try discriminate; try contradiction; auto. }
  destruct (run_helm_command repo_update_args) as [[] o2]; cbn [negb fst snd].
  2: { repeat split; try discriminate; try contradiction; auto. }
  destruct (run_helm_command search_args) as [ok out]; cbn [fst snd].
  split; [discriminate|]. split; [discriminate|].
  destruct ok; cbn [negb orb].
  2: { intros Hne. now contradiction Hne. }
  destruct (str_nonempty (strip out)); cbn [negb].
  2: { intros Hne. now contradiction Hne. }
  destruct (bind _ _) as [charts|e]; cbn [fst snd]; intros Hne;
    [repeat split | now contradiction Hne].
Qed.

Lemma load_if_empty_nonempty (st : state) :
  truthy (_cached_charts st) = true -> load_if_empty st = st.
Proof. intros Hne. unfold load_if_empty. now rewrite Hne. Qed.

Lemma get_eea_charts_forced (now : Z) (st : state) :
  get_eea_charts true true now st
  = (let st0 := load_if_empty st in
     let log := helm_commands st0 ++ fetch_charts_from_helm_repo.2 in
     if list_nonempty fetch_charts_from_helm_repo.1
     then (Ok (charts_val fetch_charts_from_helm_repo.1),
           mkState (charts_val fetch_charts_from_helm_repo.1)
             (Some (mkDatetime now None))
             (save_charts_cache_to_disk fetch_charts_from_helm_repo.1
                (mkDatetime now None)) log)
     else (Ok (cached_or_fallback st0),
           mkState (_cached_charts st0) (_charts_cache_timestamp st0)
             (_charts_cache_file st0) log)).
Proof.
  rewrite get_eea_charts_unfold. cbv zeta.
  unfold get_eea_charts_body. cbn [cache_is_valid negb andb].
  destruct fetch_charts_from_helm_repo as [fresh ran]. cbn [fst snd].
  destruct (list_nonempty fresh); reflexivity.
Qed.

(** X3. Refresh, then hit: after a forced refresh at time [now] whose fetch
    brought a non-empty list, any call without force_refresh less than
    3600 seconds later returns that list and changes nothing: no helm
    command, no write. *)
Theorem X3_refresh_then_cache_hit (now later : Z) (st : state)
    (allow_repo_fetch : bool) :
  fetch_charts_from_helm_repo.1 <> [] ->
  (later - now < 3600 * 1000000)%Z ->
  exists st1,
    get_eea_charts true true now st
      = (Ok (charts_val fetch_charts_from_helm_repo.1), st1) /\
    get_eea_charts false allow_repo_fetch later st1
      = (Ok (charts_val fetch_charts_from_helm_repo.1), st1).
Proof.
  intros Hfresh Hage. rewrite get_eea_charts_forced. cbv zeta.
  destruct fetch_charts_from_helm_repo as [fresh ran]. cbn [fst snd] in *.
  assert (Hne : list_nonempty fresh = true) by (now destruct fresh).
  assert (Htruthy : truthy (charts_val fresh) = true) by (now destruct fresh).
  rewrite Hne. eexists. split; [reflexivity|].
  rewrite get_eea_charts_unfold, load_if_empty_nonempty by exact Htruthy.
  unfold get_eea_charts_body, cache_is_valid.
  cbn [negb andb _cached_charts _charts_cache_timestamp datetime_sub
       utcoffset micros bind]. rewrite Htruthy.
  apply Z.ltb_lt in Hage. unfold _charts_cache_duration. rewrite Hage.
  reflexivity.
Qed.

(** X4. The disk cache round trip: when the JSON document and the ISO
    timestamp that [save_charts_cache_to_disk] writes are read back as
    written, [load_charts_cache_from_disk] returns the saved list and
    timestamp. *)
Theorem X4_saved_cache_loads_back (charts : list string)
    (timestamp : datetime) :
  let document :=
    PDict [("charts", PList (map PStr charts));
           ("timestamp", PStr (isoformat timestamp));
           ("version", PStr "1.0")] in
  json_loads (json_dumps document) = Ok document ->
  str_nonempty (isoformat timestamp) = true ->
  fromisoformat (isoformat timestamp) = Ok timestamp ->
  load_charts_cache_from_disk (save_charts_cache_to_disk charts timestamp)
  = (charts_val charts, Some timestamp).
Proof.
  cbv zeta. intros Hjson Hne Hiso.
  unfold load_charts_cache_from_disk, save_charts_cache_to_disk.
  rewrite Hjson. cbn [bind py_get dict_get dict_lookup String.eqb Ascii.eqb
                      Bool.eqb].
  rewrite truthy_PStr, Hne. cbn [fromisoformat_val]. rewrite Hiso.
  reflexivity.
Qed.

(** X5. Fast mode: with allow_repo_fetch false the getter runs no helm
    command, whether or not a refresh is forced; it loads the disk cache
    into an empty memory cache and returns the memory cache if it is
    non-empty, else the static list. *)
Theorem X5_fast_mode_never_fetches (force_refresh : bool) (now : Z)
    (st : state) :
  get_eea_charts force_refresh false now st
  = (Ok (cached_or_fallback (load_if_empty st)), load_if_empty st) /\
  helm_commands (load_if_empty st) = helm_commands st.
Proof.
  split.
  - rewrite get_eea_charts_unfold. unfold get_eea_charts_body.
    destruct (cache_is_valid _ _ _) as [[|]|e] eqn:Hvalid; cbn [negb fst snd];
      try reflexivity.
    rewrite (cache_hit_result _ (cache_is_valid_true _ _ _ Hvalid)).
    unfold cached_or_fallback.
    now rewrite (cache_is_valid_true _ _ _ Hvalid).
  - apply load_if_empty_log.
Qed.

(** X6. A forced refresh with fetch allowed always goes to the repository,
    however young the cache is: the helm commands of the fetch are appended
    to the log, and a non-empty fetch result replaces the memory cache and
    its timestamp and is returned. *)
Theorem X6_forced_refresh_always_fetches (now : Z) (st : state) :
  let r := get_eea_charts true true now st in
  helm_commands r.2 = helm_commands st ++ fetch_charts_from_helm_repo.2 /\
  fetch_charts_from_helm_repo.2 <> [] /\
  (fetch_charts_from_helm_repo.1 <> [] ->
   r.1 = Ok (charts_val fetch_charts_from_helm_repo.1) /\
   _cached_charts r.2 = charts_val fetch_charts_from_helm_repo.1 /\
   _charts_cache_timestamp r.2 = Some (mkDatetime now None)).
Proof.
  cbv zeta. rewrite get_eea_charts_forced. cbv zeta.
  rewrite load_if_empty_log.
  split; [|split; [apply fetch_runs_a_command|]].
  - destruct (list_nonempty _); reflexivity.
  - intros Hne. destruct (fetch_charts_from_helm_repo.1); [contradiction|].
    repeat split.
Qed.

Lemma cached_or_fallback_nonempty (st : state) :
  truthy (cached_or_fallback st) = true.
Proof.
  unfold cached_or_fallback.
  destruct (truthy (_cached_charts st)) eqn:Ht; [exact Ht | reflexivity].
Qed.

(** X7. The getter never returns an empty catalog (nor any other empty
    value), whatever the cache holds and whatever the repository answers. *)
Theorem X7_catalog_is_never_empty (force_refresh allow_repo_fetch : bool)
    (now : Z) (st : state) :
  exists charts st',
    get_eea_charts force_refresh allow_repo_fetch now st = (Ok charts, st') /\
    truthy charts = true /\ charts <> PList [].
Proof.
  rewrite get_eea_charts_unfold. eexists _, _. split; [reflexivity|].
  assert (Hempty : forall v, truthy v = true ->
                     truthy v = true /\ v <> PList []).
  { intros v Hv. split; [exact Hv|]. intros ->. discriminate Hv. }
  apply Hempty. unfold get_eea_charts_body.
  destruct (cache_is_valid _ _ _) as [[|]|e] eqn:Hvalid; cbn [fst snd].
  - apply cache_is_valid_true in Hvalid.
    now rewrite (cache_hit_result _ Hvalid).
  - destruct allow_repo_fetch; cbn [negb fst];
      [|apply cached_or_fallback_nonempty].
    destruct fetch_charts_from_helm_repo as [fresh ran].
    destruct fresh as [|c t]; cbn [list_nonempty fst snd];
      [apply cached_or_fallback_nonempty | reflexivity].
  - apply cached_or_fallback_nonempty.
Qed.


End CatalogMore.

Lemma X2_fetch_stops_at_first_failed_command_witness :
  (run_helm_command (Externals := Sample.world) Catalog.repo_add_args).1
    = false /\
  Catalog.fetch_charts_from_helm_repo (E := Sample.world)
    = ([], [Catalog.repo_add_args]).
Proof.
  split; [reflexivity|].
  destruct (X2_fetch_stops_at_first_failed_command (E := Sample.world))
    as (Hadd & _).
  destruct (Hadd eq_refl) as [Hc Hr].
  destruct (Catalog.fetch_charts_from_helm_repo (E := Sample.world)).
  cbn [fst snd] in Hc, Hr. now subst.
Defined.

Lemma X3_refresh_then_cache_hit_witness :
  exists st1,
    Catalog.get_eea_charts (E := Fixture.world) true true Sample.noon
      Sample.no_cache = (Ok (Catalog.charts_val ["redis"; "volto"]), st1) /\
    Catalog.get_eea_charts (E := Fixture.world) false true
      Sample.half_past_noon st1
    = (Ok (Catalog.charts_val ["redis"; "volto"]), st1).
Proof.
  refine (X3_refresh_then_cache_hit (E := Fixture.world) Sample.noon
            Sample.half_past_noon Sample.no_cache true _ _).
  - vm_compute. discriminate.
  - vm_compute. reflexivity.
Defined.

Lemma X4_saved_cache_loads_back_witness :
  Catalog.load_charts_cache_from_disk (E := Fixture.world)
    (Catalog.save_charts_cache_to_disk (E := Fixture.world)
       ["postgres"; "redis"; "volto"] (mkDatetime Sample.noon None))
  = (Catalog.charts_val ["postgres"; "redis"; "volto"],
     Some (mkDatetime Sample.noon None)).
Proof.
  apply (X4_saved_cache_loads_back (E := Fixture.world)).
  - vm_compute. reflexivity.
  - reflexivity.
  - reflexivity.
Defined.

Lemma X6_forced_refresh_always_fetches_witness :
  (Catalog.fetch_charts_from_helm_repo (E := Fixture.world)).1 <> [] /\
  (Catalog.get_eea_charts (E := Fixture.world) true true Sample.half_past_noon
     Sample.fresh_process).1 = Ok (Catalog.charts_val ["redis"; "volto"]).
Proof.
  assert (Hfetched : (Catalog.fetch_charts_from_helm_repo
                        (E := Fixture.world)).1 <> [])
    by (vm_compute; discriminate).
  split; [exact Hfetched|].
  destruct (X6_forced_refresh_always_fetches (E := Fixture.world)
              Sample.half_past_noon Sample.fresh_process) as (_ & _ & Hfresh).
  destruct (Hfresh Hfetched) as (Hreturned & _).
  rewrite Hreturned. vm_compute. reflexivity.
Defined.


(** ** Filtering and suggestions *)

Section BrowseMore.
Import Catalog Browse.

(** On a list of [str] the comprehension is that of [filter_matches]. *)
Lemma filter_loop_names (names : list string) (search_lower : string) :
  filter_loop (map PStr names) search_lower
  = Ok (map PStr
          (List.filter (fun chart => contains (lower chart) search_lower)
             names)).
Proof.
  induction names as [|x l IH]; [reflexivity|].
  cbn [map filter_loop py_lower bind List.filter]. rewrite IH. cbn [bind].
  now destruct (contains (lower x) search_lower).
Qed.

Lemma filter_value_names (search_term : string) (names : list string) :
  filter_value search_term (charts_val names)
  = Ok (charts_val (filter_matches search_term names)).
Proof.
  unfold filter_value, filter_matches, charts_val.
  destruct (str_nonempty search_term); cbn [negb py_iter bind];
    [|reflexivity].
  now rewrite filter_loop_names.
Qed.

Lemma filter_sublist {A : Type} (f : A -> bool) (l : list A) :
  List.filter f l `sublist_of` l.
Proof.
  induction l as [|x t IH]; cbn [List.filter]; [constructor|].
  destruct (f x); now constructor.
Qed.

Lemma filter_elem_of {A : Type} (f : A -> bool) (l : list A) (x : A) :
  x ∈ List.filter f l <-> x ∈ l /\ f x = true.
Proof. rewrite !list_elem_of_In. apply filter_In. Qed.

Lemma filter_idempotent {A : Type} (f : A -> bool) (l : list A) :
  List.filter f (List.filter f l) = List.filter f l.
Proof.
  induction l as [|x t IH]; [reflexivity|]. cbn [List.filter].
  destruct (f x) eqn:Hx; [|exact IH].
  cbn [List.filter]. now rewrite Hx, IH.
Qed.

Lemma filter_length_mono {A : Type} (f g : A -> bool) (l : list A) :
  (forall x, f x = true -> g x = true) ->
  length (List.filter f l) <= length (List.filter g l).
Proof.
  intros Himp. induction l as [|x t IH]; [reflexivity|]. cbn [List.filter].
  destruct (f x) eqn:Hf.
  - rewrite (Himp x Hf). cbn [length]. lia.
  - destruct (g x); cbn [length]; lia.
Qed.

Lemma startswith_contains (s p : string) :
  startswith s p = true -> contains s p = true.
Proof.
  unfold startswith. intros Hp. destruct s; cbn [contains]; now rewrite Hp.
Qed.

Lemma mem_string_app (x : string) (l k : list string) :
  mem_string x (l ++ k) = mem_string x l || mem_string x k.
Proof. apply existsb_app. Qed.

(** X9. Filtering keeps the order of the given list and drops nothing that
    matches: with a non-empty term the result holds exactly the names that
    contain the term, case-insensitively; with an empty term it is the list
    itself; and filtering the result again changes nothing. *)
Theorem X9_filter_keeps_exactly_the_matches (search_term : string)
    (charts : list string) :
  let result := filter_matches search_term charts in
  result `sublist_of` charts /\
  (search_term = EmptyString -> result = charts) /\
  (search_term <> EmptyString ->
   forall c, c ∈ result <->
             c ∈ charts /\ contains (lower c) (lower search_term) = true) /\
  filter_matches search_term result = result.
Proof.
  cbv zeta. unfold filter_matches.
  destruct search_term as [|a t]; cbn [str_nonempty negb].
  - repeat split; try reflexivity; try contradiction.
  - cbv zeta. split; [apply filter_sublist|]. split; [discriminate|].
    split; [|apply filter_idempotent].
    intros _ c.
    apply (filter_elem_of
             (fun chart => contains (lower chart) (lower (String a t)))).
Qed.

Lemma prefix_loop_filter (q : string) (l acc : list string) :
  fold_left
    (fun suggestions chart =>
       if startswith (lower chart) q
       then suggestions ++ [chart] else suggestions) l acc
  = acc ++ List.filter (fun c => startswith (lower c) q) l.
Proof.
  revert acc. induction l as [|x t IH]; intros acc; cbn [fold_left List.filter].
  - now rewrite app_nil_r.
  - destruct (startswith (lower x) q); rewrite IH; [|reflexivity].
    now rewrite <- app_assoc.
Qed.

(** The second loop adds no more names than there are matches outside the
    list it starts from, and leaves no match out. *)
Lemma partial_loop_covers (q : string) (l acc : list string) :
  exists extra,
    add_partial_matches l q acc = acc ++ extra /\
    length extra
      <= length (List.filter
                   (fun c => contains (lower c) q && negb (mem_string c acc)) l) /\
    (forall c, c ∈ l -> contains (lower c) q = true -> c ∈ acc ++ extra).
Proof.
  unfold add_partial_matches.
  revert acc. induction l as [|x t IH]; intros acc;
    cbn [fold_left List.filter].
  - exists []. rewrite app_nil_r. repeat split; [reflexivity|].
    intros c Hc. inversion Hc.
  - destruct (contains (lower x) q && negb (mem_string x acc)) eqn:Hx.
    + destruct (IH (acc ++ [x])) as (extra & Heq & Hlen & Hcov).
      exists (x :: extra). rewrite Heq, <- app_assoc. split; [reflexivity|].
      split.
      * cbn [length]. apply le_n_S. etransitivity; [exact Hlen|].
        apply filter_length_mono. intros c Hc.
        apply andb_true_iff in Hc. destruct Hc as [Hcc Hcm].
        rewrite Hcc. cbn [andb]. rewrite mem_string_app in Hcm.
        apply negb_true_iff, orb_false_iff in Hcm. destruct Hcm as [-> _].
        reflexivity.
      * intros c Hc Hcc. change (x :: extra) with ([x] ++ extra).
        rewrite app_assoc. apply elem_of_cons in Hc. destruct Hc as [->|Hc].
        -- apply elem_of_app. left. apply elem_of_app. right. left.
        -- now apply Hcov.
    + destruct (IH acc) as (extra & Heq & Hlen & Hcov).
      exists extra. split; [exact Heq|]. split; [exact Hlen|].
      intros c Hc Hcc. apply elem_of_cons in Hc. destruct Hc as [->|Hc].
      * rewrite Hcc in Hx. cbn [andb] in Hx. apply negb_false_iff in Hx.
        apply elem_of_app. left. now apply mem_string_true.
      * now apply Hcov.
Qed.

(** Prefix matches and the other matches together are no more than the
    matches. *)
Lemma matches_split_length (q : string) (catalog l : list string) :
  (forall c, c ∈ l -> c ∈ catalog) ->
  length (List.filter (fun c => startswith (lower c) q) l)
  + length (List.filter
              (fun c => contains (lower c) q
                        && negb (mem_string c
                                   (List.filter
                                      (fun c => startswith (lower c) q)
                                      catalog))) l)
  <= length (List.filter (fun c => contains (lower c) q) l).
Proof.
  induction l as [|x t IH]; intros Hin; [reflexivity|].
  assert (Ht : forall c, c ∈ t -> c ∈ catalog)
    by (intros c Hc; apply Hin; now right).
  specialize (IH Ht). cbn [List.filter].
  destruct (startswith (lower x) q) eqn:Hp.
  - rewrite (startswith_contains _ _ Hp). cbn [andb].
    assert (Hm : mem_string x
                   (List.filter (fun c => startswith (lower c) q) catalog)
                 = true).
    { apply mem_string_true, filter_elem_of. split; [apply Hin; left | exact Hp]. }
    rewrite Hm. cbn [negb length]. lia.
  - destruct (contains (lower x) q); cbn [andb]; [|exact IH].
    destruct (negb _); cbn [length]; lia.
Qed.

(** X10. Suggestions against the filter: every suggested name is one the
    filter would keep for the same text, and when the filter keeps at most
    10 names the suggestions hold every one of them. *)
Theorem X10_suggestions_agree_with_filter (catalog : list string)
    (partial_name : string) :
  (forall c, c ∈ suggestions_from catalog partial_name ->
             c ∈ filter_matches partial_name catalog) /\
  (length (filter_matches partial_name catalog) <= 10 ->
   forall c, c ∈ filter_matches partial_name catalog ->
             c ∈ suggestions_from catalog partial_name).
Proof.
  unfold suggestions_from, filter_matches.
  destruct partial_name as [|a t]; cbn [str_nonempty negb].
  - split.
    + intros c Hc. eapply elem_of_sublist; [exact Hc | apply sublist_take].
    + intros Hlen c Hc. now rewrite take_ge by exact Hlen.
  - set (q := lower (String a t)). cbv zeta. unfold prefix_matches.
    rewrite prefix_loop_filter. cbn [app].
    destruct (partial_loop_covers q catalog
                (List.filter (fun c => startswith (lower c) q) catalog))
      as (extra & Heq & Hlen & Hcov).
    rewrite Heq. split.
    + intros c Hc.
      assert (Hc' : c ∈ List.filter (fun c => startswith (lower c) q) catalog
                          ++ extra)
        by (eapply elem_of_sublist; [exact Hc | apply sublist_take]).
      clear Hc. apply elem_of_app in Hc'. destruct Hc' as [Hc|Hc].
      * apply filter_elem_of in Hc. destruct Hc as [Hin Hp].
        apply filter_elem_of. split; [exact Hin | now apply startswith_contains].
      * destruct (partial_loop (q) catalog
                    (List.filter (fun c => startswith (lower c) q) catalog))
          as (extra' & Heq' & Hall & _).
        rewrite Heq in Heq'. apply app_inv_head in Heq'. subst extra'.
        rewrite Forall_forall in Hall. destruct (Hall c Hc) as (Hcc & Hin & _).
        apply filter_elem_of. split; assumption.
    + intros Hmax c Hc. apply filter_elem_of in Hc. destruct Hc as [Hin Hcc].
      rewrite take_ge; [now apply Hcov|].
      rewrite length_app. etransitivity; [|exact Hmax].
      etransitivity; [|apply (matches_split_length q catalog catalog); auto].
      apply Nat.add_le_mono_l. exact Hlen.
Qed.

End BrowseMore.

Lemma X9_filter_keeps_exactly_the_matches_witness :
  "volto" ∈ Browse.filter_matches "OL" ["postgres"; "redis"; "volto"].
Proof.
  destruct (X9_filter_keeps_exactly_the_matches "OL"
              ["postgres"; "redis"; "volto"]) as (_ & _ & Hiff & _).
  apply Hiff; [discriminate|]. split; [|reflexivity].
  apply (bool_decide_unpack _). vm_compute. exact I.
Defined.

Lemma X10_suggestions_agree_with_filter_witness :
  length (Browse.filter_matches "re" ["postgres"; "redis"; "volto"]) <= 10 /\
  "postgres" ∈ Catalog.suggestions_from ["postgres"; "redis"; "volto"] "re".
Proof.
  assert (Hlen : length (Browse.filter_matches "re"
                           ["postgres"; "redis"; "volto"]) <= 10)
    by (vm_compute; lia).
  split; [exact Hlen|].
  apply (proj2 (X10_suggestions_agree_with_filter
                  ["postgres"; "redis"; "volto"] "re") Hlen).
  apply (bool_decide_unpack _). vm_compute. exact I.
Defined.

(** ** Live releases and the kubeconfig handle *)

Section ReleasesMore.
Context {E : Externals}.
Import Decoder Releases.

Lemma release_of_item_identity (path : string) (item : dict)
    (r : HelmRelease.t) :
  release_of_item path item = Ok r ->
  HelmRelease.name r = dict_get item "name" (PStr EmptyString) /\
  HelmRelease.namespace r = dict_get item "namespace" (PStr EmptyString).
Proof.
  unfold release_of_item.
  destruct (run_helm_with_kubeconfig _ _) as [ok out].
  destruct (release_coordinates item ok out) as [coords|e]; cbn [bind];
    [|discriminate].
  destruct (backfill _ _ _ _) as [[[cn cv] av]|e]; cbn [bind]; [|discriminate].
  intros [= <-]. split; reflexivity.
Qed.

Lemma releases_of_items_identity (path : string) (items : list pyval)
    (rs : list HelmRelease.t) :
  releases_of_items path items = Ok rs ->
  map (fun r => (HelmRelease.name r, HelmRelease.namespace r)) rs
  = map (fun item => (dict_get item "name" (PStr EmptyString),
                      dict_get item "namespace" (PStr EmptyString)))
        (dict_items items).
Proof.
  revert rs. induction items as [|v t IH]; intros rs; cbn [releases_of_items].
  - now intros [= <-].
  - destruct v; try (cbn [dict_items]; apply IH).
    destruct (release_of_item path d) as [r|e] eqn:Hr; cbn [bind];
      [|discriminate].
    destruct (releases_of_items path t) as [rs'|e]; cbn [bind]; [|discriminate].
    intros [= <-]. cbn [dict_items map].
    destruct (release_of_item_identity _ _ _ Hr) as [-> ->].
    now rewrite (IH rs').
Qed.

(** X11. The listing never raises and is all or nothing: either it is
    empty, or helm list succeeded with a JSON list and the listing has one
    release for every object of that list, in order, under the name and
    namespace of the object. An exception while one item is processed
    leaves no release at all. *)
Theorem X11_listing_is_all_or_nothing (namespace : option string)
    (current_kubeconfig : option string) :
  exists releases,
    (list_helm_releases namespace current_kubeconfig).1 = Ok releases /\
    (releases = [] \/
     exists path output items,
       (Kube.ensure_kubeconfig current_kubeconfig).1 = Some path /\
       run_helm_with_kubeconfig (helm_list_args namespace) path
         = (true, output) /\
       json_loads output = Ok (PList items) /\
       map (fun r => (HelmRelease.name r, HelmRelease.namespace r)) releases
       = map (fun item => (dict_get item "name" (PStr EmptyString),
                           dict_get item "namespace" (PStr EmptyString)))
             (dict_items items)).
Proof.
  unfold list_helm_releases.
  destruct (Kube.ensure_kubeconfig current_kubeconfig) as [[path|] current'];
    cbn [fst]; [|eauto].
  rewrite try_except_Exception.
  destruct (run_helm_with_kubeconfig _ _) as [ok out] eqn:Hrun.
  destruct ok; cbn [negb orb]; [|eauto].
  destruct (negb (str_nonempty (strip out))); [eauto|].
  destruct (json_loads out) as [data|e] eqn:Hjson; cbn [bind]; [|eauto].
  destruct data as [| | | |items|d]; eauto.
  destruct (releases_of_items path items) as [rs|e] eqn:Hrs; [|eauto].
  exists rs. split; [reflexivity|]. right. exists path, out, items.
  repeat split; try assumption; try reflexivity.
  now apply (releases_of_items_identity path).
Qed.

Lemma merge_all_empty (d : dict) (coords : pyval * pyval * pyval) :
  all_fields_empty d -> merge_secret_metadata d coords = coords.
Proof.
  intros (Hn & Hv & Ha & _). destruct coords as [[cn cv] av].
  unfold merge_secret_metadata. destruct d as [|kv d']; [reflexivity|].
  unfold empty_str in *. now rewrite Hn, Hv, Ha.
Qed.

(** X12. A failed decode changes nothing: when the decoder fails at any
    stage, the backfill hands back the chart name, chart version and
    application version of the listing as they were. *)
Theorem X12_failed_decode_keeps_listing (release_name release_namespace : pyval)
    (kubeconfig_path : string) (coords : pyval * pyval * pyval) :
  stage_failure release_name release_namespace ->
  backfill release_name release_namespace kubeconfig_path coords = Ok coords.
Proof.
  intros Hfail. unfold backfill, backfill_logged.
  destruct coords as [[cn cv] av].
  destruct (negb (truthy cv) || negb (truthy av)); [|reflexivity].
  rewrite decoder_unfold. cbn [bind fst].
  now rewrite (merge_all_empty _ _ (stage_failure_empty _ _ Hfail)).
Qed.

(** X13. The kubeconfig handle is generated at most once: a request on a
    handle that is set calls no generation; a path handed out is non-empty
    and is stored, so the next request returns the same path without
    generating another; a request that hands out nothing had exactly one
    generation fail and leaves the stored handle as it was. The logged
    lines return what the lines of the release listing return. *)
Theorem X13_kubeconfig_is_reused (current : option string) :
  let handed := (Kube.ensure_kubeconfig_logged current).1.1 in
  let stored := (Kube.ensure_kubeconfig_logged current).1.2 in
  let ran := (Kube.ensure_kubeconfig_logged current).2 in
  Kube.ensure_kubeconfig current = (handed, stored) /\
  (Kube.path_truthy current = true -> ran = []) /\
  length ran <= 1 /\
  (forall path, handed = Some path ->
     str_nonempty path = true /\
     stored = Some path /\
     Kube.ensure_kubeconfig_logged stored = (Some path, Some path, [])) /\
  (handed = None -> stored = current /\ length ran = 1).
Proof.
  cbv zeta. unfold Kube.ensure_kubeconfig, Kube.ensure_kubeconfig_logged.
  destruct (Kube.path_truthy current) eqn:Hcur; cbn [fst snd].
  - split; [reflexivity|]. split; [reflexivity|]. split; [cbn; lia|].
    split.
    + intros path ->. cbn [Kube.path_truthy] in Hcur.
      split; [exact Hcur|]. split; [reflexivity|].
      cbn [Kube.path_truthy]. now rewrite Hcur.
    + intros ->. discriminate Hcur.
  - destruct (Kube.path_truthy Kube.generate_temp_kubeconfig) eqn:Hgen;
      cbn [fst snd].
    + split; [reflexivity|]. split; [discriminate|]. split; [cbn; lia|].
      split.
      * intros path Hpath. rewrite Hpath in Hgen |- *.
        cbn [Kube.path_truthy] in Hgen.
        split; [exact Hgen|]. split; [reflexivity|].
        cbn [Kube.path_truthy]. now rewrite Hgen.
      * intros Hnone. rewrite Hnone in Hgen. discriminate Hgen.
    + split; [reflexivity|]. split; [discriminate|]. split; [cbn; lia|].
      split; [discriminate|]. intros _. split; reflexivity.
Qed.

End ReleasesMore.

Lemma X12_failed_decode_keeps_listing_witness :
  Decoder.stage_failure (E := Sample.world) (PStr "broken") (PStr "prod") /\
  Releases.backfill (E := Sample.world) (PStr "broken") (PStr "prod")
    "/tmp/tmpk3s.yaml" (PStr "nginx", PStr "1.2.0", PStr EmptyString)
  = Ok (PStr "nginx", PStr "1.2.0", PStr EmptyString).
Proof.
  assert (Hfail : Decoder.stage_failure (E := Sample.world)
                    (PStr "broken") (PStr "prod")).
  { eapply Decoder.first_base64_failed with
      (output := Sample.render_json
                   (Sample.secret_document Sample.truncated_payload))
      (release_data := PStr Sample.truncated_payload).
    - split; [eexists; reflexivity | split; vm_compute; reflexivity].
    - vm_compute; reflexivity.
    - reflexivity.
    - vm_compute; reflexivity. }
  split; [exact Hfail|].
  exact (X12_failed_decode_keeps_listing (E := Sample.world) _ _ _ _ Hfail).
Defined.

Lemma X13_kubeconfig_is_reused_witness :
  Kube.ensure_kubeconfig_logged (E := Sample.world) None
  = (Some "/tmp/tmpk3s.yaml", Some "/tmp/tmpk3s.yaml",
     [[PStr "kubectl"; PStr "config"; PStr "view"; PStr "--raw"]]) /\
  Kube.ensure_kubeconfig_logged (E := Sample.world)
    (Kube.ensure_kubeconfig_logged (E := Sample.world) None).1.2
  = (Some "/tmp/tmpk3s.yaml", Some "/tmp/tmpk3s.yaml", []).
Proof.
  split; [reflexivity|].
  destruct (X13_kubeconfig_is_reused (E := Sample.world) None)
    as (_ & _ & _ & Hsome & _).
  exact (proj2 (proj2 (Hsome "/tmp/tmpk3s.yaml" eq_refl))).
Defined.

(** ** The artifacts and the directory store *)

Section ArtifactsMore.
Context {E : Externals}.
Import Generator Screen.

Lemma configmap_values_entry (fleet_config : FleetConfig.t) :
  py_path (configmap fleet_config) ["data"; "values.yaml"]
  = Some (PStr (generate_values_yaml fleet_config)).
Proof.
  cbn. unfold py_or. rewrite truthy_PStr.
  destruct (generate_values_yaml fleet_config); reflexivity.
Qed.

(** X14. The two artifacts fit together: the values reference of the bundle
    manifest names the config object and the key under which the config
    object holds the values document, and both carry the namespace of the
    configuration. *)
Theorem X14_manifest_reference_resolves (fleet_config : FleetConfig.t)
    (chart_metadata : dict) :
  exists name,
    py_path (fleet_content fleet_config chart_metadata) ["helm"; "valuesFrom"]
    = Some (PList [PDict [("configMapKeyRef",
                           PDict [("name", PStr name);
                                  ("key", PStr "values.yaml")])]]) /\
    py_path (configmap fleet_config) ["metadata"; "name"] = Some (PStr name) /\
    py_path (configmap fleet_config) ["data"; "values.yaml"]
    = Some (PStr (generate_values_yaml fleet_config)) /\
    py_path (fleet_content fleet_config chart_metadata) ["defaultNamespace"]
    = py_path (configmap fleet_config) ["metadata"; "namespace"].
Proof.
  exists (FleetConfig.app_name fleet_config +:+ "-config").
  repeat split. apply configmap_values_entry.
Qed.

Lemma manifest_path_differs (dir dir' name : string) :
  path_join dir "fleet.yaml"
  <> path_join dir' (name +:+ "-configmap.yaml").
Proof.
  intros Heq. apply (f_equal (last_chars 6)) in Heq.
  unfold last_chars, path_join in Heq.
  rewrite !list_ascii_of_string_app, !rev_app_distr in Heq.
  cbn in Heq. discriminate Heq.
Qed.

(** X15. What a successful generation leaves in the directory store: the
    bundle manifest at <apps>/<cluster>/<app>/fleet.yaml, the config object
    at <int>/<cluster>/<app>/<app>-configmap.yaml, both rendered from the
    finalized configuration, and every other path as it was. *)
Theorem X15_generation_writes_two_files (s : t) (w : world)
    (c : FleetConfig.t) :
  resolve s = Resolved c ->
  let cluster := sanitize (first_truthy (cluster_name w) (cluster_id w) "default") in
  let app := FleetConfig.app_name (finalize c) in
  let manifest := path_join (path_join (path_join (apps_dir w) cluster) app)
                    "fleet.yaml" in
  let object := path_join (path_join (path_join (int_dir w) cluster) app)
                  (app +:+ "-configmap.yaml") in
  let w' := (generate_configuration s w).2 in
  files w' !! manifest
    = Some (generate_fleet_yaml (finalize c) (current_kubeconfig w)).1 /\
  files w' !! object = Some (generate_configmap_yaml (finalize c)) /\
  (forall p, p <> manifest -> p <> object -> files w' !! p = files w !! p) /\
  current_config (generate_configuration s w).1 = finalize c.
Proof.
  intros Hres. cbv zeta. unfold generate_configuration. rewrite Hres.
  destruct (generate_fleet_yaml _ _) as [fleet_yaml kubeconfig'].
  cbn [fst snd files current_config notify with_preview with_config].
  change (FleetConfig.app_name (finalize c)) with (app_dir_name_of c).
  split; [|split; [|split]].
  - rewrite lookup_insert_ne by (apply not_eq_sym, manifest_path_differs).
    apply lookup_insert_eq.
  - apply lookup_insert_eq.
  - intros p Hm Ho. rewrite !lookup_insert_ne by (apply not_eq_sym; assumption).
    reflexivity.
  - reflexivity.
Qed.

(** X17. Values must be sized: when the values text parses to a non-empty
    value without a length (a number, true), the request is rejected with
    the message of the failed [len] and nothing is written, but the
    configuration the screen holds already carries the parsed value. *)
Theorem X17_unsized_values_are_rejected (s : t) (w : world)
    (c : FleetConfig.t) (v : pyval) (e : exn) :
  str_nonempty (app_name_input s) = true ->
  build_config s (app_name_input s) = inr c ->
  yaml_safe_load (chart_values_input s) = Ok v ->
  truthy v = true ->
  py_len v = Raise e ->
  generate_configuration s w
  = (notify (with_config s (with_values c v))
       ("Error parsing values: " +:+ exn_msg e) "error", w).
Proof.
  intros Hname Hbuild Hload Htruthy Hlen.
  unfold generate_configuration, resolve, parse_values.
  rewrite Hname, Hbuild, Hload. cbn [negb].
  unfold py_or. rewrite Htruthy. cbn [with_values FleetConfig.values].
  now rewrite Hlen.
Qed.

(** X18. An empty values text gives the default template: when the values
    text parses to nothing (None, or any empty value), the configuration
    gets the empty dict as values, and the values document of the config
    object written is the default template for the chart name. *)
Theorem X18_empty_values_text_gives_default_template (s : t) (w : world)
    (c : FleetConfig.t) (v : pyval) :
  str_nonempty (app_name_input s) = true ->
  build_config s (app_name_input s) = inr c ->
  yaml_safe_load (chart_values_input s) = Ok v ->
  truthy v = false ->
  let c' := current_config (generate_configuration s w).1 in
  FleetConfig.values c' = PDict [] /\
  generate_values_yaml c'
  = DEFAULT_VALUES_TEMPLATE (py_str (FleetConfig.chart_name c)) /\
  py_path (configmap c') ["data"; "values.yaml"]
  = Some (PStr (DEFAULT_VALUES_TEMPLATE (py_str (FleetConfig.chart_name c)))).
Proof.
  intros Hname Hbuild Hload Hfalsy. cbv zeta.
  unfold generate_configuration, resolve, parse_values.
  rewrite Hname, Hbuild, Hload. cbn [negb].
  unfold py_or. rewrite Hfalsy. cbn [with_values FleetConfig.values py_len].
  destruct (generate_fleet_yaml _ _) as [fleet_yaml kubeconfig'].
  cbn [fst current_config notify with_preview with_config].
  split; [reflexivity|].
  assert (Hdoc : generate_values_yaml (finalize (with_values c (PDict [])))
                 = DEFAULT_VALUES_TEMPLATE (py_str (FleetConfig.chart_name c)))
    by reflexivity.
  split; [exact Hdoc|]. rewrite configmap_values_entry. now rewrite Hdoc.
Qed.

Lemma replace_char_length (old new : ascii) (s : string) :
  String.length (replace_char old new s) = String.length s.
Proof. induction s as [|c t IH]; cbn; [reflexivity | now rewrite IH]. Qed.

Lemma dashed_free (x : ascii) (s : string) :
  x = "/"%char \/ x = "_"%char ->
  contains (dashed s) (String x EmptyString) = false.
Proof.
  intros Hx. induction s as [|c t IH]; [now destruct Hx as [-> | ->]|].
  cbn [dashed contains String.prefix]. rewrite IH, orb_false_r.
  rewrite prefix_empty.
  destruct (Ascii.eqb c "/" || Ascii.eqb c "_") eqn:Hc.
  - destruct Hx as [-> | ->]; reflexivity.
  - apply orb_false_iff in Hc. destruct Hc as [Hs Hu].
    apply Ascii.eqb_neq in Hs, Hu.
    destruct (ascii_dec x c) as [->|Hne]; [|reflexivity].
    destruct Hx; contradiction.
Qed.

Lemma dashed_idempotent (s : string) : dashed (dashed s) = dashed s.
Proof.
  induction s as [|c t IH]; [reflexivity|]. cbn [dashed]. rewrite IH.
  destruct (Ascii.eqb c "/" || Ascii.eqb c "_") eqn:Hc; [reflexivity|].
  now rewrite Hc.
Qed.

(** X19. The components of a storage address are single path segments:
    the sanitized text has the length of the original, holds no '/' and no
    '_', and sanitizing it again changes nothing; the cluster folder is
    never empty. *)
Theorem X19_sanitized_names_are_path_segments (text : string)
    (cluster_name cluster_id : option string) :
  String.length (sanitize text) = String.length text /\
  contains (sanitize text) "/" = false /\
  contains (sanitize text) "_" = false /\
  sanitize (sanitize text) = sanitize text /\
  sanitize (first_truthy cluster_name cluster_id "default") <> EmptyString.
Proof.
  split; [unfold sanitize; now rewrite !replace_char_length|].
  rewrite !sanitize_dashed.
  split; [apply dashed_free; now left|].
  split; [apply dashed_free; now right|].
  split; [apply dashed_idempotent|].
  destruct cluster_name as [[|a n]|], cluster_id as [[|b i]|]; discriminate.
Qed.

Lemma build_config_again (s : t) (c0 : FleetConfig.t) (v : pyval)
    (preview message severity : string) :
  build_config s (app_name_input s) = inr c0 ->
  exists c0',
    build_config
      (notify (with_preview (with_config s (finalize (with_values c0 v)))
                 preview) message severity)
      (app_name_input s) = inr c0' /\
    forall x, with_values c0' x = with_values c0 x.
Proof.
  unfold build_config.
  cbn [chart_source_mode selected_chart selected_namespace selected_release
       default_namespace_input target_cluster_input current_config notify
       with_preview with_config].
  destruct (chart_source_mode s).
  - destruct (selected_chart s) as [[|a r]|]; try discriminate.
    intros [= <-]. eexists. split; reflexivity.
  - destruct (selected_namespace s) as [[|a r]|]; try discriminate.
    destruct (selected_release s); try discriminate.
    intros [= <-]. eexists. split; reflexivity.
Qed.

Lemma resolve_again (s : t) (c : FleetConfig.t)
    (preview message severity : string) :
  resolve s = Resolved c ->
  resolve (notify (with_preview (with_config s (finalize c)) preview)
             message severity) = Resolved c.
Proof.
  unfold resolve.
  cbn [app_name_input chart_values_input notify with_preview with_config].
  destruct (str_nonempty (app_name_input s)); cbn [negb]; [|discriminate].
  destruct (build_config s (app_name_input s)) as [m|c0] eqn:Hbuild;
    [discriminate|].
  unfold parse_values at 1.
  destruct (yaml_safe_load (chart_values_input s)) as [v|e] eqn:Hload;
    [|discriminate].
  destruct (py_len _) as [n|e] eqn:Hlen; [|discriminate].
  intros [= <-].
  destruct (build_config_again s c0 (py_or v (PDict [])) preview message
              severity Hbuild) as (c0' & -> & Hsame).
  unfold parse_values. rewrite Hload, Hsame. now rewrite Hlen.
Qed.

Lemma ensure_kubeconfig_again (current : option string) :
  Kube.ensure_kubeconfig (Kube.ensure_kubeconfig current).2
  = Kube.ensure_kubeconfig current.
Proof.
  unfold Kube.ensure_kubeconfig.
  unfold Kube.ensure_kubeconfig_logged at 2 3.
  destruct (Kube.path_truthy current) eqn:Hcur; cbn [fst snd].
  - unfold Kube.ensure_kubeconfig_logged. now rewrite Hcur.
  - destruct (Kube.path_truthy Kube.generate_temp_kubeconfig) eqn:Hgen;
      cbn [fst snd]; unfold Kube.ensure_kubeconfig_logged.
    + now rewrite Hgen.
    + now rewrite Hcur, Hgen.
Qed.

Lemma ensure_kubeconfig_handed (current : option string) (path : string) :
  (Kube.ensure_kubeconfig current).1 = Some path ->
  Kube.ensure_kubeconfig (Kube.ensure_kubeconfig current).2
  = (Some path, (Kube.ensure_kubeconfig current).2).
Proof.
  intros Hpath. rewrite ensure_kubeconfig_again.
  destruct (Kube.ensure_kubeconfig current) as [handed current'] eqn:Hens.
  cbn [fst snd] in *. subst handed. f_equal.
Qed.

Lemma generate_fleet_yaml_again (c : FleetConfig.t) (current : option string) :
  generate_fleet_yaml c (generate_fleet_yaml c current).2
  = generate_fleet_yaml c current.
Proof.
  assert (Hmeta : lookup_chart_metadata c (lookup_chart_metadata c current).2
                  = lookup_chart_metadata c current).
  { unfold lookup_chart_metadata at 2 3.
    destruct (FleetConfig.chart_metadata c) as [|kv md] eqn:Hmd.
    2: { cbn [snd]. unfold lookup_chart_metadata. now rewrite Hmd. }
    destruct (FleetConfig.is_existing_release c
              && truthy (FleetConfig.release_name c)) eqn:Hcond.
    2: { cbn [snd]. unfold lookup_chart_metadata. now rewrite Hmd, Hcond. }
    pose proof (ensure_kubeconfig_again current) as Hagain.
    destruct (Kube.ensure_kubeconfig current) as [[path|] current'] eqn:Hens.
    - cbn [snd] in Hagain.
      rewrite !decoder_unfold. cbn [snd].
      unfold lookup_chart_metadata. rewrite Hmd, Hcond, Hagain.
      now rewrite decoder_unfold.
    - cbn [snd] in *. unfold lookup_chart_metadata.
      now rewrite Hmd, Hcond, Hagain. }
  unfold generate_fleet_yaml at 2 3.
  destruct (lookup_chart_metadata c current) as [md current'] eqn:Hlook.
  cbn [snd] in *. unfold generate_fleet_yaml. now rewrite Hmeta.
Qed.

Lemma insert_twice (a b x y : string) (m : gmap string string) :
  <[a:=x]> (<[b:=y]> (<[a:=x]> (<[b:=y]> m))) = <[a:=x]> (<[b:=y]> m).
Proof.
  apply map_eq. intros k.
  destruct (decide (a = k)) as [->|Ha], (decide (b = k)) as [->|Hb];
    repeat (rewrite lookup_insert_eq || rewrite lookup_insert_ne by assumption);
    reflexivity.
Qed.

Lemma generate_resolved (s : t) (w : world) (c : FleetConfig.t) :
  resolve s = Resolved c ->
  generate_configuration s w
  = (let cluster_folder :=
       sanitize (first_truthy (cluster_name w) (cluster_id w) "default") in
     let rendered := generate_fleet_yaml (finalize c) (current_kubeconfig w) in
     (notify
        (with_preview (with_config s (finalize c))
           ("# fleet.yaml" +:+ nl +:+ rendered.1 +:+ nl +:+ nl
              +:+ "# values.yaml" +:+ nl
              +:+ generate_values_yaml (finalize c)))
        (success_message s) "success",
      mkWorld
        (<[path_join
             (path_join (path_join (int_dir w) cluster_folder)
                (app_dir_name_of c))
             (app_dir_name_of c +:+ "-configmap.yaml")
           := generate_configmap_yaml (finalize c)]>
           (<[path_join
                (path_join (path_join (apps_dir w) cluster_folder)
                   (app_dir_name_of c)) "fleet.yaml" := rendered.1]>
              (files w)))
        (apps_dir w) (int_dir w) (cluster_id w) (cluster_name w) rendered.2)).
Proof.
  intros Hres. unfold generate_configuration. rewrite Hres. cbv zeta.
  now destruct (generate_fleet_yaml _ _).
Qed.

(** X16. Generation is an idempotent overwrite: generating again from the
    screen and the world a successful generation left behind gives the same
    world (the same two files with the same text, the same kubeconfig
    handle), the same configuration and the same preview. *)
Theorem X16_generating_twice_changes_nothing (s : t) (w : world)
    (c : FleetConfig.t) :
  resolve s = Resolved c ->
  let first := generate_configuration s w in
  let second := generate_configuration first.1 first.2 in
  second.2 = first.2 /\
  current_config second.1 = current_config first.1 /\
  preview_content second.1 = preview_content first.1.
Proof.
  intros Hres. cbv zeta.
  rewrite (generate_resolved s w c Hres). cbv zeta. cbn [fst snd].
  rewrite (generate_resolved _ _ c (resolve_again _ _ _ _ _ Hres)).
  cbv zeta.
  cbn [fst snd cluster_name cluster_id current_kubeconfig apps_dir int_dir
       files current_config preview_content notify with_preview with_config].
  rewrite generate_fleet_yaml_again, insert_twice. repeat split.
Qed.

End ArtifactsMore.

Lemma X15_generation_writes_two_files_witness :
  Screen.files
    (Screen.generate_configuration (E := Sample.world)
       (Sample.screen "replicaCount: 3") Sample.store).2
    !! "int/rancher-dev/prod-my-chart-x/prod-my-chart-x-configmap.yaml"
  = Some (Generator.generate_configmap_yaml (E := Sample.world)
            (Screen.current_config
               (Screen.generate_configuration (E := Sample.world)
                  (Sample.screen "replicaCount: 3") Sample.store).1)).
Proof.
  destruct (X15_generation_writes_two_files (E := Sample.world)
              (Sample.screen "replicaCount: 3") Sample.store _ eq_refl)
    as (_ & Hobject & _ & Hconfig).
  rewrite Hconfig. exact Hobject.
Defined.

Lemma X16_generating_twice_changes_nothing_witness :
  (Screen.generate_configuration (E := Sample.world)
     (Screen.generate_configuration (E := Sample.world)
        (Sample.screen "replicaCount: 3") Sample.store).1
     (Screen.generate_configuration (E := Sample.world)
        (Sample.screen "replicaCount: 3") Sample.store).2).2
  = (Screen.generate_configuration (E := Sample.world)
       (Sample.screen "replicaCount: 3") Sample.store).2.
Proof.
  exact (proj1 (X16_generating_twice_changes_nothing (E := Sample.world)
                  (Sample.screen "replicaCount: 3") Sample.store _ eq_refl)).
Defined.

Lemma X17_unsized_values_are_rejected_witness :
  yaml_safe_load (Externals := Fixture.world) "42" = Ok (PInt 42) /\
  Screen.generate_configuration (E := Fixture.world) (Sample.screen "42")
    Sample.store
  = (Screen.notify
       (Screen.with_config (Sample.screen "42")
          (FleetConfig.mk "demo" "prod" (PStr "my_chart/x") (PStr "latest")
             EEA_HELM_REPO (PInt 42) EmptyString false (PStr EmptyString) []
             FleetYamlConfig.default))
       "Error parsing values: object of type 'int' has no len()" "error",
     Sample.store).
Proof.
  split; [reflexivity|].
  exact (X17_unsized_values_are_rejected (E := Fixture.world)
           (Sample.screen "42") Sample.store _ (PInt 42)
           (mkExn TypeError "object of type 'int' has no len()")
           eq_refl eq_refl eq_refl eq_refl eq_refl).
Defined.

Lemma X18_empty_values_text_gives_default_template_witness :
  yaml_safe_load (Externals := Sample.world) EmptyString = Ok PNone /\
  Generator.generate_values_yaml (E := Sample.world)
    (Screen.current_config
       (Screen.generate_configuration (E := Sample.world)
          (Sample.screen EmptyString) Sample.store).1)
  = Generator.DEFAULT_VALUES_TEMPLATE "my_chart/x".
Proof.
  split; [reflexivity|].
  exact (proj1 (proj2 (X18_empty_values_text_gives_default_template
                         (E := Sample.world) (Sample.screen EmptyString)
                         Sample.store _ PNone eq_refl eq_refl eq_refl
                         eq_refl))).
Defined.

(** ** Settings and the Rancher context *)

Section SettingsMore.
Context {E : Externals}.
Import Settings.

Lemma dict_lookup_set_eq (d : dict) (k : string) (v : pyval) :
  dict_lookup (dict_set d k v) k = Some v.
Proof.
  induction d as [|[k' v'] t IH]; cbn [dict_set dict_lookup].
  - now rewrite String.eqb_refl.
  - destruct (String.eqb k' k) eqn:Hk; cbn [dict_lookup]; now rewrite Hk.
Qed.

Lemma dict_lookup_set_ne (d : dict) (k k' : string) (v : pyval) :
  k <> k' -> dict_lookup (dict_set d k v) k' = dict_lookup d k'.
Proof.
  intros Hne. induction d as [|[k0 v0] t IH]; cbn [dict_set dict_lookup].
  - apply String.eqb_neq in Hne. now rewrite Hne.
  - destruct (String.eqb k0 k) eqn:Hk; cbn [dict_lookup].
    + apply String.eqb_eq in Hk. subst k0.
      apply String.eqb_neq in Hne. now rewrite Hne.
    + now rewrite IH.
Qed.



Lemma context_settings_lookup (d : dict) (c i n : pyval) :
  dict_lookup (context_settings d c i n) "current_cluster_context" = Some c /\
  dict_lookup (context_settings d c i n) "current_cluster_id" = Some i /\
  dict_lookup (context_settings d c i n) "current_cluster_name" = Some n.
Proof.
  unfold context_settings. repeat split.
  - rewrite !dict_lookup_set_ne by discriminate. apply dict_lookup_set_eq.
  - rewrite dict_lookup_set_ne by discriminate. apply dict_lookup_set_eq.
  - apply dict_lookup_set_eq.
Qed.

Lemma set_rancher_context_dict (d : dict) (c i n : pyval) (st : state) :
  _settings st = PDict d ->
  set_rancher_context c i n st
  = (Ok tt,
     mkState (PDict (context_settings d c i n))
       (Some (json_dumps (PDict (context_settings d c i n)))) c i n).
Proof.
  intros Hd. unfold set_rancher_context, set_setting, save_settings.
  cbn [_settings with_settings settings_file _current_cluster_context
       _current_cluster_id _current_cluster_name settings_update].
  rewrite Hd. reflexivity.
Qed.

Lemma context_from_settings (d : dict) (file : option string)
    (c i n c0 i0 n0 : pyval) :
  truthy c0 = false ->
  get_current_rancher_context
    (mkState (PDict (context_settings d c i n)) file c0 i0 n0)
  = (Ok (c, i, n), mkState (PDict (context_settings d c i n)) file c i n).
Proof.
  intros Hfalsy. unfold get_current_rancher_context, get_setting.
  cbn [_current_cluster_context _settings settings_file _current_cluster_id
       _current_cluster_name py_get].
  rewrite Hfalsy. unfold dict_get.
  destruct (context_settings_lookup d c i n) as (-> & -> & ->).
  reflexivity.
Qed.

(** X20. The context round trip: after [set_rancher_context] on settings
    that are a dict, [get_current_rancher_context] returns the three values
    that were set, whatever they are (an empty context included, which is
    read back from the settings), and leaves the state as it is. *)
Theorem X20_context_set_then_get (d : dict)
    (context cluster_id cluster_name : pyval) (st : state) :
  _settings st = PDict d ->
  exists st',
    set_rancher_context context cluster_id cluster_name st = (Ok tt, st') /\
    get_current_rancher_context st'
    = (Ok (context, cluster_id, cluster_name), st').
Proof.
  intros Hd. rewrite (set_rancher_context_dict d _ _ _ st Hd).
  eexists. split; [reflexivity|].
  destruct (truthy context) eqn:Ht.
  - unfold get_current_rancher_context.
    cbn [_current_cluster_context _current_cluster_id _current_cluster_name].
    now rewrite Ht.
  - now apply context_from_settings.
Qed.

(** X21. The context survives a restart: when the settings file that
    [set_rancher_context] wrote is read back as written, a process started
    on that file finds, after [load_settings], the same cluster context, id
    and name. *)
Theorem X21_context_survives_restart (d : dict)
    (context cluster_id cluster_name : pyval) (st : state) :
  _settings st = PDict d ->
  let written := PDict (context_settings d context cluster_id cluster_name) in
  json_loads (json_dumps written) = Ok written ->
  let st' := (set_rancher_context context cluster_id cluster_name st).2 in
  load_settings (restarted st') = (written, with_settings (restarted st') written) /\
  (get_current_rancher_context (load_settings (restarted st')).2).1
  = Ok (context, cluster_id, cluster_name).
Proof.
  intros Hd written Hjson. cbv zeta.
  rewrite (set_rancher_context_dict d _ _ _ st Hd). cbn [snd].
  unfold load_settings, restarted. cbn [settings_file]. fold written.
  rewrite Hjson. split; [reflexivity|]. cbn [snd with_settings settings_file
    _current_cluster_context _current_cluster_id _current_cluster_name].
  unfold written, with_settings.
  cbn [settings_file _current_cluster_context _current_cluster_id
       _current_cluster_name].
  now rewrite context_from_settings.
Qed.


End SettingsMore.

Lemma X20_context_set_then_get_witness :
  Settings._settings Fixture.first_run = PDict Fixture.stored_settings /\
  exists st',
    Settings.set_rancher_context (E := Fixture.world)
      (PStr "c-abc12:p-xyz34") (PStr "c-abc12") (PStr "02pre")
      Fixture.first_run = (Ok tt, st') /\
    Settings.get_current_rancher_context st'
    = (Ok (PStr "c-abc12:p-xyz34", PStr "c-abc12", PStr "02pre"), st').
Proof.
  split; [reflexivity|].
  exact (X20_context_set_then_get (E := Fixture.world)
           Fixture.stored_settings _ _ _ Fixture.first_run eq_refl).
Defined.

Lemma X21_context_survives_restart_witness :
  json_loads (Externals := Fixture.world)
    (json_dumps (Externals := Fixture.world) Fixture.settings_document)
  = Ok Fixture.settings_document /\
  (Settings.get_current_rancher_context
     (Settings.load_settings (E := Fixture.world)
        (Settings.restarted
           (Settings.set_rancher_context (E := Fixture.world)
              (PStr "c-abc12:p-xyz34") (PStr "c-abc12") (PStr "02pre")
              Fixture.first_run).2)).2).1
  = Ok (PStr "c-abc12:p-xyz34", PStr "c-abc12", PStr "02pre").
Proof.
  assert (Hread : json_loads (Externals := Fixture.world)
                    (json_dumps (Externals := Fixture.world)
                       Fixture.settings_document)
                  = Ok Fixture.settings_document)
    by (vm_compute; reflexivity).
  split; [exact Hread|].
  exact (proj2 (X21_context_survives_restart (E := Fixture.world)
                  Fixture.stored_settings _ _ _ Fixture.first_run eq_refl
                  Hread)).
Defined.


(** ** The two modes of a generation request *)

Section ModesMore.
Context {E : Externals}.
Import Generator Screen.



(** X24. Repository mode resets the chart version to "latest" but keeps
    the metadata the screen's configuration already holds. A non-empty
    version stored there, as an earlier generation in cluster mode leaves
    it, becomes the helm version of the manifest of the chart now selected;
    with no stored metadata and no existing release the version is "latest"
    and the manifest is the bare serialization, without comment header. *)
Theorem X24_repository_mode_keeps_stored_metadata (s : t) (w : world)
    (c : FleetConfig.t) :
  chart_source_mode s = repository ->
  resolve s = Resolved c ->
  let held := current_config s in
  let chart_metadata :=
    (lookup_chart_metadata (finalize c) (current_kubeconfig w)).1 in
  FleetConfig.chart_version (finalize c) = PStr "latest" /\
  FleetConfig.chart_metadata (finalize c) = FleetConfig.chart_metadata held /\
  (forall version,
     dict_lookup (FleetConfig.chart_metadata held) "version" = Some version ->
     truthy version = true ->
     helm_section_version (fleet_content (finalize c) chart_metadata)
     = Some version) /\
  (FleetConfig.chart_metadata held = [] ->
   FleetConfig.is_existing_release held = false ->
   helm_section_version (fleet_content (finalize c) chart_metadata)
   = Some (PStr "latest") /\
   generate_fleet_yaml (finalize c) (current_kubeconfig w)
   = (or_empty (yaml_dump (fleet_content (finalize c) [])),
      current_kubeconfig w)).
Proof.
  intros Hmode Hres. cbv zeta.
  assert (Hshape :
    FleetConfig.chart_metadata c = FleetConfig.chart_metadata (current_config s) /\
    FleetConfig.is_existing_release c
    = FleetConfig.is_existing_release (current_config s) /\
    FleetConfig.chart_version c = PStr "latest").
  { revert Hres. unfold resolve.
    destruct (str_nonempty (app_name_input s)); cbn [negb]; [|discriminate].
    unfold build_config. rewrite Hmode.
    destruct (selected_chart s) as [[|a r]|]; try discriminate.
    unfold parse_values.
    destruct (yaml_safe_load (chart_values_input s)); [|discriminate].
    destruct (py_len _); [|discriminate].
    intros [= <-]. repeat split. }
  destruct Hshape as (Hmd & Hexisting & Hcv).
  split; [exact Hcv|]. split; [exact Hmd|]. split.
  - intros version Hversion Htruthy.
    unfold lookup_chart_metadata, finalize, with_app_name.
    cbn [FleetConfig.chart_metadata]. rewrite Hmd.
    destruct (FleetConfig.chart_metadata (current_config s)) as [|kv md] eqn:Hheld;
      [discriminate|].
    cbn [fst fleet_content helm_section_version dict_lookup app String.eqb
         Ascii.eqb Bool.eqb helm_config].
    f_equal. unfold helm_version, dict_get.
    cbn [FleetConfig.chart_version]. rewrite Hcv, Hversion, Htruthy.
    reflexivity.
  - intros Hnone Hfresh.
    assert (Hlook : lookup_chart_metadata (finalize c) (current_kubeconfig w)
                    = ([], current_kubeconfig w)).
    { unfold lookup_chart_metadata, finalize, with_app_name.
      cbn [FleetConfig.chart_metadata FleetConfig.is_existing_release].
      now rewrite Hmd, Hnone, Hexisting, Hfresh. }
    rewrite Hlook. cbn [fst]. split.
    + cbn [fleet_content helm_section_version dict_lookup app String.eqb
           Ascii.eqb Bool.eqb helm_config].
      f_equal. unfold helm_version. cbn [list_nonempty andb].
      change (FleetConfig.chart_version (finalize c))
        with (FleetConfig.chart_version c).
      now rewrite Hcv.
    + unfold generate_fleet_yaml. rewrite Hlook.
      cbn [metadata_comments]. f_equal.
      now destruct (yaml_dump _).
Qed.

End ModesMore.


Lemma X24_repository_mode_keeps_stored_metadata_witness :
  let held :=
    Screen.current_config
      (Screen.generate_configuration (E := Fixture.world)
         Fixture.cluster_screen Sample.store).1 in
  let c :=
    FleetConfig.mk "demo" "data" (PStr "postgres") (PStr "latest")
      EEA_HELM_REPO (PDict []) EmptyString true (PStr "web")
      [("name", PStr "nginx"); ("version", PStr "1.2.0");
       ("appVersion", PStr "1.25")] FleetYamlConfig.default in
  Screen.resolve (E := Fixture.world) (Fixture.repository_screen held)
  = Screen.Resolved c /\
  Generator.helm_section_version
    (Generator.fleet_content (Screen.finalize (E := Fixture.world) c)
       (Generator.lookup_chart_metadata (E := Fixture.world)
          (Screen.finalize (E := Fixture.world) c) None).1)
  = Some (PStr "1.2.0").
Proof.
  cbv zeta.
  assert (Hres : Screen.resolve (E := Fixture.world)
                   (Fixture.repository_screen
                      (Screen.current_config
                         (Screen.generate_configuration (E := Fixture.world)
                            Fixture.cluster_screen Sample.store).1))
                 = Screen.Resolved
                     (FleetConfig.mk "demo" "data" (PStr "postgres")
                        (PStr "latest") EEA_HELM_REPO (PDict []) EmptyString
                        true (PStr "web")
                        [("name", PStr "nginx"); ("version", PStr "1.2.0");
                         ("appVersion", PStr "1.25")] FleetYamlConfig.default))
    by (vm_compute; reflexivity).
  split; [exact Hres|].
  destruct (X24_repository_mode_keeps_stored_metadata (E := Fixture.world)
              (Fixture.repository_screen
                 (Screen.current_config
                    (Screen.generate_configuration (E := Fixture.world)
                       Fixture.cluster_screen Sample.store).1))
              Sample.store _ eq_refl Hres) as (_ & _ & Hstored & _).
  apply Hstored; vm_compute; reflexivity.
Defined.

(** ** Namespaces and deployment *)

Section ClusterMore.
Context {E : Externals}.
Import Generator Cluster.

Lemma collect_namespaces_lines (lines : list string) (namespaces : list pyval) :
  (forall line e, In line lines -> json_loads (strip line) = Raise e ->
     isinstance_JSONDecodeError (exn_kind e) = true) ->
  collect_namespaces lines namespaces
  = Ok (namespaces ++ flat_map line_namespaces lines).
Proof.
  revert namespaces.
  induction lines as [|line rest IH]; intros namespaces Hskip.
  - cbn. now rewrite app_nil_r.
  - cbn [collect_namespaces flat_map]. unfold line_namespaces at 1.
    assert (Hrest : forall l e, In l rest -> json_loads (strip l) = Raise e ->
                      isinstance_JSONDecodeError (exn_kind e) = true)
      by (intros l e Hin; apply Hskip; now right).
    destruct (str_nonempty (strip line)).
    + destruct (json_loads (strip line)) as [data|e] eqn:Hload.
      * cbn [bind try_except]. rewrite (IH _ Hrest). now rewrite <- app_assoc.
      * cbn [bind try_except].
        rewrite (Hskip line e (or_introl eq_refl) Hload).
        cbn [bind]. now rewrite (IH _ Hrest).
    + now rewrite (IH _ Hrest).
Qed.


(** X25. The namespace listing reads its output line by line and skips what
    it cannot parse: when the command succeeds and no line raises anything
    but a JSON decode error, the namespaces are those of the well-formed
    lines, in order, and a namespace named on such a line exists whatever
    the other lines hold. *)
Theorem X25_namespace_listing_skips_malformed_lines (output : string) :
  run_rancher_command namespaces_args = (true, output) ->
  (forall line e, In line (split_lines (strip output)) ->
     json_loads (strip line) = Raise e ->
     isinstance_JSONDecodeError (exn_kind e) = true) ->
  (str_nonempty (strip output) = true ->
   list_namespaces = flat_map line_namespaces (split_lines (strip output))) /\
  (forall line namespace,
     In line (split_lines (strip output)) ->
     In (PStr namespace) (line_namespaces line) ->
     namespace_exists namespace = true).
Proof.
  intros Hrun Hskip.
  assert (Hlist : str_nonempty (strip output) = true ->
            list_namespaces
            = flat_map line_namespaces (split_lines (strip output))).
  { intros Hout. unfold list_namespaces. rewrite Hrun, Hout. cbn [andb].
    now rewrite (collect_namespaces_lines _ [] Hskip). }
  split; [exact Hlist|].
  intros line namespace Hline Hnamed.
  destruct (str_nonempty (strip output)) eqn:Hout.
  - unfold namespace_exists. rewrite (Hlist eq_refl).
    apply existsb_exists. exists (PStr namespace). split.
    + apply in_flat_map. now exists line.
    + cbn. apply String.eqb_refl.
  - destruct (strip output); [|discriminate].
    destruct Hline as [<-|[]]. contradiction Hnamed.
Qed.


End ClusterMore.

Lemma X25_namespace_listing_skips_malformed_lines_witness :
  run_rancher_command (Externals := Fixture.world) Cluster.namespaces_args
  = (true, Fixture.namespaces_output) /\
  Cluster.list_namespaces (E := Fixture.world) = [PStr "prod"; PStr "data"] /\
  Cluster.namespace_exists (E := Fixture.world) "data" = true.
Proof.
  split; [reflexivity|].
  assert (Hskip : forall line e,
            In line (Cluster.split_lines (strip Fixture.namespaces_output)) ->
            json_loads (Externals := Fixture.world) (strip line) = Raise e ->
            isinstance_JSONDecodeError (exn_kind e) = true).
  { intros line e Hin Hload. vm_compute in Hin.
    destruct Hin as [<-|[<-|[<-|[]]]]; vm_compute in Hload;
      try discriminate Hload.
    injection Hload as <-. reflexivity. }
  destruct (X25_namespace_listing_skips_malformed_lines (E := Fixture.world)
              Fixture.namespaces_output eq_refl Hskip) as (Hlist & Hexists).
  split.
  - rewrite (Hlist eq_refl). vm_compute. reflexivity.
  - apply (Hexists
             ("  " +:+ Sample.render_json (PDict [("ID", PStr "data")])));
      vm_compute; auto.
Defined.

